(** * The entity models and the generic repository of the correlation
      discovery service, embedded in Rocq

    Sources embedded here:
    - [BaseModel]                     (models/BaseModel.js)
    - [Correlation], [Dataset]        (models/Correlation.js, models/Dataset.js)
    - [BaseRepository], [DatasetRepository]
                                      (repositories/*.js)
    - [DatabaseManager.transaction]   (utils/database.js)

    JavaScript objects whose key order is never observed (instances, the
    [data] bags handed to constructors, storage rows) are finite maps from
    property names to values.  Objects whose key order is observed (the
    result of [toJSON], whose keys become the column list; the [where] bag
    walked by [Object.entries]) are association lists in property order.

    Values are data: undefined, null, booleans, numbers, strings, dates,
    arrays and plain objects.  Numbers are exact rationals plus NaN: the
    development does not track the rounding of IEEE doubles, the
    infinities or the negative zero.  Function objects occur only as the
    methods an instance inherits, see [param]. *)

From Stdlib Require Import Ascii String QArith Qround Qabs Qcanon.
From stdpp Require Import gmap strings list fin_maps pretty.

Set Warnings "-register-all".
#[local] Open Scope string_scope.

(** ** JavaScript values and the primitives the sources use *)

Module JS.

Inductive value : Type :=
| VUndefined
| VNull
| VBool (b : bool)
| VNaN
| VNum (q : Qc)
| VStr (s : string)
| VDate (ms : Z) (iso : string)   (* a Date: its time value and its toISOString() *)
| VArr (l : list value)
| VObj (m : gmap string value).

(** A thrown [Error]: only its message is tracked. *)
Inductive result (A : Type) : Type :=
| Ok (a : A)
| Throw (msg : string).
Arguments Ok {A} a.
Arguments Throw {A} msg.

Definition qc (z : Z) : Qc := Q2Qc (inject_Z z).
Definition num (z : Z) : value := VNum (qc z).
Definition qc_eqb (a b : Qc) : bool := Qeq_bool (this a) (this b).
Definition qc_leb (a b : Qc) : bool := Qle_bool (this a) (this b).
Definition qc_ltb (a b : Qc) : bool := negb (Qle_bool (this b) (this a)).
Definition qc_is_int (a : Qc) : bool := Pos.eqb (Qden (this a)) 1.

(** Numbers are kept exact, as rationals, where JavaScript computes on
    doubles.  The two agree on the safe integers
    ([Number.isSafeInteger]: magnitude at most 2^53 - 1) and on the sums
    and readings that stay among them; rounding beyond that range and
    the infinities are not part of the development, and what is proved
    of an arithmetic result is proved within the range. *)
Definition isSafeInteger (z : Z) : bool := (Z.abs z <=? 2 ^ 53 - 1)%Z.

(** ToBoolean *)
Definition truthy (v : value) : bool :=
  match v with
  | VUndefined | VNull | VNaN => false
  | VBool b => b
  | VNum q => negb (qc_eqb q (qc 0))
  | VStr s => negb (String.eqb s "")
  | VDate _ _ | VArr _ | VObj _ => true
  end.

(** [v === undefined] *)
Definition is_undefined (v : value) : bool :=
  match v with
  | VUndefined => true
  | _ => false
  end.

(** [a || b] *)
Definition or (a b : value) : value := if truthy a then a else b.

(** [a === b].  Objects, arrays, dates and functions are compared by
    reference in JavaScript; the development has no references, and two
    such values are never identical here. *)
Definition strict_eq (a b : value) : bool :=
  match a, b with
  | VUndefined, VUndefined | VNull, VNull => true
  | VBool x, VBool y => Bool.eqb x y
  | VNum x, VNum y => qc_eqb x y
  | VStr x, VStr y => String.eqb x y
  | _, _ => false
  end.

(** *** Reading numbers out of strings *)

Definition is_ws (c : ascii) : bool :=
  let n := nat_of_ascii c in
  (Nat.leb 9 n && Nat.leb n 13) || Nat.eqb n 32.

Definition digit_of (c : ascii) : option Z :=
  let n := Z.of_nat (nat_of_ascii c) in
  if ((48 <=? n) && (n <=? 57))%Z then Some (n - 48)%Z else None.

Definition hex_of (c : ascii) : option Z :=
  let n := Z.of_nat (nat_of_ascii c) in
  if ((48 <=? n) && (n <=? 57))%Z then Some (n - 48)%Z
  else if ((65 <=? n) && (n <=? 70))%Z then Some (n - 55)%Z
  else if ((97 <=? n) && (n <=? 102))%Z then Some (n - 87)%Z
  else None.

Fixpoint skip_ws (s : string) : string :=
  match s with
  | String c r => if is_ws c then skip_ws r else s
  | EmptyString => s
  end.

Definition trim (s : string) : string :=
  String.rev (skip_ws (String.rev (skip_ws s))).

(** The leading run of digits in base [b]: its value, its length, the rest. *)
Fixpoint take_digits (dig : ascii -> option Z) (b : Z) (s : string) (acc : Z) (n : nat)
  : Z * nat * string :=
  match s with
  | String c r =>
      match dig c with
      | Some d => take_digits dig b r (b * acc + d)%Z (S n)
      | None => (acc, n, s)
      end
  | EmptyString => (acc, n, s)
  end.

Definition take_sign (s : string) : bool * string :=
  match s with
  | String "-" r => (true, r)
  | String "+" r => (false, r)
  | _ => (false, s)
  end.

Definition pow10 (e : Z) : Q :=
  if (0 <=? e)%Z then inject_Z (10 ^ e) else Qmake 1 (Z.to_pos (10 ^ (- e))).

(** The longest prefix that is a decimal literal
    ([+-]digits[.digits][e[+-]digits], or .digits): its value and the rest. *)
Definition parse_decimal (s : string) : option (Q * string) :=
  let '(neg, s1) := take_sign s in
  let '(ip, ni, s2) := take_digits digit_of 10 s1 0%Z 0%nat in
  let '(fp, nf, s3) :=
    match s2 with
    | String "." r => take_digits digit_of 10 r 0%Z 0%nat
    | _ => (0%Z, 0%nat, s2)
    end in
  if Nat.eqb ni 0 && Nat.eqb nf 0 then None else
  let scale := (10 ^ Z.of_nat nf)%Z in
  let mant := Qmake (ip * scale + fp) (Z.to_pos scale) in
  let '(ex, s4) :=
    match s3 with
    | String c r =>
        if Ascii.eqb c "e" || Ascii.eqb c "E" then
          let '(eneg, r1) := take_sign r in
          let '(ev, ne, r2) := take_digits digit_of 10 r1 0%Z 0%nat in
          if Nat.eqb ne 0 then (0%Z, s3) else ((if eneg then - ev else ev)%Z, r2)
        else (0%Z, s3)
    | EmptyString => (0%Z, s3)
    end in
  let v := Qmult mant (pow10 ex) in
  Some (if neg then Qopp v else v, s4).

(** [parseFloat] of a string *)
Definition parseFloat_str (s : string) : value :=
  match parse_decimal (skip_ws s) with
  | Some (q, _) => VNum (Q2Qc q)
  | None => VNaN
  end.

(** [parseInt] of a string, without radix argument *)
Definition parseInt_str (s : string) : value :=
  let '(neg, s1) := take_sign (skip_ws s) in
  let '(v, n, _) :=
    match s1 with
    | String "0" (String x r) =>
        if Ascii.eqb x "x" || Ascii.eqb x "X"
        then take_digits hex_of 16 r 0%Z 0%nat
        else take_digits digit_of 10 s1 0%Z 0%nat
    | _ => take_digits digit_of 10 s1 0%Z 0%nat
    end in
  if Nat.eqb n 0 then VNaN else num (if neg then - v else v).

(** ToNumber of a string: the whole trimmed string has to be a numeral. *)
Definition string_to_number (s : string) : value :=
  let t := trim s in
  match t with
  | EmptyString => num 0
  | String "0" (String x r) =>
      if Ascii.eqb x "x" || Ascii.eqb x "X" then
        match take_digits hex_of 16 r 0%Z 0%nat with
        | (v, S _, EmptyString) => num v
        | _ => VNaN
        end
      else match parse_decimal t with
           | Some (q, EmptyString) => VNum (Q2Qc q)
           | _ => VNaN
           end
  | _ => match parse_decimal t with
         | Some (q, EmptyString) => VNum (Q2Qc q)
         | _ => VNaN
         end
  end.

(** *** Writing numbers (Number::toString, radix 10) *)

(** Least [k] with [a * 10^k >= 1], for [0 < a < 1]. *)
Fixpoint small_exp (fuel : nat) (a : Q) (k : Z) : Z :=
  match fuel with
  | O => k
  | S f => if Qle_bool 1 a then k else small_exp f (Qmult a 10) (k + 1)%Z
  end.

(** Significant digits of [s], [0 <= s < 10], at most [fuel] of them. *)
Fixpoint sig_digits (fuel : nat) (s : Q) : list Z :=
  match fuel with
  | O => []
  | S f =>
      let d := Qfloor s in
      let r := Qmult (Qminus s (inject_Z d)) 10 in
      d :: (if Qeq_bool r 0 then [] else sig_digits f r)
  end.

Definition digits_string (ds : list Z) : string :=
  String.concat "" (List.map (fun d : Z => pretty d) ds).

Definition zeros (n : nat) : string := String.concat "" (List.repeat "0" n).

Definition number_to_string (q : Qc) : string :=
  let x := this q in
  if Qeq_bool x 0 then "0" else
  let a := Qabs x in
  let sign := if Qle_bool 0 x then "" else "-" in
  if qc_is_int q && negb (Qle_bool (inject_Z (10 ^ 21)) a)
  then pretty (Qnum x)
  else
    (* 10^e <= a < 10^(e+1) *)
    let e :=
      if Qle_bool 1 a
      then (Z.of_nat (String.length (pretty (Qfloor a))) - 1)%Z
      else (- small_exp (Pos.size_nat (Qden a)) a 0)%Z in
    let ds := sig_digits 17 (Qmult a (pow10 (- e))) in
    let k := Z.of_nat (length ds) in
    let n := (e + 1)%Z in
    sign +:+
    (if ((k <=? n) && (n <=? 21))%Z then
       digits_string ds +:+ zeros (Z.to_nat (n - k))
     else if ((0 <? n) && (n <=? 21))%Z then
       digits_string (take (Z.to_nat n) ds) +:+ "." +:+ digits_string (drop (Z.to_nat n) ds)
     else if ((-6 <? n) && (n <=? 0))%Z then
       "0." +:+ zeros (Z.to_nat (- n)) +:+ digits_string ds
     else
       digits_string (take 1 ds) +:+
       (match drop 1 ds with [] => "" | rest => "." +:+ digits_string rest end) +:+
       "e" +:+ (if (0 <=? e)%Z then "+" else "-") +:+ pretty (Z.abs e)).

(** ToString, as template literals and [parseInt] apply it.  A Date is
    written by its ISO form: its JavaScript rendering (local time, weekday
    first) is not tracked. *)
Fixpoint to_string (v : value) : string :=
  match v with
  | VUndefined => "undefined"
  | VNull => "null"
  | VBool b => if b then "true" else "false"
  | VNaN => "NaN"
  | VNum q => number_to_string q
  | VStr s => s
  | VDate _ iso => iso
  | VArr l =>
      String.concat ","
        (List.map (fun x => match x with
                            | VUndefined | VNull => ""
                            | _ => to_string x
                            end) l)
  | VObj _ => "[object Object]"
  end.

(** ToNumber *)
Definition to_number (v : value) : value :=
  match v with
  | VUndefined | VNaN | VObj _ => VNaN
  | VNull => num 0
  | VBool b => num (if b then 1 else 0)
  | VNum q => VNum q
  | VStr s => string_to_number s
  | VDate ms _ => num ms
  | VArr _ => string_to_number (to_string v)
  end.

(** [parseInt(v)]: the integer prefix of ToString(v).  The rendering of a
    date (weekday first) never starts with a numeral. *)
Definition parseInt (v : value) : value :=
  match v with
  | VDate _ _ => VNaN
  | _ => parseInt_str (to_string v)
  end.

(** [parseFloat(v)].  On a number, writing and reading back is the identity. *)
Definition parseFloat (v : value) : value :=
  match v with
  | VNum q => VNum q
  | VDate _ _ => VNaN
  | _ => parseFloat_str (to_string v)
  end.

(** [v < q], [v > q], [v >= q] against a number literal [q]. *)
Definition lt_num (v : value) (q : Qc) : bool :=
  match to_number v with VNum x => qc_ltb x q | _ => false end.
Definition gt_num (v : value) (q : Qc) : bool :=
  match to_number v with VNum x => qc_ltb q x | _ => false end.
Definition ge_num (v : value) (q : Qc) : bool :=
  match to_number v with VNum x => qc_leb q x | _ => false end.

(** The value [v++] stores *)
Definition incr (v : value) : value :=
  match to_number v with VNum x => VNum (x + 1)%Qc | _ => VNaN end.

(** [String.prototype.includes] *)
Fixpoint str_includes (s t : string) : bool :=
  String.prefix t s ||
  match s with
  | String _ r => str_includes r t
  | EmptyString => false
  end.

(** [Array.prototype.includes] *)
Definition includes (l : list value) (x : value) : bool :=
  existsb (fun y => strict_eq y x || (match y, x with VNaN, VNaN => true | _, _ => false end)) l.

End JS.

(** ** The Joi validator, as the model schemas use it

    Joi is a dependency of the repository.  The definitions below follow
    its validation pass (version 17) for the types and rules that occur in
    the schemas: presence, the allowed values of [valid]/[allow], the base
    type with conversion of numeric strings, then the rules.  Two options
    that [BaseModel.validate] passes are parameters here: [abortEarly], and
    [allowUnknown] which makes keys outside the schema count for nothing.
    The test for ISO-8601 date strings is a parameter of the development. *)

Module Joi.
Import JS.

Inductive base : Type := TString | TNumber | TObject | TArray | TDateIso.

Inductive rule : Type :=
| Guid                (* string().guid() *)
| Min (q : Qc)        (* .min(q): length for strings, value for numbers *)
| Max (q : Qc)
| Integer.            (* number().integer() *)

Inductive schema : Type :=
  Schema (ty : base) (required : bool) (valids : list value) (only : bool)
         (rules : list rule) (items : option schema).

Definition dq : string := String (ascii_of_nat 34) EmptyString.
Definition label (k : string) : string := dq +:+ k +:+ dq.

(** [string().guid()]: an optional opening bracket, 8-4-4-4-12 hexadecimal
    digits with one optional separator [-] or [:] used throughout, and the
    matching closing bracket. *)
Fixpoint expect_hex (n : nat) (s : string) : option string :=
  match n with
  | O => Some s
  | S m =>
      match s with
      | String c r => match hex_of c with Some _ => expect_hex m r | None => None end
      | EmptyString => None
      end
  end.

Definition skip_char (c : option ascii) (s : string) : string :=
  match c, s with
  | Some a, String b r => if Ascii.eqb a b then r else s
  | _, _ => s
  end.

Definition is_guid (s : string) : bool :=
  let '(op, s0) :=
    match s with
    | String c r =>
        if Ascii.eqb c "[" then (Some "]"%char, r)
        else if Ascii.eqb c "{" then (Some "}"%char, r)
        else if Ascii.eqb c "(" then (Some ")"%char, r)
        else (None, s)
    | EmptyString => (None, s)
    end in
  match expect_hex 8 s0 with
  | None => false
  | Some s1 =>
      let sep :=
        match s1 with
        | String c _ => if Ascii.eqb c ":" || Ascii.eqb c "-" then Some c else None
        | EmptyString => None
        end in
      match expect_hex 4 (skip_char sep s1) with
      | None => false
      | Some s2 =>
          match expect_hex 4 (skip_char sep s2) with
          | None => false
          | Some s3 =>
              match expect_hex 4 (skip_char sep s3) with
              | None => false
              | Some s4 =>
                  match expect_hex 12 (skip_char sep s4) with
                  | None => false
                  | Some s5 =>
                      match op, s5 with
                      | None, EmptyString => true
                      | Some cl, String c EmptyString => Ascii.eqb c cl
                      | _, _ => false
                      end
                  end
              end
          end
      end
  end.

(** The numeric strings Joi converts: a decimal literal between blanks. *)
Definition numeric_string (s : string) : option Qc :=
  match parse_decimal (skip_ws s) with
  | Some (q, r) => if String.eqb (skip_ws r) "" then Some (Q2Qc q) else None
  | None => None
  end.

Definition max_safe : Qc := qc 9007199254740991.

Definition render_valid (v : value) : string := to_string v.

Section Validate.
Variable is_iso_date : string -> bool.

(** Conversion for the type ([convert] is on by default). *)
Definition coerce (ty : base) (v : value) : value :=
  match ty, v with
  | TNumber, VStr s => match numeric_string s with Some q => VNum q | None => v end
  | _, _ => v
  end.

(** The base type: [None] when the value has it, or the message. *)
Definition base_error (ty : base) (lbl : string) (v : value) : option string :=
  match ty, v with
  | TString, VStr s =>
      if String.eqb s "" then Some (lbl +:+ " is not allowed to be empty") else None
  | TString, _ => Some (lbl +:+ " must be a string")
  | TNumber, VNum q =>
      if qc_ltb max_safe q || qc_ltb q (- max_safe)%Qc
      then Some (lbl +:+ " must be a safe number") else None
  | TNumber, _ => Some (lbl +:+ " must be a number")
  | TObject, (VObj _ | VDate _ _) => None
  | TObject, _ => Some (lbl +:+ " must be of type object")
  | TArray, VArr _ => None
  | TArray, _ => Some (lbl +:+ " must be an array")
  | TDateIso, VDate _ _ => None
  | TDateIso, VStr s =>
      if is_iso_date s then None else Some (lbl +:+ " must be in ISO 8601 date format")
  | TDateIso, VNum q =>
      if is_iso_date (number_to_string q) then None
      else Some (lbl +:+ " must be in ISO 8601 date format")
  | TDateIso, _ => Some (lbl +:+ " must be in ISO 8601 date format")
  end.

Definition length_of (v : value) : Qc :=
  match v with
  | VStr s => qc (Z.of_nat (String.length s))
  | VArr l => qc (Z.of_nat (length l))
  | _ => qc 0
  end.

(** Does the value, which has its base type, satisfy the rule? *)
Definition rule_ok (r : rule) (v : value) : bool :=
  match r, v with
  | Guid, VStr s => is_guid s
  | Guid, _ => true
  | Min q, VNum x => qc_leb q x
  | Min q, _ => qc_leb q (length_of v)
  | Max q, VNum x => qc_leb x q
  | Max q, _ => qc_leb (length_of v) q
  | Integer, VNum x => qc_is_int x
  | Integer, _ => true
  end.

Definition rule_message (r : rule) (lbl : string) (v : value) : string :=
  match r, v with
  | Guid, _ => lbl +:+ " must be a valid GUID"
  | Min q, VNum _ => lbl +:+ " must be greater than or equal to " +:+ number_to_string q
  | Min q, VStr _ =>
      lbl +:+ " length must be at least " +:+ number_to_string q +:+ " characters long"
  | Min q, _ => lbl +:+ " must contain at least " +:+ number_to_string q +:+ " items"
  | Max q, VNum _ => lbl +:+ " must be less than or equal to " +:+ number_to_string q
  | Max q, VStr _ =>
      lbl +:+ " length must be less than or equal to " +:+ number_to_string q
          +:+ " characters long"
  | Max q, _ =>
      lbl +:+ " must contain less than or equal to " +:+ number_to_string q +:+ " items"
  | Integer, _ => lbl +:+ " must be an integer"
  end.

Definition rule_errors (rs : list rule) (lbl : string) (v : value) : list string :=
  List.map (fun r => rule_message r lbl v) (List.filter (fun r => negb (rule_ok r v)) rs).

Definition only_message (lbl : string) (vs : list value) : string :=
  match vs with
  | [x] => lbl +:+ " must be [" +:+ render_valid x +:+ "]"
  | _ => lbl +:+ " must be one of [" +:+ String.concat ", " (List.map render_valid vs) +:+ "]"
  end.

Definition item_label (k : string) (i : nat) : string :=
  k +:+ "[" +:+ pretty i +:+ "]".

(** All the messages Joi reports for the value [v] found under [k]. *)
Fixpoint errors (s : schema) (k : string) (v : value) : list string :=
  let 'Schema ty rq vs on rs it := s in
  let v := coerce ty v in
  if is_undefined v then (if rq then [label k +:+ " is required"] else [])
  else if existsb (strict_eq v) vs then []
  else
    (if on then [only_message (label k) vs] else []) ++
    match base_error ty (label k) v with
    | Some m => [m]
    | None =>
        rule_errors rs (label k) v ++
        match it, v with
        | Some i, VArr l =>
            List.concat
              (imap (fun n x =>
                       if is_undefined x
                       then [label (item_label k n) +:+ " must not be a sparse array item"]
                       else errors i (item_label k n) x) l)
        | _, _ => []
        end
    end.

(** [Joi.object(keys).validate(this, {abortEarly, allowUnknown: true})]:
    the [details] of the error, empty when there is none. *)
Definition validate (keys : list (string * schema)) (abortEarly : bool)
           (this : gmap string value) : list string :=
  let all :=
    List.concat
      (List.map (fun '(k, s) => errors s k (default VUndefined (this !! k))) keys) in
  if abortEarly then take 1 all else all.

(** A field-level violation, in the words of the specification: the
    value found under [k] breaks what the schema declares for [k] (a
    required field is absent, the value is none of the listed ones, it
    has not the declared type, it breaks a range, length or format
    rule, or an item of it does); [m] is the message that names it. *)
Inductive violation : schema -> string -> value -> string -> Prop :=
| absent_required ty vs on rs it k v :
    coerce ty v = VUndefined ->
    violation (Schema ty true vs on rs it) k v (label k +:+ " is required")
| not_listed ty rq vs rs it k v :
    coerce ty v <> VUndefined ->
    existsb (strict_eq (coerce ty v)) vs = false ->
    violation (Schema ty rq vs true rs it) k v (only_message (label k) vs)
| wrong_type ty rq vs on rs it k v m :
    coerce ty v <> VUndefined ->
    existsb (strict_eq (coerce ty v)) vs = false ->
    base_error ty (label k) (coerce ty v) = Some m ->
    violation (Schema ty rq vs on rs it) k v m
| broken_rule ty rq vs on rs it k v r :
    coerce ty v <> VUndefined ->
    existsb (strict_eq (coerce ty v)) vs = false ->
    base_error ty (label k) (coerce ty v) = None ->
    In r rs ->
    rule_ok r (coerce ty v) = false ->
    violation (Schema ty rq vs on rs it) k v (rule_message r (label k) (coerce ty v))
| sparse_item ty rq vs on rs i k v l n :
    coerce ty v = VArr l ->
    existsb (strict_eq (coerce ty v)) vs = false ->
    base_error ty (label k) (coerce ty v) = None ->
    l !! n = Some VUndefined ->
    violation (Schema ty rq vs on rs (Some i)) k v
              (label (item_label k n) +:+ " must not be a sparse array item")
| broken_item ty rq vs on rs i k v l n x m :
    coerce ty v = VArr l ->
    existsb (strict_eq (coerce ty v)) vs = false ->
    base_error ty (label k) (coerce ty v) = None ->
    l !! n = Some x ->
    x <> VUndefined ->
    violation i (item_label k n) x m ->
    violation (Schema ty rq vs on rs (Some i)) k v m.

(** A violation on an instance: of some declared key. *)
Definition violated (keys : list (string * schema)) (this : gmap string value)
           (m : string) : Prop :=
  exists k s, In (k, s) keys /\ violation s k (default VUndefined (this !! k)) m.

End Validate.

(** The builders, applied left to right with [.>] as the source chains them. *)
Definition string : schema := Schema TString false [] false [] None.
Definition number : schema := Schema TNumber false [] false [] None.
Definition object : schema := Schema TObject false [] false [] None.
Definition array : schema := Schema TArray false [] false [] None.
Definition date_iso : schema := Schema TDateIso false [] false [] None.

Definition add_rule (r : rule) (s : schema) : schema :=
  let 'Schema ty rq vs on rs it := s in Schema ty rq vs on (rs ++ [r]) it.
Definition guid : schema -> schema := add_rule Guid.
Definition min (z : Z) : schema -> schema := add_rule (Min (qc z)).
Definition max (z : Z) : schema -> schema := add_rule (Max (qc z)).
Definition integer : schema -> schema := add_rule Integer.
Definition required (s : schema) : schema :=
  let 'Schema ty _ vs on rs it := s in Schema ty true vs on rs it.
Definition valid (l : list String.string) (s : schema) : schema :=
  let 'Schema ty rq vs _ rs it := s in Schema ty rq (vs ++ List.map VStr l) true rs it.
Definition allow (v : value) (s : schema) : schema :=
  let 'Schema ty rq vs on rs it := s in Schema ty rq (vs ++ [v]) on rs it.
Definition items (i : schema) (s : schema) : schema :=
  let 'Schema ty rq vs on rs _ := s in Schema ty rq vs on rs (Some i).
(** [.default(x)] fills the returned copy, never the validated instance,
    and raises nothing. *)
Definition default (s : schema) : schema := s.

End Joi.

Notation "x .> f" := (f x) (at level 45, left associativity, only parsing).

(** ** Objects *)

(** Property bags: instances, constructor arguments, storage rows. *)
Abbreviation bag := (gmap string JS.value).

(** Objects in property order: [k: v] entries, no key twice. *)
Abbreviation json := (list (string * JS.value)).

Module Obj.
Import JS.

(** [o[k]] on own properties: absent reads as undefined. *)
Definition get (o : bag) (k : string) : value := default VUndefined (o !! k).

Fixpoint jget (j : json) (k : string) : value :=
  match j with
  | [] => VUndefined
  | (k', v) :: r => if String.eqb k' k then v else jget r k
  end.

(** [j[k] = v]: in place when the key exists, else appended. *)
Fixpoint jset (j : json) (k : string) (v : value) : json :=
  match j with
  | [] => [(k, v)]
  | (k', v') :: r => if String.eqb k' k then (k, v) :: r else (k', v') :: jset r k v
  end.

(** [Object.keys] *)
Definition keys (j : json) : list string := List.map fst j.

(** The same object, its key order forgotten. *)
Definition to_bag (j : json) : bag := list_to_map j.

End Obj.

#[global] Instance result_ret : MRet JS.result := @JS.Ok.
#[global] Instance result_bind : MBind JS.result :=
  fun A B f r => match r with JS.Ok a => f a | JS.Throw m => JS.Throw m end.

(** ** More of the runtime: arithmetic, [typeof], property reads *)

Module Runtime.
Import JS Obj.

(** [a * b] and [a - b]: ToNumber of both operands. *)
Definition mul (a b : value) : value :=
  match to_number a, to_number b with
  | VNum x, VNum y => VNum (x * y)%Qc
  | _, _ => VNaN
  end.

Definition sub (a b : value) : value :=
  match to_number a, to_number b with
  | VNum x, VNum y => VNum (x - y)%Qc
  | _, _ => VNaN
  end.

(** [Math.floor(v)] *)
Definition floor (v : value) : value :=
  match to_number v with
  | VNum x => num (Qfloor (this x))
  | _ => VNaN
  end.

(** [typeof v === 'object'] *)
Definition typeof_object (v : value) : bool :=
  match v with
  | VNull | VObj _ | VArr _ | VDate _ _ => true
  | _ => false
  end.

(** [Array.isArray(v)] *)
Definition isArray (v : value) : bool :=
  match v with
  | VArr _ => true
  | _ => false
  end.

(** [v[k]] for a [v] that is neither null nor undefined and a name [k]
    that no built-in prototype defines: an own property of a plain
    object, undefined on anything else. *)
Definition property (v : value) (k : string) : value :=
  match v with
  | VObj m => get m k
  | _ => VUndefined
  end.

(** [process.env.NAME]: a string when the variable is set. *)
Definition env_var (env : gmap string string) (name : string) : value :=
  match env !! name with
  | Some s => VStr s
  | None => VUndefined
  end.

End Runtime.

(** ** BaseModel *)

Module BaseModel.
Import JS Obj.

(** What [uuidv4()] and [new Date().toISOString()] return during one call. *)
Record Env : Type := { uuidv4 : string; now : string }.

(** A model class: its static members, its constructor and the methods
    that subclasses override, so that [this.toJSON()] inside [toDatabase]
    and [new this(data)] inside [fromDatabase] reach the subclass. *)
Record class : Type := {
  tableName : string;
  schema : list (string * Joi.schema);
  methods : list string;                 (* the names found on the prototype chain *)
  new : Env -> bag -> bag;
  validate : bag -> result unit;
  toJSON : bag -> result json
}.

(** [constructor(data = {})] *)
Definition constructor (env : Env) (data : bag) : bag :=
  let this : bag :=
    <["updatedAt" := or (get data "updatedAt") (VStr (now env))]>
      (<["createdAt" := or (get data "createdAt") (VStr (now env))]>
         (<["id" := or (get data "id") (VStr (uuidv4 env))]> ∅)) in
  (* Object.assign(this, data) *)
  data ∪ this.

Definition schema_keys (keys : list (string * Joi.schema)) : list string :=
  List.map fst keys.

(** [this.m(...)]: an own property named [m] hides the method of the
    prototype, and own properties are data, which cannot be called.  (Of
    a TypeError raised by the runtime only the gist is kept as message.) *)
Definition send {A} (this : bag) (m : string) (body : result A) : result A :=
  match this !! m with
  | None => body
  | Some _ => Throw ("this." +:+ m +:+ " is not a function")
  end.

(** [this.constructor.schema]: the static schema of the class, unless an
    own property hides [constructor]. *)
Definition static_schema {A} (this : bag) (body : result A) : result A :=
  match this !! "constructor" with
  | None => body
  | Some _ => Throw "this.constructor.schema is not a schema"
  end.

Section Validation.
Variable is_iso_date : string -> bool.

(** [validate()]: the thrown message joins every detail. *)
Definition validate_base (keys : list (string * Joi.schema)) (this : bag) : result unit :=
  static_schema this
    match Joi.validate is_iso_date keys false this with
    | [] => Ok tt
    | details => Throw ("Validation failed: " +:+ String.concat ", " details)
    end.
End Validation.

(** [toJSON()]: the schema keys that are defined on the instance, in
    schema order.  No schema key of the models names a method, so the
    read stays on own properties. *)
Definition toJSON_base (keys : list (string * Joi.schema)) (this : bag) : result json :=
  static_schema this
    (Ok (List.fold_left
           (fun j key =>
              if is_undefined (get this key) then j else jset j key (get this key))
           (schema_keys keys) [])).

(** [toDatabase()]: [this.toJSON()] with the dates written as ISO strings. *)
Definition toDatabase (C : class) (this : bag) : result json :=
  data ← send this "toJSON" (toJSON C this);
  mret (List.map (fun '(k, v) =>
                    match v with
                    | VDate _ iso => (k, VStr iso)
                    | _ => (k, v)
                    end) data).

(** [static fromDatabase(data)] *)
Definition fromDatabase (C : class) (env : Env) (data : option bag) : option bag :=
  match data with
  | None => None
  | Some row => Some (new C env row)
  end.

(** [update(data)] *)
Definition update (C : class) (env : Env) (this data : bag) : result bag :=
  static_schema this
    (let this' :=
       List.fold_left
         (fun t key =>
            if is_undefined (get data key) then t else <[key := get data key]> t)
         (schema_keys (schema C)) this in
     Ok (<["updatedAt" := VStr (now env)]> this')).

(** [instance.validate()], [instance.toDatabase()], [instance.update(data)] *)
Definition call_validate (C : class) (this : bag) : result unit :=
  send this "validate" (validate C this).
Definition call_toDatabase (C : class) (this : bag) : result json :=
  send this "toDatabase" (toDatabase C this).
Definition call_update (C : class) (env : Env) (this data : bag) : result bag :=
  send this "update" (update C env this data).


(** The value a table of coercions makes of the field [k] *)
Fixpoint coerce_with (cs : list (string * (value -> value))) (k : string) (v : value)
  : value :=
  match cs with
  | [] => v
  | (k', f) :: rest => if String.eqb k' k then f v else coerce_with rest k v
  end.

(** What [instance[col]] evaluates to: an own value, or an inherited method. *)
Inductive param : Type :=
| PValue (v : value)
| PMethod (name : string).

Definition read (C : class) (this : bag) (col : string) : param :=
  match this !! col with
  | Some v => PValue v
  | None => if bool_decide (col ∈ methods C) then PMethod col else PValue VUndefined
  end.

Definition methods_base : list string := ["constructor"; "validate"; "toJSON"; "toDatabase"; "update"].

End BaseModel.

(** ** Correlation *)

Module Correlation.
Import JS Obj BaseModel.

Definition tableName : string := "correlations".

Definition types : list string :=
  ["one_to_one"; "one_to_many"; "many_to_one"; "many_to_many";
   "weighted_many_to_many"; "temporal"; "spatial"; "semantic";
   "statistical"; "structural"; "functional"; "causal"].

Definition discovery_methods : list string :=
  ["neural_network"; "mcts"; "evolutionary"; "statistical";
   "information_theory"; "manual"; "hybrid"].

(** [static get schema()] *)
Definition schema : list (string * Joi.schema) :=
  [ ("id", Joi.string .> Joi.guid .> Joi.default);
    ("sourceDatasetId", Joi.string .> Joi.guid .> Joi.required);
    ("targetDatasetId", Joi.string .> Joi.guid .> Joi.required);
    ("type", Joi.string .> Joi.valid types .> Joi.required);
    ("parameters", Joi.object .> Joi.default);
    ("confidence", Joi.number .> Joi.min 0 .> Joi.max 1 .> Joi.default);
    ("validityScore", Joi.number .> Joi.min 0 .> Joi.max 1 .> Joi.default);
    ("description", Joi.string .> Joi.max 2000 .> Joi.allow (VStr ""));
    ("status",
      Joi.string .> Joi.valid ["proposed"; "validated"; "invalidated"; "archived"]
                 .> Joi.default);
    ("parentCorrelationId", Joi.string .> Joi.guid .> Joi.allow VNull);
    ("version", Joi.number .> Joi.integer .> Joi.min 1 .> Joi.default);
    ("tags", Joi.array .> Joi.items (Joi.string .> Joi.max 50) .> Joi.default);
    ("metadata", Joi.object .> Joi.default);
    ("discoveryMethod", Joi.string .> Joi.valid discovery_methods .> Joi.allow (VStr ""));
    ("lastValidated", Joi.date_iso .> Joi.allow VNull);
    ("createdAt", Joi.date_iso .> Joi.default);
    ("updatedAt", Joi.date_iso .> Joi.default) ].

(** [constructor(data = {})] *)
Definition constructor (env : Env) (data : bag) : bag :=
  BaseModel.constructor env data
  .> insert "sourceDatasetId" (or (get data "sourceDatasetId") (VStr ""))
  .> insert "targetDatasetId" (or (get data "targetDatasetId") (VStr ""))
  .> insert "type" (or (get data "type") (VStr ""))
  .> insert "parameters" (or (get data "parameters") (VObj ∅))
  .> insert "confidence" (or (get data "confidence") (num 0))
  .> insert "validityScore" (or (get data "validityScore") (num 0))
  .> insert "description" (or (get data "description") (VStr ""))
  .> insert "status" (or (get data "status") (VStr "proposed"))
  .> insert "parentCorrelationId" (or (get data "parentCorrelationId") VNull)
  .> insert "version" (or (get data "version") (num 1))
  .> insert "tags" (or (get data "tags") (VArr []))
  .> insert "metadata" (or (get data "metadata") (VObj ∅))
  .> insert "discoveryMethod" (or (get data "discoveryMethod") (VStr ""))
  .> insert "lastValidated" (or (get data "lastValidated") VNull).

(** The constructor again, as a table: each field and the default that
    stands in for a falsy [data[field]]. *)
Definition defaults : json :=
  [ ("sourceDatasetId", VStr ""); ("targetDatasetId", VStr ""); ("type", VStr "");
    ("parameters", VObj ∅); ("confidence", num 0); ("validityScore", num 0);
    ("description", VStr ""); ("status", VStr "proposed");
    ("parentCorrelationId", VNull); ("version", num 1); ("tags", VArr []);
    ("metadata", VObj ∅); ("discoveryMethod", VStr ""); ("lastValidated", VNull) ].

(** The fields [toJSON] passes through [parseFloat] or [parseInt] *)
Definition coercions : list (string * (value -> value)) :=
  [ ("confidence", parseFloat); ("validityScore", parseFloat); ("version", parseInt) ].

(** [isValid()] and [isSignificant()] *)
Definition isValid (this : bag) : value :=
  VBool (ge_num (get this "validityScore") (Q2Qc (5 # 10))
         && strict_eq (get this "status") (VStr "validated")).

Definition isSignificant (this : bag) : value :=
  VBool (ge_num (get this "confidence") (Q2Qc (7 # 10))
         && ge_num (get this "validityScore") (Q2Qc (6 # 10))).

(** [toJSON()]: the object literal over [super.toJSON()]. *)
Definition toJSON (this : bag) : result json :=
  json ← toJSON_base schema this;
  valid ← send this "isValid" (Ok (isValid this));
  significant ← send this "isSignificant" (Ok (isSignificant this));
  mret (json
        .> (fun j => jset j "confidence" (parseFloat (jget json "confidence")))
        .> (fun j => jset j "validityScore" (parseFloat (jget json "validityScore")))
        .> (fun j => jset j "version" (parseInt (jget json "version")))
        .> (fun j => jset j "isValid" valid)
        .> (fun j => jset j "isSignificant" significant)).

Definition methods : list string :=
  ["validate"; "updateValidation"; "incrementVersion"; "archive"; "isValid";
   "isSignificant"; "addTag"; "removeTag"; "toJSON"] ++ methods_base.

(** [updateValidation(validityScore, status = null)] *)
Definition updateValidation (env : Env) (validityScore status : value) (this : bag) : bag :=
  this
  .> insert "validityScore" validityScore
  .> insert "lastValidated" (VStr (now env))
  .> (fun t => if truthy status then <["status" := status]> t else t)
  .> insert "updatedAt" (VStr (now env)).

(** [incrementVersion()] *)
Definition incrementVersion (env : Env) (this : bag) : bag :=
  this
  .> insert "version" (incr (get this "version"))
  .> insert "updatedAt" (VStr (now env)).

(** [archive()] *)
Definition archive (env : Env) (this : bag) : bag :=
  this
  .> insert "status" (VStr "archived")
  .> insert "updatedAt" (VStr (now env)).

(** [addTag(tag)].  [includes] exists on arrays and on strings, [push] on
    arrays only. *)
Definition addTag (env : Env) (tag : value) (this : bag) : result bag :=
  match get this "tags" with
  | VArr l =>
      if includes l tag then Ok this
      else Ok (this .> insert "tags" (VArr (l ++ [tag]))
                    .> insert "updatedAt" (VStr (now env)))
  | VStr s =>
      if str_includes s (to_string tag) then Ok this
      else Throw "this.tags.push is not a function"
  | _ => Throw "this.tags.includes is not a function"
  end.

(** [removeTag(tag)] *)
Definition removeTag (env : Env) (tag : value) (this : bag) : result bag :=
  match get this "tags" with
  | VArr l =>
      Ok (this .> insert "tags" (VArr (List.filter (fun t => negb (strict_eq t tag)) l))
               .> insert "updatedAt" (VStr (now env)))
  | _ => Throw "this.tags.filter is not a function"
  end.

Section Validation.
Variable is_iso_date : string -> bool.

(** [validate()] *)
Definition validate (this : bag) : result unit :=
  _ ← validate_base is_iso_date schema this;
  if strict_eq (get this "sourceDatasetId") (get this "targetDatasetId")
  then Throw "Source and target datasets cannot be the same"
  else if lt_num (get this "confidence") (qc 0) || gt_num (get this "confidence") (qc 1)
  then Throw "Confidence must be between 0 and 1"
  else if lt_num (get this "validityScore") (qc 0) || gt_num (get this "validityScore") (qc 1)
  then Throw "Validity score must be between 0 and 1"
  else Ok tt.

Definition model : class :=
  {| BaseModel.tableName := tableName;
     BaseModel.schema := schema;
     BaseModel.methods := methods;
     BaseModel.new := constructor;
     BaseModel.validate := validate;
     BaseModel.toJSON := toJSON |}.
End Validation.

End Correlation.

(** ** Dataset *)

Module Dataset.
Import JS Obj BaseModel.

Definition tableName : string := "datasets".

(** [static get schema()] *)
Definition schema : list (string * Joi.schema) :=
  [ ("id", Joi.string .> Joi.guid .> Joi.default);
    ("name", Joi.string .> Joi.required .> Joi.min 1 .> Joi.max 255);
    ("description", Joi.string .> Joi.max 5000 .> Joi.allow (VStr ""));
    ("schema", Joi.object .> Joi.default);
    ("type",
      Joi.string .> Joi.valid ["structured"; "semi-structured"; "unstructured"]
                 .> Joi.default);
    ("source", Joi.string .> Joi.max 1000 .> Joi.allow (VStr ""));
    ("format",
      Joi.string .> Joi.valid ["json"; "csv"; "parquet"; "xml"; "avro"; "binary"]
                 .> Joi.default);
    ("size", Joi.number .> Joi.integer .> Joi.min 0 .> Joi.default);
    ("recordCount", Joi.number .> Joi.integer .> Joi.min 0 .> Joi.default);
    ("metadata", Joi.object .> Joi.default);
    ("status",
      Joi.string .> Joi.valid ["active"; "archived"; "processing"; "error"]
                 .> Joi.default);
    ("lastAccessed", Joi.date_iso .> Joi.default);
    ("tags", Joi.array .> Joi.items (Joi.string .> Joi.max 50) .> Joi.default);
    ("visibility", Joi.string .> Joi.valid ["private"; "public"; "shared"] .> Joi.default);
    ("ownerId", Joi.string .> Joi.guid .> Joi.allow VNull);
    ("createdAt", Joi.date_iso .> Joi.default);
    ("updatedAt", Joi.date_iso .> Joi.default) ].

(** [constructor(data = {})] *)
Definition constructor (env : Env) (data : bag) : bag :=
  BaseModel.constructor env data
  .> insert "name" (or (get data "name") (VStr ""))
  .> insert "description" (or (get data "description") (VStr ""))
  .> insert "schema" (or (get data "schema") (VObj ∅))
  .> insert "type" (or (get data "type") (VStr "structured"))
  .> insert "source" (or (get data "source") (VStr ""))
  .> insert "format" (or (get data "format") (VStr "json"))
  .> insert "size" (or (get data "size") (num 0))
  .> insert "recordCount" (or (get data "recordCount") (num 0))
  .> insert "metadata" (or (get data "metadata") (VObj ∅))
  .> insert "status" (or (get data "status") (VStr "active"))
  .> insert "lastAccessed" (or (get data "lastAccessed") (VStr (now env)))
  .> insert "tags" (or (get data "tags") (VArr []))
  .> insert "visibility" (or (get data "visibility") (VStr "private"))
  .> insert "ownerId" (or (get data "ownerId") VNull).

(** The constructor again, as a table: each field and the default that
    stands in for a falsy [data[field]]. *)
Definition defaults (env : Env) : json :=
  [ ("name", VStr ""); ("description", VStr ""); ("schema", VObj ∅);
    ("type", VStr "structured"); ("source", VStr ""); ("format", VStr "json");
    ("size", num 0); ("recordCount", num 0); ("metadata", VObj ∅);
    ("status", VStr "active"); ("lastAccessed", VStr (now env)); ("tags", VArr []);
    ("visibility", VStr "private"); ("ownerId", VNull) ].

(** The fields [toJSON] passes through [parseInt] *)
Definition coercions : list (string * (value -> value)) :=
  [ ("recordCount", parseInt); ("size", parseInt) ].

(** [incrementAccessCount()].  The counter lives inside [this.metadata]:
    reading it off [null] or [undefined] throws, and so does writing it
    on a primitive (class bodies are strict).  Arrays and dates accept the
    property; the development does not track properties on them. *)
Definition incrementAccessCount (env : Env) (this : bag) : result bag :=
  let this1 := <["lastAccessed" := VStr (now env)]> this in
  match get this "metadata" with
  | VObj m =>
      let count := get m "accessCount" in
      let m1 := if truthy count then m else <["accessCount" := num 0]> m in
      let m2 := <["accessCount" := incr (get m1 "accessCount")]> m1 in
      Ok (<["metadata" := VObj m2]> this1)
  | VArr _ | VDate _ _ => Ok this1
  | VUndefined | VNull => Throw "Cannot read properties of undefined (reading 'accessCount')"
  | _ => Throw "Cannot create property 'accessCount'"
  end.

(** [updateStats(recordCount, size)] *)
Definition updateStats (env : Env) (recordCount size : value) (this : bag) : bag :=
  this
  .> insert "recordCount" recordCount
  .> insert "size" size
  .> insert "updatedAt" (VStr (now env)).

(** [addTag(tag)] *)
Definition addTag (env : Env) (tag : value) (this : bag) : result bag :=
  match get this "tags" with
  | VArr l =>
      if includes l tag then Ok this
      else Ok (this .> insert "tags" (VArr (l ++ [tag]))
                    .> insert "updatedAt" (VStr (now env)))
  | VStr s =>
      if str_includes s (to_string tag) then Ok this
      else Throw "this.tags.push is not a function"
  | _ => Throw "this.tags.includes is not a function"
  end.

(** [removeTag(tag)] *)
Definition removeTag (env : Env) (tag : value) (this : bag) : result bag :=
  match get this "tags" with
  | VArr l =>
      Ok (this .> insert "tags" (VArr (List.filter (fun t => negb (strict_eq t tag)) l))
               .> insert "updatedAt" (VStr (now env)))
  | _ => Throw "this.tags.filter is not a function"
  end.

(** [archive()] and [activate()] *)
Definition archive (env : Env) (this : bag) : bag :=
  this
  .> insert "status" (VStr "archived")
  .> insert "updatedAt" (VStr (now env)).

Definition activate (env : Env) (this : bag) : bag :=
  this
  .> insert "status" (VStr "active")
  .> insert "updatedAt" (VStr (now env)).

(** [this.schema.fields.forEach(field => ...)]: reading [name] off
    [null] or [undefined] throws; a field that is no plain object has
    neither [name] nor [type]. *)
Fixpoint validateSchema_fields (fields : list value) : result unit :=
  match fields with
  | [] => Ok tt
  | field :: rest =>
      match field with
      | VUndefined | VNull => Throw "Cannot read properties of undefined (reading 'name')"
      | _ =>
          if negb (truthy (Runtime.property field "name"))
             || negb (truthy (Runtime.property field "type"))
          then Throw "Each schema field must have name and type"
          else validateSchema_fields rest
      end
  end.

(** [validateSchema()] *)
Definition validateSchema (this : bag) : result unit :=
  let schema := get this "schema" in
  if negb (truthy schema) || negb (Runtime.typeof_object schema)
  then Throw "Schema must be a valid object"
  else
    let fields := Runtime.property schema "fields" in
    if truthy fields && negb (Runtime.isArray fields)
    then Throw "Schema fields must be an array"
    else
      match fields with
      | VArr l => validateSchema_fields l
      | _ => Ok tt
      end.

(** [toJSON()] *)
Definition toJSON (this : bag) : result json :=
  json ← toJSON_base schema this;
  mret (json
        .> (fun j => jset j "recordCount" (parseInt (jget json "recordCount")))
        .> (fun j => jset j "size" (parseInt (jget json "size")))).

Definition methods : list string :=
  ["incrementAccessCount"; "updateStats"; "addTag"; "removeTag"; "archive";
   "activate"; "validateSchema"; "toJSON"] ++ methods_base.

Section Validation.
Variable is_iso_date : string -> bool.

(** [Dataset] inherits [validate()]. *)
Definition model : class :=
  {| BaseModel.tableName := tableName;
     BaseModel.schema := schema;
     BaseModel.methods := methods;
     BaseModel.new := constructor;
     BaseModel.validate := validate_base is_iso_date schema;
     BaseModel.toJSON := toJSON |}.
End Validation.

End Dataset.

(** ** DatasetSignature

    The schema of this model nests object schemas, which the [Joi] module
    above does not cover: of the schema only the key names are embedded
    (they are all [toJSON] reads), and what the Joi pass of [validate()]
    reports is a parameter. *)

Module DatasetSignature.
Import JS Obj BaseModel.

Definition tableName : string := "dataset_signatures".

(** [Object.keys(this.constructor.schema.describe().keys)] *)
Definition schema_keys : list string :=
  ["id"; "datasetId"; "statistical"; "semantic"; "structural"; "temporal"; "spatial";
   "version"; "computedAt"; "expiresAt"; "metadata"; "computationTime"; "algorithm";
   "compressionRatio"; "createdAt"; "updatedAt"].

(** [constructor(data = {})] *)
Definition constructor (env : Env) (data : bag) : bag :=
  BaseModel.constructor env data
  .> insert "datasetId" (or (get data "datasetId") (VStr ""))
  .> insert "statistical" (or (get data "statistical") (VObj ∅))
  .> insert "semantic" (or (get data "semantic") (VObj ∅))
  .> insert "structural" (or (get data "structural") (VObj ∅))
  .> insert "temporal" (or (get data "temporal") (VObj ∅))
  .> insert "spatial" (or (get data "spatial") (VObj ∅))
  .> insert "version" (or (get data "version") (num 1))
  .> insert "computedAt" (or (get data "computedAt") (VStr (now env)))
  .> insert "expiresAt" (or (get data "expiresAt") VNull)
  .> insert "metadata" (or (get data "metadata") (VObj ∅))
  .> insert "computationTime" (or (get data "computationTime") (num 0))
  .> insert "algorithm" (or (get data "algorithm") (VStr "default"))
  .> insert "compressionRatio" (or (get data "compressionRatio") (num 0)).

Definition methods : list string :=
  ["validate"; "validateComponent"; "isExpired"; "updateStats"; "setExpiration";
   "incrementVersion"; "getSize"; "getCompressionInfo"; "toJSON"] ++ methods_base.

(** [requiredKeys.forEach(key => ...)] *)
Fixpoint require_keys (componentName : string) (component : value)
         (requiredKeys : list string) : result unit :=
  match requiredKeys with
  | [] => Ok tt
  | key :: rest =>
      if is_undefined (Runtime.property component key)
      then Throw (componentName +:+ " signature missing required key: " +:+ key)
      else require_keys componentName component rest
  end.

(** [validateComponent(componentName, requiredKeys)] *)
Definition validateComponent (componentName : string) (requiredKeys : list string)
           (this : bag) : result unit :=
  let component := get this componentName in
  if negb (truthy component) || negb (Runtime.typeof_object component)
  then Throw (componentName +:+ " signature must be an object")
  else require_keys componentName component requiredKeys.

(** [updateStats(computationTime, compressionRatio)] *)
Definition updateStats (env : Env) (computationTime compressionRatio : value) (this : bag)
  : bag :=
  this
  .> insert "computationTime" computationTime
  .> insert "compressionRatio" compressionRatio
  .> insert "computedAt" (VStr (now env))
  .> insert "updatedAt" (VStr (now env)).

(** [incrementVersion()] *)
Definition incrementVersion (env : Env) (this : bag) : bag :=
  this
  .> insert "version" (incr (get this "version"))
  .> insert "updatedAt" (VStr (now env)).

(** [super.toJSON()], which reads the key names of the schema only *)
Definition super_toJSON (this : bag) : result json :=
  toJSON_base (List.map (fun key => (key, Joi.object)) schema_keys) this.

Section Validation.
(** The messages of [error.details] after
    [this.constructor.schema.validate(this, ...)] *)
Variable details : bag -> list string.

(** [super.validate()] *)
Definition super_validate (this : bag) : result unit :=
  static_schema this
    match details this with
    | [] => Ok tt
    | messages => Throw ("Validation failed: " +:+ String.concat ", " messages)
    end.

(** [validate()] *)
Definition validate (this : bag) : result unit :=
  _ ← super_validate this;
  _ ← send this "validateComponent"
        (validateComponent "statistical" ["distributions"; "cardinality"; "correlations"] this);
  _ ← send this "validateComponent"
        (validateComponent "semantic" ["columnEmbeddings"; "contextVector"] this);
  _ ← send this "validateComponent"
        (validateComponent "structural" ["schemaGraph"; "constraints"] this);
  Ok tt.
End Validation.

Section Serialisation.
(** [JSON.stringify(x).length] *)
Variable stringify_length : json -> value.
(** [new Date(x) < new Date()] *)
Variable in_the_past : value -> bool.

(** [isExpired()] *)
Definition isExpired (this : bag) : value :=
  if negb (truthy (get this "expiresAt")) then VBool false
  else VBool (in_the_past (get this "expiresAt")).

(** [getSize()], given what [this.toJSON()] does *)
Definition getSize (toJSON : bag -> result json) (this : bag) : result value :=
  json ← send this "toJSON" (toJSON this);
  Ok (stringify_length json).

(** [getCompressionInfo()] *)
Definition getCompressionInfo (toJSON : bag -> result json) (this : bag) : result value :=
  let ratio := get this "compressionRatio" in
  originalSize ← send this "getSize" (getSize toJSON this);
  size ← send this "getSize" (getSize toJSON this);
  let compressedSize := Runtime.floor (Runtime.mul size (get this "compressionRatio")) in
  size' ← send this "getSize" (getSize toJSON this);
  let savings :=
    Runtime.floor (Runtime.mul size' (Runtime.sub (num 1) (get this "compressionRatio"))) in
  Ok (VObj (<["ratio" := ratio]>
             (<["originalSize" := originalSize]>
               (<["compressedSize" := compressedSize]>
                 (<["savings" := savings]> ∅))))).

(** [toJSON()].  It reaches itself again through [getCompressionInfo()]
    and [getSize()]; [depth] is the room left on the call stack, in
    rounds of these three calls. *)
Fixpoint toJSON (depth : nat) (this : bag) : result json :=
  match depth with
  | O => Throw "Maximum call stack size exceeded"
  | S depth =>
      json ← super_toJSON this;
      expired ← send this "isExpired" (Ok (isExpired this));
      info ← send this "getCompressionInfo" (getCompressionInfo (toJSON depth) this);
      mret (json
            .> (fun j => jset j "version" (parseInt (jget json "version")))
            .> (fun j => jset j "computationTime" (parseInt (jget json "computationTime")))
            .> (fun j => jset j "compressionRatio" (parseFloat (jget json "compressionRatio")))
            .> (fun j => jset j "isExpired" expired)
            .> (fun j => jset j "compressionInfo" info))
  end.
End Serialisation.

End DatasetSignature.

(** ** The PostgreSQL driver, seen from its callers *)

Module Pg.
Import JS BaseModel.

(** A statement handed to [query]: its text and its bound parameters. *)
Record Stmt : Type := { text : string; params : list param }.

(** What [query] resolves with (rows) or rejects with. *)
Inductive reply : Type :=
| Rows (rows : list bag)
| Failure (msg : string).

End Pg.

(** ** DatabaseManager: transactions *)

Module DatabaseManager.
Import JS BaseModel Pg.

(** What a callback does with the client it is handed: it issues
    statements, goes on from what each resolves or rejects with, and in
    the end returns a value or throws. *)
Inductive Callback (A : Type) : Type :=
| Return (a : A)
| Raise (msg : string)
| Query (text : string) (params : list param) (k : reply -> Callback A).
Arguments Return {A} a.
Arguments Raise {A} msg.
Arguments Query {A} text params k.

(** The pool: whether [connect()] rejects, and how the connection answers
    a statement after the statements sent on it before. *)
Record Pool : Type := {
  connect : option string;
  answer : list Stmt -> Stmt -> reply
}.

Record Manager : Type := {
  postgresPool : Pool;
  isConnected_postgres : bool
}.

(** An acquired client: the statements sent on it, and how many times it
    was released. *)
Record Client : Type := { sent : list Stmt; released : nat }.

(** [await client.query(text)] *)
Definition client_query (P : Pool) (c : Client) (text : string) (ps : list param)
  : reply * Client :=
  let st := {| Pg.text := text; Pg.params := ps |} in
  (answer P (sent c) st, {| sent := sent c ++ [st]; released := released c |}).

(** [await callback(client)] *)
Fixpoint run {A} (P : Pool) (cb : Callback A) (c : Client) : result A * Client :=
  match cb with
  | Return a => (Ok a, c)
  | Raise msg => (Throw msg, c)
  | Query text ps k =>
      let '(r, c') := client_query P c text ps in
      run P (k r) c'
  end.

(** [client.release()] *)
Definition release (c : Client) : Client :=
  {| sent := sent c; released := S (released c) |}.

(** The [try] block of [transaction] *)
Definition attempt {A} (P : Pool) (callback : Callback A) (c : Client) : result A * Client :=
  match client_query P c "BEGIN" [] with
  | (Failure msg, c1) => (Throw msg, c1)
  | (Rows _, c1) =>
      match run P callback c1 with
      | (Throw msg, c2) => (Throw msg, c2)
      | (Ok result, c2) =>
          match client_query P c2 "COMMIT" [] with
          | (Failure msg, c3) => (Throw msg, c3)
          | (Rows _, c3) => (Ok result, c3)
          end
      end
  end.

(** [transaction(callback)]: the outcome, and the client when one was
    acquired. *)
Definition transaction {A} (mgr : Manager) (callback : Callback A)
  : result A * option Client :=
  if negb (isConnected_postgres mgr) then (Throw "PostgreSQL not connected", None)
  else
    match connect (postgresPool mgr) with
    | Some msg => (Throw msg, None)
    | None =>
        let client := {| sent := []; released := 0 |} in
        let '(outcome, c) :=
          match attempt (postgresPool mgr) callback client with
          | (Ok result, c1) => (Ok result, c1)
          | (Throw error, c1) =>
              (* catch (error) { await client.query('ROLLBACK'); throw error; } *)
              match client_query (postgresPool mgr) c1 "ROLLBACK" [] with
              | (Failure msg, c2) => (Throw msg, c2)
              | (Rows _, c2) => (Throw error, c2)
              end
          end in
        (* finally { client.release(); } *)
        (outcome, Some (release c))
    end.

(** The settings that [parseInt] reads within the safe integers: a
    string of at most 15 characters, a safe integer, or a value whose
    rendering starts with no numeral.  (An array is rendered by its
    elements, of any length.) *)
Definition exact_setting (v : value) : bool :=
  match v with
  | VStr s => Nat.leb (String.length s) 15
  | VNum q => qc_is_int q && isSafeInteger (Qnum (this q))
  | VArr _ => false
  | _ => true
  end.

(** The [pgConfig] of [connectPostgres(config = {})], in property order *)
Definition pgConfig (config : bag) (env : gmap string string) : json :=
  let get := Obj.get in
  [ ("host", or (or (get config "host") (Runtime.env_var env "DB_HOST")) (VStr "localhost"));
    ("port",
      or (parseInt (or (get config "port") (Runtime.env_var env "DB_PORT"))) (num 5432));
    ("database",
      or (or (get config "database") (Runtime.env_var env "DB_NAME"))
         (VStr "correlation_discovery"));
    ("user", or (or (get config "user") (Runtime.env_var env "DB_USER")) (VStr "postgres"));
    ("password",
      or (or (get config "password") (Runtime.env_var env "DB_PASSWORD")) (VStr "password"));
    ("max",
      or (parseInt (or (get config "maxConnections")
                       (Runtime.env_var env "DB_MAX_CONNECTIONS"))) (num 20));
    ("idleTimeoutMillis",
      or (parseInt (or (get config "idleTimeout") (Runtime.env_var env "DB_IDLE_TIMEOUT")))
         (num 30000));
    ("connectionTimeoutMillis",
      or (parseInt (or (get config "connectionTimeout")
                       (Runtime.env_var env "DB_CONNECTION_TIMEOUT"))) (num 2000));
    ("ssl",
      or (get config "ssl")
         (if strict_eq (Runtime.env_var env "DB_SSL") (VStr "true")
          then VObj (<["rejectUnauthorized" := VBool false]> ∅)
          else VBool false)) ].

End DatabaseManager.

(** ** BaseRepository *)

Module BaseRepository.
Import JS Obj BaseModel Pg.

(** The surroundings of a repository: how storage answers a statement after
    the statements issued before it, and what the [n]-th constructor call
    reads from the id generator and the clock. *)
Record World : Type := {
  respond : list Stmt -> Stmt -> reply;
  reading : nat -> Env
}.

Record State : Type := { issued : list Stmt; tick : nat }.

(** Repository methods: they thread the state and may throw; what was
    issued before a throw stays issued.  Each [catch] block of the source
    logs and rethrows the same error, which leaves the outcome as it is. *)
Definition M (A : Type) : Type := State -> result A * State.

#[global] Instance M_ret : MRet M := fun A a s => (Ok a, s).
#[global] Instance M_bind : MBind M :=
  fun A B f m s =>
    match m s with
    | (Ok a, s') => f a s'
    | (Throw e, s') => (Throw e, s')
    end.

(** The state after [n] more readings and no statement *)
Definition advance (s : State) (n : nat) : State :=
  {| issued := issued s; tick := tick s + n |}.

Definition lift {A} (r : result A) : M A := fun s => (r, s).
Definition throw {A} (msg : string) : M A := lift (Throw msg).

Definition nl : string := String (ascii_of_nat 10) EmptyString.

(** [$n] *)
Definition placeholder (n : nat) : string := "$" +:+ pretty n.

Section Repository.
Variable W : World.
Variable model : class.

(** The next reading of the id generator and of the clock *)
Definition fresh : M Env :=
  fun s => (Ok (reading W (tick s)), {| issued := issued s; tick := S (tick s) |}).

(** [new this.model(data)] *)
Definition construct (data : bag) : M bag :=
  env ← fresh;
  mret (new model env data).

(** [await this.db.getPool().query(query, params)] *)
Definition query (q : string) (ps : list param) : M (list bag) :=
  fun s =>
    let st := {| text := q; params := ps |} in
    let s' := {| issued := issued s ++ [st]; tick := tick s |} in
    match respond W (issued s) st with
    | Rows rows => (Ok rows, s')
    | Failure msg => (Throw msg, s')
    end.

(** [this.model.fromDatabase(row)] *)
Definition fromDatabase (row : option bag) : M (option bag) :=
  match row with
  | None => mret None
  | Some r => inst ← construct r; mret (Some inst)
  end.

(** [rows.map(row => this.model.fromDatabase(row))] *)
Fixpoint fromDatabase_all (rows : list bag) : M (list (option bag)) :=
  match rows with
  | [] => mret []
  | r :: rest =>
      x ← fromDatabase (Some r);
      xs ← fromDatabase_all rest;
      mret (x :: xs)
  end.

(** *** findById *)
Definition findById_text : string :=
  nl +:+ "        SELECT * FROM " +:+ tableName model +:+
  nl +:+ "        WHERE id = $1" +:+
  nl +:+ "        LIMIT 1" +:+
  nl +:+ "      ".

Definition findById (id : value) : M (option bag) :=
  rows ← query findById_text [PValue id];
  match rows with
  | [] => mret None
  | row :: _ => fromDatabase (Some row)
  end.

(** *** findAll *)

(** The [options] bag, destructured: an absent property reads as
    undefined, and [where] lists its entries in property order. *)
Record Options : Type := {
  limit : value;
  offset : value;
  orderBy : value;
  order : value;
  where_ : option (list (string * value))
}.

(** [{ x = d } = options]: the default stands in for undefined. *)
Definition or_default (d v : value) : value :=
  if is_undefined v then d else v.

(** The state of the [map] callback that builds the WHERE clause:
    conditions so far, [params], [paramIndex]. *)
Definition where_acc : Type := (list string * list value * nat)%type.

Definition findAll_condition (acc : where_acc) (entry : string * value) : where_acc :=
  let '(conds, ps, paramIndex) := acc in
  let '(key, value) := entry in
  match value with
  | VArr l =>
      ((conds ++ [key +:+ " = ANY(" +:+ placeholder paramIndex +:+ ")::uuid[]"])%list,
       (ps ++ l)%list, S paramIndex)
  | VDate _ iso =>
      ((conds ++ [key +:+ " = " +:+ placeholder paramIndex])%list,
       (ps ++ [VStr iso])%list, S paramIndex)
  | _ =>
      ((conds ++ [key +:+ " = " +:+ placeholder paramIndex])%list,
       (ps ++ [value])%list, S paramIndex)
  end.

Definition findAll_stmt (options : Options) : Stmt :=
  let limit := or_default (num 50) (limit options) in
  let offset := or_default (num 0) (offset options) in
  let orderBy := or_default (VStr "createdAt") (orderBy options) in
  let order := or_default (VStr "DESC") (order options) in
  let entries := default [] (where_ options) in
  let q0 := "SELECT * FROM " +:+ tableName model in
  let '(whereConditions, ps, paramIndex) :=
    List.fold_left findAll_condition entries ([], [], 1) in
  let q1 :=
    match whereConditions with
    | [] => q0
    | _ => q0 +:+ " WHERE " +:+ String.concat " AND " whereConditions
    end in
  let q2 := q1 +:+ " ORDER BY " +:+ to_string orderBy +:+ " " +:+ to_string order in
  let q3 := q2 +:+ " LIMIT " +:+ placeholder paramIndex +:+
                   " OFFSET " +:+ placeholder (S paramIndex) in
  {| text := q3; params := List.map PValue (ps ++ [limit; offset]) |}.

Definition findAll (options : Options) : M (list (option bag)) :=
  let st := findAll_stmt options in
  rows ← query (text st) (params st);
  fromDatabase_all rows.

(** What [findAll] binds for a value that is no array *)
Definition bound (v : value) : value :=
  match v with
  | VDate _ iso => VStr iso
  | _ => v
  end.



(** What a [where] bag binds, entry by entry: the elements of an array,
    else the value as [f] hands it over ([bound] in [findAll], the value
    itself in [count]). *)
Definition spread (f : value -> value) (entries : list (string * value)) : list value :=
  concat (List.map (fun entry : string * value =>
                      match entry.2 with
                      | VArr l => l
                      | v => [f v]
                      end) entries).

(** *** count *)
Definition count_condition (acc : where_acc) (entry : string * value) : where_acc :=
  let '(conds, ps, paramIndex) := acc in
  let '(key, value) := entry in
  match value with
  | VArr l =>
      ((conds ++ [key +:+ " = ANY(" +:+ placeholder paramIndex +:+ ")::uuid[]"])%list,
       (ps ++ l)%list, S paramIndex)
  | _ =>
      ((conds ++ [key +:+ " = " +:+ placeholder paramIndex])%list,
       (ps ++ [value])%list, S paramIndex)
  end.

Definition count_stmt (entries : list (string * value)) : Stmt :=
  let q0 := "SELECT COUNT(*) as count FROM " +:+ tableName model in
  let '(whereConditions, ps, _) :=
    List.fold_left count_condition entries ([], [], 1) in
  let q1 :=
    match whereConditions with
    | [] => q0
    | _ => q0 +:+ " WHERE " +:+ String.concat " AND " whereConditions
    end in
  {| text := q1; params := List.map PValue ps |}.

Definition count (entries : list (string * value)) : M value :=
  let st := count_stmt entries in
  rows ← query (text st) (params st);
  match rows with
  | [] => throw "Cannot read properties of undefined (reading 'count')"
  | row :: _ => mret (parseInt (get row "count"))
  end.

(** *** create *)
Definition insert_columns (row : json) : list string :=
  List.filter (fun key => negb (String.eqb key "id")) (keys row).

Definition create_text (columns : list string) : string :=
  let values := imap (fun index _ => placeholder (index + 1)) columns in
  nl +:+ "        INSERT INTO " +:+ tableName model +:+
         " (" +:+ String.concat ", " columns +:+ ")" +:+
  nl +:+ "        VALUES (" +:+ String.concat ", " values +:+ ")" +:+
  nl +:+ "        RETURNING *" +:+
  nl +:+ "      ".

(** The INSERT for an instance and its [toDatabase()] *)
Definition create_stmt (instance : bag) (row : json) : Stmt :=
  let columns := insert_columns row in
  {| text := create_text columns;
     params := List.map (read model instance) columns |}.

Definition create (data : bag) : M (option bag) :=
  instance ← construct data;
  _ ← lift (call_validate model instance);
  row ← lift (call_toDatabase model instance);
  let st := create_stmt instance row in
  rows ← query (text st) (params st);
  match rows with
  | [] => throw "Cannot read properties of undefined (reading 'id')"
  | first :: _ => fromDatabase (Some first)
  end.

(** *** update *)
Definition update_text (columns : list string) : string :=
  let setClause :=
    String.concat ", " (imap (fun index col => col +:+ " = " +:+ placeholder (index + 1)) columns) in
  nl +:+ "        UPDATE " +:+ tableName model +:+
  nl +:+ "        SET " +:+ setClause +:+
  nl +:+ "        WHERE id = " +:+ placeholder (length columns + 1) +:+
  nl +:+ "        RETURNING *" +:+
  nl +:+ "      ".

Definition update (id : value) (data : bag) : M (option bag) :=
  found ← findById id;
  match found with
  | None => throw (tableName model +:+ " not found")
  | Some found =>
      env ← fresh;
      existing ← lift (call_update model env found data);
      _ ← lift (call_validate model existing);
      row ← lift (call_toDatabase model existing);
      let columns := insert_columns row in
      let ps := (List.map (read model existing) columns ++ [PValue id])%list in
      rows ← query (update_text columns) ps;
      fromDatabase (head rows)
  end.

(** *** delete, exists, findMany *)
Definition delete_text : string :=
  nl +:+ "        DELETE FROM " +:+ tableName model +:+
  nl +:+ "        WHERE id = $1" +:+
  nl +:+ "        RETURNING *" +:+
  nl +:+ "      ".

Definition delete (id : value) : M bool :=
  rows ← query delete_text [PValue id];
  mret (negb (Nat.eqb (length rows) 0)).

Definition exists_text : string :=
  "SELECT EXISTS(SELECT 1 FROM " +:+ tableName model +:+ " WHERE id = $1)".

Definition exists_ (id : value) : M value :=
  rows ← query exists_text [PValue id];
  match rows with
  | [] => throw "Cannot read properties of undefined (reading 'exists')"
  | row :: _ => mret (get row "exists")
  end.

Definition findMany_text : string :=
  nl +:+ "        SELECT * FROM " +:+ tableName model +:+
  nl +:+ "        WHERE id = ANY($1)" +:+
  nl +:+ "      ".

(** The whole array is one parameter here. *)
Definition findMany (ids : list value) : M (list (option bag)) :=
  rows ← query findMany_text [PValue (VArr ids)];
  fromDatabase_all rows.

(** *** createMany *)
Fixpoint construct_all (dataArray : list bag) : M (list bag) :=
  match dataArray with
  | [] => mret []
  | data :: rest =>
      instance ← construct data;
      instances ← construct_all rest;
      mret (instance :: instances)
  end.

(** [instances.forEach(instance => instance.validate())] *)
Fixpoint validate_all (instances : list bag) : result unit :=
  match instances with
  | [] => Ok tt
  | instance :: rest => _ ← call_validate model instance; validate_all rest
  end.

Definition createMany_text (columns : list string) (n : nat) : string :=
  let placeholders :=
    List.map
      (fun index =>
         "(" +:+ String.concat ", "
                   (imap (fun colIndex _ => placeholder (index * length columns + colIndex + 1))
                         columns) +:+ ")")
      (seq 0 n) in
  nl +:+ "        INSERT INTO " +:+ tableName model +:+
         " (" +:+ String.concat ", " columns +:+ ")" +:+
  nl +:+ "        VALUES " +:+ String.concat ", " placeholders +:+
  nl +:+ "        RETURNING *" +:+
  nl +:+ "      ".

Definition createMany (dataArray : list bag) : M (list (option bag)) :=
  instances ← construct_all dataArray;
  _ ← lift (validate_all instances);
  match instances with
  | [] => throw "Cannot read properties of undefined (reading 'toDatabase')"
  | first :: _ =>
      row ← lift (call_toDatabase model first);
      let columns := insert_columns row in
      let ps :=
        List.concat (List.map (fun instance => List.map (read model instance) columns)
                              instances) in
      rows ← query (createMany_text columns (length instances)) ps;
      fromDatabase_all rows
  end.

(** *** search *)
Definition search_text (fields : list value) : string :=
  let searchConditions :=
    String.concat " OR "
      (List.map (fun field => to_string field +:+ "::text ILIKE $1") fields) in
  nl +:+ "        SELECT * FROM " +:+ tableName model +:+
  nl +:+ "        WHERE " +:+ searchConditions +:+
  nl +:+ "        ORDER BY similarity(" +:+ to_string (default VUndefined (head fields)) +:+
         "::text, $1) DESC" +:+
  nl +:+ "        LIMIT $2" +:+
  nl +:+ "      ".

Definition search_stmt (searchTerm : value) (fields : list value) (limit : value) : Stmt :=
  {| text := search_text fields;
     params := [PValue (VStr ("%" +:+ to_string searchTerm +:+ "%"));
                PValue (or limit (num 50))] |}.

Definition search (searchTerm : value) (fields : list value) (limit : value)
  : M (list (option bag)) :=
  let st := search_stmt searchTerm fields limit in
  rows ← query (text st) (params st);
  fromDatabase_all rows.

(** *** transaction *)

(** [this.db.transaction(callback)].  The repository's [db] comes from
    [config/database], which is not among the sources: its [transaction]
    is a parameter, and [DatabaseManager.transaction] is the one at hand. *)
Definition transaction {A R : Type} (db_transaction : DatabaseManager.Callback A -> R)
           (callback : DatabaseManager.Callback A) : R :=
  db_transaction callback.

End Repository.

End BaseRepository.

(** ** DatasetRepository: the hand-written queries *)

Module DatasetRepository.
Import JS Obj BaseModel Pg BaseRepository.

Section Repository.
Variable W : World.
Variable model : class.

(** [findRecentlyAccessed(days = 7)] *)
Definition findRecentlyAccessed_text (days : value) : string :=
  nl +:+ "        SELECT * FROM " +:+ tableName model +:+
  nl +:+ "        WHERE last_accessed >= NOW() - INTERVAL '" +:+
         to_string (or_default (num 7) days) +:+ " days'" +:+
  nl +:+ "        ORDER BY last_accessed DESC" +:+
  nl +:+ "      ".

Definition findRecentlyAccessed (days : value) : M (list (option bag)) :=
  rows ← query W (findRecentlyAccessed_text days) [];
  fromDatabase_all W model rows.

(** [getPopularTags(limit = 20)] *)
Definition getPopularTags_text : string :=
  nl +:+ "        SELECT UNNEST(tags) as tag, COUNT(*) as count" +:+
  nl +:+ "        FROM " +:+ tableName model +:+
  nl +:+ "        WHERE status = 'active'" +:+
  nl +:+ "        GROUP BY tag" +:+
  nl +:+ "        ORDER BY count DESC" +:+
  nl +:+ "        LIMIT $1" +:+
  nl +:+ "      ".

Definition getPopularTags (limit : value) : M (list bag) :=
  query W getPopularTags_text [PValue (or_default (num 20) limit)].

(** [incrementAccessCount(id)] *)
Definition incrementAccessCount_text : string :=
  nl +:+ "        UPDATE " +:+ tableName model +:+
  nl +:+ "        SET" +:+
  nl +:+ "          last_accessed = NOW()," +:+
  nl +:+ "          metadata = jsonb_set(" +:+
  nl +:+ "            COALESCE(metadata, '{}')," +:+
  nl +:+ "            '{accessCount}'," +:+
  nl +:+ "            COALESCE((metadata->>'accessCount')::int, 0) + 1" +:+
  nl +:+ "          )," +:+
  nl +:+ "          updated_at = NOW()" +:+
  nl +:+ "        WHERE id = $1" +:+
  nl +:+ "        RETURNING *" +:+
  nl +:+ "      ".

Definition incrementAccessCount (id : value) : M (option bag) :=
  rows ← query W incrementAccessCount_text [PValue id];
  match rows with
  | [] => throw "Dataset not found"
  | row :: _ => fromDatabase W model (Some row)
  end.

(** [updateStats(id, recordCount, size)] *)
Definition updateStats_text : string :=
  nl +:+ "        UPDATE " +:+ tableName model +:+
  nl +:+ "        SET record_count = $1, size = $2, updated_at = NOW()" +:+
  nl +:+ "        WHERE id = $3" +:+
  nl +:+ "        RETURNING *" +:+
  nl +:+ "      ".

Definition updateStats (id recordCount size : value) : M (option bag) :=
  rows ← query W updateStats_text [PValue recordCount; PValue size; PValue id];
  match rows with
  | [] => throw "Dataset not found"
  | row :: _ => fromDatabase W model (Some row)
  end.

(** [addTag(id, tag)] *)
Definition addTag_text : string :=
  nl +:+ "        UPDATE " +:+ tableName model +:+
  nl +:+ "        SET" +:+
  nl +:+ "          tags = CASE" +:+
  nl +:+ "            WHEN $2 = ANY(tags) THEN tags" +:+
  nl +:+ "            ELSE array_append(tags, $2)" +:+
  nl +:+ "          END," +:+
  nl +:+ "          updated_at = NOW()" +:+
  nl +:+ "        WHERE id = $1" +:+
  nl +:+ "        RETURNING *" +:+
  nl +:+ "      ".

Definition addTag (id tag : value) : M (option bag) :=
  rows ← query W addTag_text [PValue id; PValue tag];
  match rows with
  | [] => throw "Dataset not found"
  | row :: _ => fromDatabase W model (Some row)
  end.

(** [removeTag(id, tag)] *)
Definition removeTag_text : string :=
  nl +:+ "        UPDATE " +:+ tableName model +:+
  nl +:+ "        SET" +:+
  nl +:+ "          tags = array_remove(tags, $2)," +:+
  nl +:+ "          updated_at = NOW()" +:+
  nl +:+ "        WHERE id = $1" +:+
  nl +:+ "        RETURNING *" +:+
  nl +:+ "      ".

Definition removeTag (id tag : value) : M (option bag) :=
  rows ← query W removeTag_text [PValue id; PValue tag];
  match rows with
  | [] => throw "Dataset not found"
  | row :: _ => fromDatabase W model (Some row)
  end.

(** [archive(id)] and [activate(id)] *)
Definition archive_text : string :=
  nl +:+ "        UPDATE " +:+ tableName model +:+
  nl +:+ "        SET status = 'archived', updated_at = NOW()" +:+
  nl +:+ "        WHERE id = $1" +:+
  nl +:+ "        RETURNING *" +:+
  nl +:+ "      ".

Definition archive (id : value) : M (option bag) :=
  rows ← query W archive_text [PValue id];
  match rows with
  | [] => throw "Dataset not found"
  | row :: _ => fromDatabase W model (Some row)
  end.

Definition activate_text : string :=
  nl +:+ "        UPDATE " +:+ tableName model +:+
  nl +:+ "        SET status = 'active', updated_at = NOW()" +:+
  nl +:+ "        WHERE id = $1" +:+
  nl +:+ "        RETURNING *" +:+
  nl +:+ "      ".

Definition activate (id : value) : M (option bag) :=
  rows ← query W activate_text [PValue id];
  match rows with
  | [] => throw "Dataset not found"
  | row :: _ => fromDatabase W model (Some row)
  end.

End Repository.

End DatasetRepository.

(** ** CorrelationRepository: the hand-written queries *)

Module CorrelationRepository.
Import JS Obj BaseModel Pg BaseRepository.

Section Repository.
Variable W : World.
Variable model : class.

(** [updateValidation(id, validityScore, status = null)] *)
Definition updateValidation_stmt (id validityScore status : value) : Stmt :=
  let status := or_default VNull status in
  let setStatus := if truthy status then ", status = $3" else "" in
  let ps := if truthy status then [validityScore; status; id] else [validityScore; id] in
  {| text :=
       nl +:+ "        UPDATE " +:+ tableName model +:+
       nl +:+ "        SET" +:+
       nl +:+ "          validity_score = $1," +:+
       nl +:+ "          last_validated = NOW()," +:+
       nl +:+ "          updated_at = NOW()" +:+
       nl +:+ "          " +:+ setStatus +:+
       nl +:+ "        WHERE id = " +:+ placeholder (length ps) +:+
       nl +:+ "        RETURNING *" +:+
       nl +:+ "      ";
     params := List.map PValue ps |}.

Definition updateValidation (id validityScore status : value) : M (option bag) :=
  let st := updateValidation_stmt id validityScore status in
  rows ← query W (text st) (params st);
  match rows with
  | [] => throw "Correlation not found"
  | row :: _ => fromDatabase W model (Some row)
  end.

(** [incrementVersion(id)] *)
Definition incrementVersion_text : string :=
  nl +:+ "        UPDATE " +:+ tableName model +:+
  nl +:+ "        SET" +:+
  nl +:+ "          version = version + 1," +:+
  nl +:+ "          updated_at = NOW()" +:+
  nl +:+ "        WHERE id = $1" +:+
  nl +:+ "        RETURNING *" +:+
  nl +:+ "      ".

Definition incrementVersion (id : value) : M (option bag) :=
  rows ← query W incrementVersion_text [PValue id];
  match rows with
  | [] => throw "Correlation not found"
  | row :: _ => fromDatabase W model (Some row)
  end.

(** [archive(id)] *)
Definition archive_text : string :=
  nl +:+ "        UPDATE " +:+ tableName model +:+
  nl +:+ "        SET status = 'archived', updated_at = NOW()" +:+
  nl +:+ "        WHERE id = $1" +:+
  nl +:+ "        RETURNING *" +:+
  nl +:+ "      ".

Definition archive (id : value) : M (option bag) :=
  rows ← query W archive_text [PValue id];
  match rows with
  | [] => throw "Correlation not found"
  | row :: _ => fromDatabase W model (Some row)
  end.

(** [findSimilarCorrelations(correlationId, threshold = 0.8)] *)
Definition findSimilarCorrelations_text : string :=
  nl +:+ "        SELECT * FROM " +:+ tableName model +:+
  nl +:+ "        WHERE" +:+
  nl +:+ "          id != $1 AND" +:+
  nl +:+ "          type = $2 AND" +:+
  nl +:+ "          ABS(confidence - $3) <= $4 AND" +:+
  nl +:+ "          (source_dataset_id = $5 OR target_dataset_id = $6)" +:+
  nl +:+ "        ORDER BY confidence DESC" +:+
  nl +:+ "        LIMIT 10" +:+
  nl +:+ "      ".

Definition findSimilarCorrelations (correlationId threshold : value)
  : M (list (option bag)) :=
  reference ← findById W model correlationId;
  match reference with
  | None => throw "Reference correlation not found"
  | Some reference =>
      rows ← query W findSimilarCorrelations_text
                [ PValue correlationId;
                  read model reference "type";
                  read model reference "confidence";
                  PValue (or_default (VNum (Q2Qc (8 # 10))) threshold);
                  read model reference "sourceDatasetId";
                  read model reference "targetDatasetId" ];
      fromDatabase_all W model rows
  end.

(** [getCorrelationTimeline(datasetId, days = 30)] *)
Definition getCorrelationTimeline_text (days : value) : string :=
  nl +:+ "        SELECT" +:+
  nl +:+ "          DATE(created_at) as date," +:+
  nl +:+ "          COUNT(*) as count," +:+
  nl +:+ "          AVG(confidence) as avg_confidence," +:+
  nl +:+ "          AVG(validity_score) as avg_validity" +:+
  nl +:+ "        FROM " +:+ tableName model +:+
  nl +:+ "        WHERE" +:+
  nl +:+ "          (source_dataset_id = $1 OR target_dataset_id = $1) AND" +:+
  nl +:+ "          created_at >= NOW() - INTERVAL '" +:+
         to_string (or_default (num 30) days) +:+ " days'" +:+
  nl +:+ "        GROUP BY DATE(created_at)" +:+
  nl +:+ "        ORDER BY date" +:+
  nl +:+ "      ".

Definition getCorrelationTimeline (datasetId days : value) : M (list bag) :=
  query W (getCorrelationTimeline_text days) [PValue datasetId].

End Repository.

End CorrelationRepository.

(** ** Concrete surroundings for the examples *)

Module Sample.
Import JS Obj BaseModel Pg.

(** The form [toISOString] writes: YYYY-MM-DDTHH:MM:SS.sssZ. *)
Definition iso_utc (s : string) : bool :=
  match list_ascii_of_string s with
  | [y1; y2; y3; y4; a; m1; m2; b; d1; d2; t; h1; h2; c; n1; n2; d; s1; s2; e; f1; f2; f3; z] =>
      forallb (fun x => bool_decide (is_Some (digit_of x)))
              [y1; y2; y3; y4; m1; m2; d1; d2; h1; h2; n1; n2; s1; s2; f1; f2; f3]
      && String.eqb (string_of_list_ascii [a; b; t; c; d; e; z]) "--T::.Z"
  | _ => false
  end.

Definition id1 : string := "11111111-1111-4111-8111-111111111111".
Definition id2 : string := "22222222-2222-4222-8222-222222222222".
Definition id3 : string := "33333333-3333-4333-8333-333333333333".
Definition id4 : string := "44444444-4444-4444-8444-444444444444".
Definition t0 : string := "2026-01-01T00:00:00.000Z".
Definition t1 : string := "2026-01-02T00:00:00.000Z".

Definition env0 : Env := {| uuidv4 := id1; now := t0 |}.
Definition env1 : Env := {| uuidv4 := id2; now := t1 |}.

(** The payload of the end-to-end scenario, for two dataset ids. *)
Definition payload (a b : string) : bag :=
  <["sourceDatasetId" := VStr a]>
    (<["targetDatasetId" := VStr b]> (<["type" := VStr "one_to_one"]> ∅)).

(** Storage that answers every statement with the same rows; the clock
    moves from [t0] to [t1] after the first reading. *)
Definition world (rows : list bag) : BaseRepository.World :=
  {| BaseRepository.respond := fun _ _ => Rows rows;
     BaseRepository.reading := fun n => match n with O => env0 | _ => env1 end |}.

Definition start : BaseRepository.State :=
  {| BaseRepository.issued := []; BaseRepository.tick := 0 |}.

(** What [validate()] throws on the payload with the ids A and B. *)
Definition not_guids : string :=
  "Validation failed: " +:+ Joi.label "sourceDatasetId" +:+ " must be a valid GUID, "
  +:+ Joi.label "targetDatasetId" +:+ " must be a valid GUID".

(** A payload that breaks two field rules and the business rule. *)
Definition bad_payload : bag :=
  <["confidence" := num 2]> (payload "A" "A").

(** The fields of the correlation the end-to-end scenario creates from
    the dataset ids [a] and [b], with the id [g] and the timestamps [t],
    [t']. *)
Definition scenario (g a b t t' : string) : json :=
  [ ("id", VStr g); ("sourceDatasetId", VStr a); ("targetDatasetId", VStr b);
    ("type", VStr "one_to_one"); ("parameters", VObj ∅); ("confidence", num 0);
    ("validityScore", num 0); ("description", VStr ""); ("status", VStr "proposed");
    ("parentCorrelationId", VNull); ("version", num 1); ("tags", VArr []);
    ("metadata", VObj ∅); ("discoveryMethod", VStr ""); ("lastValidated", VNull);
    ("createdAt", VStr t); ("updatedAt", VStr t') ].

(** Storage that has kept the scenario's correlation under the id [id4]
    and returns it for the INSERT. *)
Definition stored : bag :=
  to_bag (scenario id4 id2 id3 t0 t0).

Definition no_options (entries : list (string * value)) : BaseRepository.Options :=
  {| BaseRepository.limit := VUndefined; BaseRepository.offset := VUndefined;
     BaseRepository.orderBy := VUndefined; BaseRepository.order := VUndefined;
     BaseRepository.where_ := Some entries |}.

(** A connection on which every statement but [failing] succeeds. *)
Definition pool_failing (failing : string) : DatabaseManager.Pool :=
  {| DatabaseManager.connect := None;
     DatabaseManager.answer := fun _ st =>
       if String.eqb (Pg.text st) failing then Failure (failing +:+ " failed") else Rows [] |}.

Definition manager (failing : string) : DatabaseManager.Manager :=
  {| DatabaseManager.postgresPool := pool_failing failing;
     DatabaseManager.isConnected_postgres := true |}.

(** The row storage answers a COUNT with: the driver hands a [bigint]
    over as its decimal string. *)
Definition counted : bag := <["count" := VStr "42"]> ∅.

(** A dataset named n, and two clock readings after [t1] *)
Definition dataset : bag := <["name" := VStr "n"]> ∅.
Definition t2 : string := "2026-01-03T00:00:00.000Z".
Definition env2 : Env := {| uuidv4 := id3; now := t2 |}.

(** A dataset tagged b, a, b; one counted five times; and settings
    given partly by [config], partly by the environment. *)
Definition tagged : bag := <["tags" := VArr [VStr "b"; VStr "a"; VStr "b"]]> ∅.
Definition accessed : bag := <["metadata" := VObj (<["accessCount" := num 5]> ∅)]> ∅.
Definition config : bag := <["port" := num 6543]> ∅.
Definition environment : gmap string string := <["DB_MAX_CONNECTIONS" := "10"]> ∅.

End Sample.

(** * Properties *)

Import JS Obj BaseModel Pg.

(** ** Running repository methods *)

Section Monad.
Import BaseRepository.

Lemma bind_ok {A B} (m : M A) (f : A -> M B) s a s' :
  m s = (Ok a, s') -> (m ≫= f) s = f a s'.
Proof. intros H. unfold mbind, M_bind. rewrite H. reflexivity. Qed.

Lemma bind_throw {A B} (m : M A) (f : A -> M B) s e s' :
  m s = (Throw e, s') -> (m ≫= f) s = (Throw e, s').
Proof. intros H. unfold mbind, M_bind. rewrite H. reflexivity. Qed.

Variable W : World.
Variable C : class.

Lemma construct_run data s :
  construct W C data s = (Ok (new C (reading W (tick s)) data), advance s 1).
Proof.
  unfold construct, fresh, advance. cbn.
  replace (tick s + 1) with (S (tick s)) by lia. reflexivity.
Qed.

Lemma construct_all_run dataArray s :
  construct_all W C dataArray s =
    (Ok (imap (fun i data => new C (reading W (tick s + i)) data) dataArray),
     advance s (length dataArray)).
Proof.
  revert s. induction dataArray as [|d l IH]; intros s.
  - cbn. unfold advance. rewrite Nat.add_0_r. destruct s; reflexivity.
  - cbn [construct_all].
    erewrite bind_ok by apply construct_run.
    erewrite bind_ok by apply IH.
    unfold mret, M_ret, advance. cbn. rewrite Nat.add_0_r. f_equal.
    + f_equal. f_equal. apply imap_ext. intros i x _. cbn.
      f_equal. f_equal. lia.
    + f_equal. lia.
Qed.

(** Mapping rows back to instances issues nothing and never throws. *)
Lemma fromDatabase_all_run rows s :
  exists xs, fromDatabase_all W C rows s = (Ok xs, advance s (length rows)).
Proof.
  revert s. induction rows as [|r rows IH]; intros s.
  - exists []. cbn. unfold advance. rewrite Nat.add_0_r. destruct s; reflexivity.
  - cbn [fromDatabase_all fromDatabase].
    destruct (IH (advance s 1)) as [xs Hxs].
    exists (Some (new C (reading W (tick s)) r) :: xs).
    erewrite bind_ok; [|erewrite bind_ok by apply construct_run; reflexivity].
    erewrite bind_ok by apply Hxs.
    unfold mret, M_ret, advance. cbn. f_equal. f_equal. lia.
Qed.

Lemma query_run q ps s :
  query W q ps s =
    (match respond W (issued s) {| text := q; params := ps |} with
     | Rows rows => Ok rows
     | Failure msg => Throw msg
     end,
     {| issued := issued s ++ [{| text := q; params := ps |}]; tick := tick s |}).
Proof. unfold query. destruct (respond W _ _); reflexivity. Qed.

(** [forEach] stops at the first instance whose [validate()] throws. *)
Lemma validate_all_throws instances i x msg :
  instances !! i = Some x ->
  call_validate C x = Throw msg ->
  exists j y msg',
    instances !! j = Some y /\ call_validate C y = Throw msg' /\
    validate_all C instances = Throw msg'.
Proof.
  revert i. induction instances as [|a l IH]; intros i Hi Hx; [done|].
  cbn [validate_all].
  destruct (call_validate C a) as [[]|m] eqn:Ha.
  - destruct i as [|i]; cbn in Hi.
    + injection Hi as ->. congruence.
    + destruct (IH i Hi Hx) as (j & y & m' & Hj & Hy & Hall).
      exists (S j), y, m'. cbn. auto.
  - exists 0, a, m. cbn. auto.
Qed.

End Monad.

(** ** Validation comes before any statement (C4, C10) *)

Section CreateRejects.
Import BaseRepository.
Variable W : World.
Variable C : class.

Lemma create_invalid data s msg :
  call_validate C (new C (reading W (tick s)) data) = Throw msg ->
  create W C data s = (Throw msg, advance s 1).
Proof.
  intros H. unfold create.
  erewrite bind_ok by apply construct_run.
  erewrite bind_throw; [reflexivity|]. unfold lift. rewrite H. reflexivity.
Qed.

Lemma createMany_invalid dataArray s i data msg :
  dataArray !! i = Some data ->
  call_validate C (new C (reading W (tick s + i)) data) = Throw msg ->
  exists j data' msg',
    dataArray !! j = Some data' /\
    call_validate C (new C (reading W (tick s + j)) data') = Throw msg' /\
    createMany W C dataArray s = (Throw msg', advance s (length dataArray)).
Proof.
  intros Hi Hv. unfold createMany.
  erewrite bind_ok by apply construct_all_run.
  set (instances := imap _ dataArray).
  assert (Hinst : instances !! i = Some (new C (reading W (tick s + i)) data)).
  { unfold instances. rewrite list_lookup_imap, Hi. reflexivity. }
  destruct (validate_all_throws C instances i _ msg Hinst Hv)
    as (j & y & msg' & Hj & Hy & Hall).
  unfold instances in Hj. rewrite list_lookup_imap in Hj.
  destruct (dataArray !! j) as [data'|] eqn:Hd; [|done].
  cbn in Hj. injection Hj as <-.
  exists j, data', msg'. split; [done|]. split; [done|].
  erewrite bind_throw; [reflexivity|]. unfold lift. rewrite Hall. reflexivity.
Qed.

End CreateRejects.

(** C4.  When [validate()] throws on the instance built from the input,
    [create] throws that error and issues no statement; when it throws on
    the instance of any item of a batch, [createMany] throws the error of
    an item of the batch (the first that fails) and issues no statement
    either: nothing of the batch is inserted. *)
Theorem create_validates_before_io (W : BaseRepository.World) (C : class)
        (s : BaseRepository.State) :
  (forall data msg,
      call_validate C (new C (BaseRepository.reading W (BaseRepository.tick s)) data)
        = Throw msg ->
      BaseRepository.create W C data s = (Throw msg, BaseRepository.advance s 1) /\
      BaseRepository.issued (BaseRepository.advance s 1) = BaseRepository.issued s)
  /\
  (forall dataArray i data msg,
      dataArray !! i = Some data ->
      call_validate C
        (new C (BaseRepository.reading W (BaseRepository.tick s + i)) data) = Throw msg ->
      exists j data' msg',
        dataArray !! j = Some data' /\
        call_validate C
          (new C (BaseRepository.reading W (BaseRepository.tick s + j)) data') = Throw msg' /\
        BaseRepository.createMany W C dataArray s
          = (Throw msg', BaseRepository.advance s (length dataArray)) /\
        BaseRepository.issued (BaseRepository.advance s (length dataArray))
          = BaseRepository.issued s).
Proof.
  split.
  - intros data msg H. split; [by apply create_invalid | reflexivity].
  - intros dataArray i data msg Hi Hv.
    destruct (createMany_invalid W C dataArray s i data msg Hi Hv)
      as (j & data' & msg' & Hj & Hv' & Hrun).
    exists j, data', msg'. repeat split; done.
Qed.

(** C10.  [createMany([])] throws on [instances[0].toDatabase()] and issues
    no statement; it does not return an empty list. *)
Theorem createMany_empty_throws (W : BaseRepository.World) (C : class)
        (s : BaseRepository.State) :
  BaseRepository.createMany W C [] s
    = (Throw "Cannot read properties of undefined (reading 'toDatabase')", s)
  /\ fst (BaseRepository.createMany W C [] s) <> Ok [].
Proof.
  split; [destruct s; reflexivity | destruct s; discriminate].
Qed.

(** The witness of C4: the payload with the ids A and B is rejected, alone
    and as the second item of a batch, before any statement. *)
Lemma create_validates_before_io_witness :
  (BaseRepository.create (Sample.world []) (Correlation.model Sample.iso_utc)
     (Sample.payload "A" "B") Sample.start
   = (Throw Sample.not_guids, BaseRepository.advance Sample.start 1) /\
   BaseRepository.issued (BaseRepository.advance Sample.start 1) = [])
  /\
  (exists j data' msg',
      [Sample.payload Sample.id2 Sample.id3; Sample.payload "A" "B"] !! j = Some data' /\
      call_validate (Correlation.model Sample.iso_utc)
        (new (Correlation.model Sample.iso_utc)
             (BaseRepository.reading (Sample.world []) (0 + j)) data') = Throw msg' /\
      BaseRepository.createMany (Sample.world []) (Correlation.model Sample.iso_utc)
        [Sample.payload Sample.id2 Sample.id3; Sample.payload "A" "B"] Sample.start
      = (Throw msg', BaseRepository.advance Sample.start 2) /\
      BaseRepository.issued (BaseRepository.advance Sample.start 2) = []).
Proof.
  destruct (create_validates_before_io (Sample.world [])
              (Correlation.model Sample.iso_utc) Sample.start) as [Hone Hmany].
  split.
  - apply (Hone (Sample.payload "A" "B") Sample.not_guids). vm_compute. reflexivity.
  - apply (Hmany [Sample.payload Sample.id2 Sample.id3; Sample.payload "A" "B"] 1
                 (Sample.payload "A" "B") Sample.not_guids).
    + reflexivity.
    + vm_compute. reflexivity.
Defined.

(** ** Arrays in a [where] bag (C1) *)

(** C1.  [findAll] and [count] with the bag [{id: [id1, id2], status:
    "validated"}]: both ids are pushed onto [params] but the text holds one
    placeholder for them, so the placeholder [$2] written for [status]
    is bound to the second id, and [LIMIT $3] to the status. *)
Theorem findAll_array_shifts_params :
  let entries :=
    [("id", VArr [VStr Sample.id1; VStr Sample.id2]); ("status", VStr "validated")] in
  let found := BaseRepository.findAll_stmt (Correlation.model Sample.iso_utc)
                 (Sample.no_options entries) in
  let counted := BaseRepository.count_stmt (Correlation.model Sample.iso_utc) entries in
  text found
    = "SELECT * FROM correlations WHERE id = ANY($1)::uuid[] AND status = $2 ORDER BY createdAt DESC LIMIT $3 OFFSET $4"
  /\ params found
     = [PValue (VStr Sample.id1); PValue (VStr Sample.id2); PValue (VStr "validated");
        PValue (num 50); PValue (num 0)]
  /\ params found !! 1 = Some (PValue (VStr Sample.id2))
  /\ params found !! 2 = Some (PValue (VStr "validated"))
  /\ text counted
     = "SELECT COUNT(*) as count FROM correlations WHERE id = ANY($1)::uuid[] AND status = $2"
  /\ params counted
     = [PValue (VStr Sample.id1); PValue (VStr Sample.id2); PValue (VStr "validated")].
Proof. vm_compute. repeat split; reflexivity. Qed.

(** By contrast [findMany] binds the whole array as its one parameter. *)
Lemma findMany_binds_one_array (W : BaseRepository.World) (C : class) ids s :
  BaseRepository.issued (snd (BaseRepository.findMany W C ids s))
  = (BaseRepository.issued s
     ++ [{| text := BaseRepository.findMany_text C; params := [PValue (VArr ids)] |}])%list.
Proof.
  unfold BaseRepository.findMany.
  pose proof (query_run W (BaseRepository.findMany_text C) [PValue (VArr ids)] s) as Hq.
  destruct (BaseRepository.respond W _ _) as [rows|msg].
  - erewrite bind_ok by apply Hq.
    destruct (fromDatabase_all_run W C rows
                {| BaseRepository.issued :=
                     (BaseRepository.issued s
                      ++ [{| text := BaseRepository.findMany_text C;
                             params := [PValue (VArr ids)] |}])%list;
                   BaseRepository.tick := BaseRepository.tick s |}) as [xs ->].
    reflexivity.
  - erewrite bind_throw by apply Hq. reflexivity.
Qed.

(** ** Mutators and [updatedAt] (C3) *)

(** The mutators that do refresh [updatedAt]: [update] of every model, and
    the domain mutators of [Dataset] and [Correlation] other than
    [Dataset.incrementAccessCount]. *)
Lemma mutators_refresh_updatedAt (C : class) (env : Env) (this data : bag) (x y : value) :
  (forall this', update C env this data = Ok this' -> get this' "updatedAt" = VStr (now env))
  /\ get (Dataset.updateStats env x y this) "updatedAt" = VStr (now env)
  /\ get (Dataset.archive env this) "updatedAt" = VStr (now env)
  /\ get (Dataset.activate env this) "updatedAt" = VStr (now env)
  /\ (forall this', Dataset.removeTag env x this = Ok this' ->
        get this' "updatedAt" = VStr (now env))
  /\ (forall this', Dataset.addTag env x this = Ok this' -> this' <> this ->
        get this' "updatedAt" = VStr (now env))
  /\ get (Correlation.updateValidation env x y this) "updatedAt" = VStr (now env)
  /\ get (Correlation.incrementVersion env this) "updatedAt" = VStr (now env)
  /\ get (Correlation.archive env this) "updatedAt" = VStr (now env)
  /\ (forall this', Correlation.removeTag env x this = Ok this' ->
        get this' "updatedAt" = VStr (now env))
  /\ (forall this', Correlation.addTag env x this = Ok this' -> this' <> this ->
        get this' "updatedAt" = VStr (now env)).
Proof.
  assert (Hadd : forall (add : Env -> value -> bag -> result bag),
             (forall t, add env x t =
                match Obj.get t "tags" with
                | VArr l =>
                    if includes l x then Ok t
                    else Ok (<["updatedAt" := VStr (now env)]>
                               (<["tags" := VArr (l ++ [x])]> t))
                | VStr s =>
                    if str_includes s (to_string x) then Ok t
                    else Throw "this.tags.push is not a function"
                | _ => Throw "this.tags.includes is not a function"
                end) ->
             forall this', add env x this = Ok this' -> this' <> this ->
                           get this' "updatedAt" = VStr (now env)).
  { intros add Hadd this'. rewrite Hadd.
    destruct (get this "tags") as [| | | | |s| |l|]; try done.
    - destruct (str_includes s _); [|done]. intros [= <-]. done.
    - destruct (includes l x); intros [= <-]; [done|].
      intros _. unfold get. by rewrite lookup_insert_eq. }
  assert (Hrem : forall (rem : Env -> value -> bag -> result bag),
             (forall t, rem env x t =
                match Obj.get t "tags" with
                | VArr l =>
                    Ok (<["updatedAt" := VStr (now env)]>
                          (<["tags" := VArr (List.filter (fun t => negb (strict_eq t x)) l)]> t))
                | _ => Throw "this.tags.filter is not a function"
                end) ->
             forall this', rem env x this = Ok this' ->
                           get this' "updatedAt" = VStr (now env)).
  { intros rem Hrem this'. rewrite Hrem.
    destruct (get this "tags"); try done.
    intros [= <-]. unfold get. by rewrite lookup_insert_eq. }
  split_and!.
  - intros this'. unfold update, static_schema, get.
    destruct (this !! "constructor"); [done|].
    intros [= <-]. by rewrite lookup_insert_eq.
  - unfold get, Dataset.updateStats. by rewrite lookup_insert_eq.
  - unfold get, Dataset.archive. by rewrite lookup_insert_eq.
  - unfold get, Dataset.activate. by rewrite lookup_insert_eq.
  - apply Hrem. reflexivity.
  - apply Hadd. reflexivity.
  - unfold get, Correlation.updateValidation. by rewrite lookup_insert_eq.
  - unfold get, Correlation.incrementVersion. by rewrite lookup_insert_eq.
  - unfold get, Correlation.archive. by rewrite lookup_insert_eq.
  - apply Hrem. reflexivity.
  - apply Hadd. reflexivity.
Qed.

(** [incrementAccessCount] writes [lastAccessed] and the counter and
    leaves [updatedAt] as it was, on every instance. *)
Lemma incrementAccessCount_updatedAt (env : Env) (this this' : bag) :
  Dataset.incrementAccessCount env this = Ok this' ->
  this' !! "updatedAt" = this !! "updatedAt" /\ get this' "lastAccessed" = VStr (now env).
Proof.
  unfold Dataset.incrementAccessCount.
  destruct (get this "metadata"); try done; intros [= <-]; unfold get;
    rewrite ?lookup_insert_ne by done; rewrite ?lookup_insert_eq; done.
Qed.

(** C3.  A dataset built at [t0], whose access is counted at [t1]:
    [lastAccessed] and the counter change, [updatedAt] still reads [t0]. *)
Theorem incrementAccessCount_keeps_updatedAt :
  let dataset := Dataset.constructor Sample.env0 (<["name" := VStr "n"]> ∅) in
  exists dataset',
    Dataset.incrementAccessCount Sample.env1 dataset = Ok dataset' /\
    get dataset' "lastAccessed" = VStr Sample.t1 /\
    get dataset' "metadata" = VObj (<["accessCount" := num 1]> ∅) /\
    get dataset "updatedAt" = VStr Sample.t0 /\
    get dataset' "updatedAt" = VStr Sample.t0 /\
    Sample.t0 <> Sample.t1.
Proof.
  eexists. split; [reflexivity|]. vm_compute. repeat split; try reflexivity; discriminate.
Qed.

(** ** The text of the statements (C9) *)

Section StatementText.
Import BaseRepository.
Variable C : class.







End StatementText.


(** [findRecentlyAccessed] writes its argument into the text, where
    [getPopularTags] binds its own as [$1]. *)
Lemma findRecentlyAccessed_interpolates_days :
  DatasetRepository.findRecentlyAccessed_text (Dataset.model Sample.iso_utc) (num 30)
  <> DatasetRepository.findRecentlyAccessed_text (Dataset.model Sample.iso_utc) (num 7)
  /\ DatasetRepository.findRecentlyAccessed_text (Dataset.model Sample.iso_utc)
       (VStr "0 days'; DROP TABLE datasets; --")
     = BaseRepository.nl +:+ "        SELECT * FROM datasets" +:+
       BaseRepository.nl +:+
       "        WHERE last_accessed >= NOW() - INTERVAL '0 days'; DROP TABLE datasets; -- days'" +:+
       BaseRepository.nl +:+ "        ORDER BY last_accessed DESC" +:+
       BaseRepository.nl +:+ "      ".
Proof. split; [vm_compute; discriminate | vm_compute; reflexivity]. Qed.



(** ** Transactions (C7) *)

(** The callback sends statements; releasing is not in its hands. *)
Lemma run_released {A} (P : DatabaseManager.Pool) (callback : DatabaseManager.Callback A) :
  forall c, DatabaseManager.released (DatabaseManager.run P callback c).2
            = DatabaseManager.released c.
Proof.
  induction callback as [a|msg|q ps k IH]; intros c; [reflexivity..|].
  cbn. rewrite IH. reflexivity.
Qed.

(** Where the claim C7 fails by design: the callback returns 42 and the
    COMMIT is rejected; the error of the COMMIT is thrown after a ROLLBACK,
    and 42 is not returned. *)
Lemma commit_failure_is_thrown :
  DatabaseManager.transaction (Sample.manager "COMMIT") (DatabaseManager.Return (num 42))
  = (Throw "COMMIT failed",
     Some {| DatabaseManager.sent :=
               [ {| text := "BEGIN"; params := [] |};
                 {| text := "COMMIT"; params := [] |};
                 {| text := "ROLLBACK"; params := [] |} ];
             DatabaseManager.released := 1 |})
  /\ (DatabaseManager.transaction (Sample.manager "COMMIT")
        (DatabaseManager.Return (num 42))).1 <> Ok (num 42).
Proof. split; [vm_compute; reflexivity | vm_compute; discriminate]. Qed.

(** Likewise the error of a rejected ROLLBACK replaces the one the
    callback threw. *)
Lemma rollback_failure_is_thrown :
  (DatabaseManager.transaction (A := value) (Sample.manager "ROLLBACK")
     (DatabaseManager.Raise "boom")).1
  = Throw "ROLLBACK failed".
Proof. vm_compute. reflexivity. Qed.

(** C7, amended.  Once a client is acquired it is released exactly once.
    When the callback throws, a ROLLBACK is sent after its statements and
    its error is thrown again, unless the ROLLBACK is rejected, whose error
    is thrown then.  When the callback returns, a COMMIT is sent and the
    result returned, unless the COMMIT is rejected: a ROLLBACK follows and
    the error is thrown.  A rejected BEGIN is handled as a throw before
    the callback runs. *)
Theorem transaction_commits_or_rolls_back {A} (mgr : DatabaseManager.Manager)
        (callback : DatabaseManager.Callback A) :
  DatabaseManager.isConnected_postgres mgr = true ->
  DatabaseManager.connect (DatabaseManager.postgresPool mgr) = None ->
  let P := DatabaseManager.postgresPool mgr in
  let stmt q := {| text := q; params := [] |} in
  let rolled_back sent error :=
    match DatabaseManager.answer P sent (stmt "ROLLBACK") with
    | Failure error' => Throw error'
    | Rows _ => Throw error
    end in
  exists client,
    (DatabaseManager.transaction mgr callback).2 = Some client /\
    DatabaseManager.released client = 1 /\
    match DatabaseManager.answer P [] (stmt "BEGIN") with
    | Failure error =>
        DatabaseManager.sent client = [stmt "BEGIN"; stmt "ROLLBACK"] /\
        (DatabaseManager.transaction mgr callback).1 = rolled_back [stmt "BEGIN"] error
    | Rows _ =>
        let ran :=
          DatabaseManager.run P callback
            {| DatabaseManager.sent := [stmt "BEGIN"]; DatabaseManager.released := 0 |} in
        match ran.1 with
        | Throw error =>
            DatabaseManager.sent client
              = (DatabaseManager.sent ran.2 ++ [stmt "ROLLBACK"])%list /\
            (DatabaseManager.transaction mgr callback).1
              = rolled_back (DatabaseManager.sent ran.2) error
        | Ok result =>
            match DatabaseManager.answer P (DatabaseManager.sent ran.2) (stmt "COMMIT") with
            | Rows _ =>
                DatabaseManager.sent client
                  = (DatabaseManager.sent ran.2 ++ [stmt "COMMIT"])%list /\
                (DatabaseManager.transaction mgr callback).1 = Ok result
            | Failure error =>
                DatabaseManager.sent client
                  = (DatabaseManager.sent ran.2 ++ [stmt "COMMIT"; stmt "ROLLBACK"])%list /\
                (DatabaseManager.transaction mgr callback).1
                  = rolled_back (DatabaseManager.sent ran.2 ++ [stmt "COMMIT"])%list error
            end
        end
    end.
Proof.
  intros Hconnected Hconnect P stmt rolled_back.
  unfold DatabaseManager.transaction. rewrite Hconnected, Hconnect. cbn [negb].
  unfold DatabaseManager.attempt, DatabaseManager.client_query. cbn [DatabaseManager.sent].
  fold P. change {| text := "BEGIN"; params := [] |} with (stmt "BEGIN").
  change ([] ++ [stmt "BEGIN"])%list with [stmt "BEGIN"].
  destruct (DatabaseManager.answer P [] (stmt "BEGIN")) as [rows|error].
  - pose proof (run_released P callback
                  {| DatabaseManager.sent := [stmt "BEGIN"];
                     DatabaseManager.released := 0 |}) as Hrel.
    destruct (DatabaseManager.run P callback _) as [[result|error] c]; cbn in Hrel |- *.
    + change {| text := "COMMIT"; params := [] |} with (stmt "COMMIT").
      destruct (DatabaseManager.answer P (DatabaseManager.sent c) (stmt "COMMIT"))
        as [rows'|error].
      * eexists. split; [reflexivity|]. cbn. rewrite Hrel. done.
      * cbn. change {| text := "ROLLBACK"; params := [] |} with (stmt "ROLLBACK").
        unfold rolled_back.
        destruct (DatabaseManager.answer P _ (stmt "ROLLBACK"));
          (eexists; split; [reflexivity|]; cbn; rewrite Hrel, <- app_assoc; done).
    + change {| text := "ROLLBACK"; params := [] |} with (stmt "ROLLBACK").
      unfold rolled_back.
      destruct (DatabaseManager.answer P _ (stmt "ROLLBACK"));
        (eexists; split; [reflexivity|]; cbn; rewrite Hrel; done).
  - cbn. change {| text := "ROLLBACK"; params := [] |} with (stmt "ROLLBACK").
    unfold rolled_back.
    destruct (DatabaseManager.answer P _ (stmt "ROLLBACK"));
      (eexists; split; [reflexivity|]; done).
Qed.

(** The witness of C7: a callback that inserts a row and then throws, on
    a connection where every statement succeeds. *)
Lemma transaction_commits_or_rolls_back_witness :
  let callback : DatabaseManager.Callback value :=
    DatabaseManager.Query "INSERT INTO datasets (name) VALUES ($1)" [PValue (VStr "n")]
      (fun _ => DatabaseManager.Raise "boom") in
  exists client,
    (DatabaseManager.transaction (Sample.manager "") callback).2 = Some client /\
    DatabaseManager.released client = 1 /\
    DatabaseManager.sent client
      = [ {| text := "BEGIN"; params := [] |};
          {| text := "INSERT INTO datasets (name) VALUES ($1)";
             params := [PValue (VStr "n")] |};
          {| text := "ROLLBACK"; params := [] |} ] /\
    (DatabaseManager.transaction (Sample.manager "") callback).1 = Throw "boom".
Proof.
  intros callback.
  destruct (transaction_commits_or_rolls_back (Sample.manager "") callback
              eq_refl eq_refl) as (client & Hclient & Hreleased & Hrest).
  exists client. split; [exact Hclient|]. split; [exact Hreleased|].
  vm_compute in Hrest. exact Hrest.
Defined.


(** ** What a failed validation reports (C6) *)

Lemma is_undefined_true v : is_undefined v = true <-> v = VUndefined.
Proof. destruct v; cbn; split; congruence. Qed.

Lemma is_undefined_false v : is_undefined v = false <-> v <> VUndefined.
Proof. destruct v; cbn; split; congruence. Qed.

Section Reports.
Variable is_iso_date : string -> bool.

Lemma schema_induction (P : Joi.schema -> Prop) :
  (forall ty rq vs on rs, P (Joi.Schema ty rq vs on rs None)) ->
  (forall ty rq vs on rs i, P i -> P (Joi.Schema ty rq vs on rs (Some i))) ->
  forall s, P s.
Proof.
  intros Hnone Hsome. fix IH 1. intros [ty rq vs on rs [i|]].
  - apply Hsome, IH.
  - apply Hnone.
Qed.

Lemma in_rule_errors rs lbl v m :
  In m (Joi.rule_errors rs lbl v) <->
  exists r, In r rs /\ Joi.rule_ok r v = false /\ m = Joi.rule_message r lbl v.
Proof.
  unfold Joi.rule_errors. rewrite in_map_iff. split.
  - intros (r & <- & Hr). apply filter_In in Hr as [Hin Hok].
    exists r. rewrite negb_true_iff in Hok. done.
  - intros (r & Hin & Hok & ->). exists r. split; [done|].
    apply filter_In. by rewrite Hok.
Qed.

Lemma in_concat_imap {X} (f : nat -> X -> list string) (l : list X) m :
  In m (concat (imap f l)) <-> exists n x, l !! n = Some x /\ In m (f n x).
Proof.
  rewrite in_concat. split.
  - intros (y & Hy & Hm). apply list_elem_of_In, elem_of_lookup_imap in Hy
      as (n & x & -> & Hn). eauto.
  - intros (n & x & Hn & Hm). exists (f n x). split; [|done].
    apply list_elem_of_In, elem_of_lookup_imap. eauto.
Qed.

(** The part of a field's report that does not come from its items *)
Lemma errors_own ty (rq : bool) vs (on : bool) rs (it : list string) k v m :
  In m (if is_undefined (Joi.coerce ty v)
        then (if rq then [Joi.label k +:+ " is required"] else [])
        else if existsb (strict_eq (Joi.coerce ty v)) vs then []
        else ((if on then [Joi.only_message (Joi.label k) vs] else []) ++
              match Joi.base_error is_iso_date ty (Joi.label k) (Joi.coerce ty v) with
              | Some e => [e]
              | None => Joi.rule_errors rs (Joi.label k) (Joi.coerce ty v) ++ it
              end)%list)
  <->
  (rq = true /\ Joi.coerce ty v = VUndefined /\ m = Joi.label k +:+ " is required") \/
  (Joi.coerce ty v <> VUndefined /\
   existsb (strict_eq (Joi.coerce ty v)) vs = false /\
   ((on = true /\ m = Joi.only_message (Joi.label k) vs) \/
    Joi.base_error is_iso_date ty (Joi.label k) (Joi.coerce ty v) = Some m \/
    (Joi.base_error is_iso_date ty (Joi.label k) (Joi.coerce ty v) = None /\
     ((exists r, In r rs /\ Joi.rule_ok r (Joi.coerce ty v) = false /\
                 m = Joi.rule_message r (Joi.label k) (Joi.coerce ty v))
      \/ In m it)))).
Proof.
  destruct (is_undefined (Joi.coerce ty v)) eqn:Hu.
  - apply is_undefined_true in Hu. destruct rq; cbn; split.
    + intros [<-|[]]. left. done.
    + intros [(_ & _ & ->)|(Hne & _)]; [by left | done].
    + done.
    + intros [(Hrq & _)|(Hne & _)]; done.
  - apply is_undefined_false in Hu.
    destruct (existsb (strict_eq _) vs) eqn:Hvs.
    + split; [done|]. intros [(_ & Hc & _)|(_ & Hf & _)]; congruence.
    + rewrite in_app_iff. split.
      * intros [Hon|Hb]; right; split; [done| |done|]; split; try done.
        -- destruct on; [|done]. destruct Hon as [<-|[]]. by left.
        -- destruct (Joi.base_error _ _ _ _) as [e|].
           ++ destruct Hb as [<-|[]]. right. by left.
           ++ right. right. split; [done|].
              apply in_app_iff in Hb as [Hr|Hi]; [left | by right].
              by apply in_rule_errors.
      * intros [(_ & Hc & _)|(_ & _ & [(-> & ->)|[Hb|(Hb & Hr)]])]; [done|..].
        -- left. by left.
        -- right. rewrite Hb. by left.
        -- right. rewrite Hb. apply in_app_iff.
           destruct Hr as [Hr|Hi]; [left | by right]. by apply in_rule_errors.
Qed.

(** The messages Joi collects for a field are exactly its violations. *)
Lemma errors_violation s : forall k v m,
  In m (Joi.errors is_iso_date s k v) <-> Joi.violation is_iso_date s k v m.
Proof.
  induction s as [ty rq vs on rs | ty rq vs on rs i IH] using schema_induction;
    intros k v m; cbn [Joi.errors].
  - rewrite (errors_own ty rq vs on rs [] k v m). split.
    + intros [(-> & Hu & ->)|(Hu & Hvs & [(-> & ->)|[Hb|(Hb & [(r & Hr & Hok & ->)|[]])]])].
      * by constructor.
      * by apply Joi.not_listed.
      * by apply Joi.wrong_type.
      * by apply Joi.broken_rule.
    + inversion 1; subst.
      * left. done.
      * right. split_and!; try done. by left.
      * right. split_and!; try done. right. by left.
      * right. split_and!; try done. right. right. split; [done|]. left. eauto.
  - set (from_items :=
           match Joi.coerce ty v with
           | VArr l =>
               concat (imap (fun n x =>
                               if is_undefined x
                               then [Joi.label (Joi.item_label k n)
                                     +:+ " must not be a sparse array item"]
                               else Joi.errors is_iso_date i (Joi.item_label k n) x) l)
           | _ => []
           end).
    rewrite (errors_own ty rq vs on rs from_items k v m). split.
    + intros [(-> & Hu & ->)|(Hu & Hvs & [(-> & ->)|[Hb|(Hb & [(r & Hr & Hok & ->)|Hi])]])].
      * by constructor.
      * by apply Joi.not_listed.
      * by apply Joi.wrong_type.
      * by apply Joi.broken_rule.
      * unfold from_items in Hi. destruct (Joi.coerce ty v) as [| | | | | | |l|] eqn:Hc;
          try done.
        apply in_concat_imap in Hi as (n & x & Hn & Hm).
        destruct (is_undefined x) eqn:Hx.
        -- apply is_undefined_true in Hx as ->. destruct Hm as [<-|[]].
           eapply Joi.sparse_item; rewrite ?Hc; done.
        -- apply is_undefined_false in Hx. apply IH in Hm.
           eapply Joi.broken_item; rewrite ?Hc; done.
    + inversion 1; subst.
      * left. done.
      * right. split_and!; try done. by left.
      * right. split_and!; try done. right. by left.
      * right. split_and!; try done. right. right. split; [done|]. left. eauto.
      * right. split_and!; try congruence. right. right. split; [done|]. right.
        unfold from_items. match goal with H : Joi.coerce _ _ = VArr _ |- _ => rewrite H end.
        apply in_concat_imap. eexists _, _. split; [eassumption|]. by left.
      * right. split_and!; try congruence. right. right. split; [done|]. right.
        unfold from_items. match goal with H : Joi.coerce _ _ = VArr _ |- _ => rewrite H end.
        apply in_concat_imap. eexists _, _. split; [eassumption|].
        match goal with H : ?x <> VUndefined |- _ =>
          apply is_undefined_false in H; rewrite H end.
        by apply IH.
Qed.

(** Every violation of a declared key is among the details, and the
    details hold nothing else. *)
Lemma validate_reports keys this m :
  In m (Joi.validate is_iso_date keys false this) <-> Joi.violated is_iso_date keys this m.
Proof.
  unfold Joi.validate, Joi.violated. rewrite in_concat. split.
  - intros (l & Hl & Hm). apply in_map_iff in Hl as ([k s] & <- & Hks).
    exists k, s. split; [done|]. by apply errors_violation.
  - intros (k & s & Hks & Hv). exists (Joi.errors is_iso_date s k (default VUndefined (this !! k))).
    split; [|by apply errors_violation].
    apply in_map_iff. by exists (k, s).
Qed.

End Reports.

(** C6.  On an instance (whose [constructor] is the inherited one) the
    details that [validate()] joins into its message are exactly the
    field-level violations, all of them; it throws as soon as there is
    one.  [Correlation.validate] throws that same error then, whatever the
    business rules would say: a business-rule error is thrown only when
    the schema reports nothing. *)
Theorem validate_reports_every_violation (is_iso_date : string -> bool) (this : bag) :
  this !! "constructor" = None ->
  (forall keys,
      let details := Joi.validate is_iso_date keys false this in
      (forall m, Joi.violated is_iso_date keys this m <-> In m details) /\
      (details <> [] ->
       validate_base is_iso_date keys this
       = Throw ("Validation failed: " +:+ String.concat ", " details)) /\
      (details = [] -> validate_base is_iso_date keys this = Ok tt))
  /\
  (let details := Joi.validate is_iso_date Correlation.schema false this in
   (details <> [] ->
    Correlation.validate is_iso_date this
    = Throw ("Validation failed: " +:+ String.concat ", " details)) /\
   (forall msg,
       In msg ["Source and target datasets cannot be the same";
               "Confidence must be between 0 and 1";
               "Validity score must be between 0 and 1"] ->
       Correlation.validate is_iso_date this = Throw msg ->
       details = [])).
Proof.
  intros Hctor.
  assert (Hbase : forall keys,
             validate_base is_iso_date keys this =
               match Joi.validate is_iso_date keys false this with
               | [] => Ok tt
               | details => Throw ("Validation failed: " +:+ String.concat ", " details)
               end).
  { intros keys. unfold validate_base, static_schema. by rewrite Hctor. }
  split.
  - intros keys details. split_and!.
    + intros m. symmetry. apply validate_reports.
    + intros Hne. rewrite Hbase. fold details. by destruct details.
    + intros Hnil. rewrite Hbase. fold details. by rewrite Hnil.
  - intros details. split.
    + intros Hne. unfold Correlation.validate. rewrite Hbase. fold details.
      by destruct details.
    + intros msg Hmsg Hthrow. unfold Correlation.validate in Hthrow.
      rewrite Hbase in Hthrow. fold details in Hthrow.
      destruct details as [|d details]; [done|]. exfalso.
      cbn in Hthrow. injection Hthrow as <-.
      cbn in Hmsg. destruct Hmsg as [H|[H|[H|[]]]]; discriminate H.
Qed.

(** The witness of C6: a correlation from a dataset to itself with
    confidence 2 and ids that are no GUIDs.  Both GUID violations and the
    range violation are reported together; the business rule is not. *)
Lemma validate_reports_every_violation_witness :
  let this := Correlation.constructor Sample.env0 Sample.bad_payload in
  let details := Joi.validate Sample.iso_utc Correlation.schema false this in
  Correlation.validate Sample.iso_utc this
  = Throw ("Validation failed: " +:+ String.concat ", " details)
  /\ details
     = [Joi.label "sourceDatasetId" +:+ " must be a valid GUID";
        Joi.label "targetDatasetId" +:+ " must be a valid GUID";
        Joi.label "confidence" +:+ " must be less than or equal to 1"]
  /\ Joi.violated Sample.iso_utc Correlation.schema this
       (Joi.label "confidence" +:+ " must be less than or equal to 1").
Proof.
  intros this details.
  destruct (validate_reports_every_violation Sample.iso_utc this
              ltac:(vm_compute; reflexivity)) as [Hany [Hthrow _]].
  split_and!.
  - apply Hthrow. vm_compute. discriminate.
  - vm_compute. reflexivity.
  - apply (Hany Correlation.schema). vm_compute. auto.
Defined.

(** ** Reading constructed instances *)

Lemma or_idem (x d : value) : or (or x d) d = or x d.
Proof. unfold or. destruct (truthy x) eqn:Hx; [by rewrite Hx|]. by destruct (truthy d). Qed.


Lemma get_insert_eq (o : bag) k v : get (<[k := v]> o) k = v.
Proof. unfold get. by rewrite lookup_insert_eq. Qed.

Lemma get_insert_ne (o : bag) k k' v : k <> k' -> get (<[k := v]> o) k' = get o k'.
Proof. intros H. unfold get. by rewrite lookup_insert_ne. Qed.

(** [Object.assign(this, data)] read back *)
Lemma lookup_assign (data this : bag) k :
  (data ∪ this) !! k = match data !! k with Some v => Some v | None => this !! k end.
Proof.
  destruct (data !! k) as [v|] eqn:Hd.
  - by apply lookup_union_Some_l.
  - by apply lookup_union_r.
Qed.

Lemma jget_jset (j : json) k k' v :
  jget (jset j k v) k' = if String.eqb k k' then v else jget j k'.
Proof.
  induction j as [|[k0 v0] j IH]; cbn.
  - reflexivity.
  - destruct (String.eqb k0 k) eqn:Hk0; cbn.
    + apply String.eqb_eq in Hk0 as ->. by destruct (String.eqb k k').
    + destruct (String.eqb k0 k') eqn:Hk0'; [|exact IH].
      apply String.eqb_eq in Hk0' as ->.
      by rewrite String.eqb_sym, Hk0.
Qed.

Lemma keys_jset (j : json) k v :
  keys (jset j k v) = if bool_decide (k ∈ keys j) then keys j else (keys j ++ [k])%list.
Proof.
  unfold keys. induction j as [|[k0 v0] j IH]; cbn; [reflexivity|].
  destruct (String.eqb k0 k) eqn:Hk0; cbn.
  - apply String.eqb_eq in Hk0 as ->. rewrite bool_decide_eq_true_2; [done|by left].
  - apply String.eqb_neq in Hk0. rewrite IH.
    destruct (bool_decide (k ∈ map fst j)) eqn:Hin.
    + apply bool_decide_eq_true in Hin. rewrite bool_decide_eq_true_2; [done|by right].
    + apply bool_decide_eq_false in Hin. rewrite bool_decide_eq_false_2; [done|].
      intros [?|?]%elem_of_cons; done.
Qed.

Lemma jget_absent (j : json) k : k ∉ keys j -> jget j k = VUndefined.
Proof.
  induction j as [|[k0 v0] j IH]; [done|]. cbn. intros Hk.
  apply not_elem_of_cons in Hk as [Hne Hk].
  destruct (String.eqb k0 k) eqn:Hk0; [apply String.eqb_eq in Hk0; done|]. by apply IH.
Qed.

(** Dates become ISO strings, key by key. *)
Lemma jget_dates (j : json) k :
  jget (map (fun '(k, v) => match v with
                            | VDate _ iso => (k, VStr iso)
                            | _ => (k, v)
                            end) j) k
  = BaseRepository.bound (jget j k).
Proof.
  induction j as [|[k0 v0] j IH]; cbn; [reflexivity|].
  destruct v0; cbn; destruct (String.eqb k0 k); done.
Qed.

Lemma keys_dates (j : json) :
  keys (map (fun '(k, v) => match v with
                            | VDate _ iso => (k, VStr iso)
                            | _ => (k, v)
                            end) j) = keys j.
Proof.
  unfold keys. rewrite map_map. apply map_ext. intros [k v]. by destruct v.
Qed.



(** [super.toJSON()] read back: the defined schema keys, in schema order. *)
Lemma toJSON_base_fold (this : bag) (ks : list string) : forall j,
  NoDup ks -> (forall k, k ∈ ks -> k ∉ keys j) ->
  let j' := fold_left
              (fun j key => if is_undefined (get this key) then j
                            else jset j key (get this key)) ks j in
  keys j' = (keys j ++ List.filter (fun k => negb (is_undefined (get this k))) ks)%list /\
  (forall k, jget j' k = if bool_decide (k ∈ ks) then get this k else jget j k).
Proof.
  induction ks as [|k0 ks IH]; intros j Hnd Hfresh; cbn [fold_left List.filter].
  - split; [by rewrite app_nil_r|]. intros k.
    rewrite bool_decide_eq_false_2; [done|]. apply not_elem_of_nil.
  - apply NoDup_cons in Hnd as [Hk0 Hnd].
    assert (k0 ∉ keys j) as Hnot by (apply Hfresh; by left).
    destruct (is_undefined (get this k0)) eqn:Hu; cbn [negb].
    + destruct (IH j Hnd) as [Hkeys Hget]; [intros k Hk; apply Hfresh; by right|].
      split; [exact Hkeys|]. intros k. rewrite Hget.
      destruct (decide (k0 = k)) as [<-|Hne].
      * rewrite (bool_decide_eq_false_2 (k0 ∈ ks)) by done.
        rewrite (bool_decide_eq_true_2 (k0 ∈ k0 :: ks)) by (by left).
        apply is_undefined_true in Hu. rewrite Hu. by apply jget_absent.
      * apply (f_equal (fun b : bool => if b then _ else _)).
        apply bool_decide_ext. rewrite elem_of_cons. naive_solver.
    + destruct (IH (jset j k0 (get this k0)) Hnd) as [Hkeys Hget].
      { intros k Hk. rewrite keys_jset. rewrite bool_decide_eq_false_2 by done.
        rewrite elem_of_app, list_elem_of_singleton. intros [Hin| ->]; [|done].
        revert Hin. apply Hfresh. by right. }
      split.
      * rewrite Hkeys, keys_jset. rewrite bool_decide_eq_false_2 by done.
        by rewrite <- app_assoc.
      * intros k. rewrite Hget, jget_jset.
        destruct (String.eqb k0 k) eqn:Hk.
        -- apply String.eqb_eq in Hk as <-.
           rewrite (bool_decide_eq_true_2 (k0 ∈ k0 :: ks)) by (by left).
           by destruct (bool_decide (k0 ∈ ks)).
        -- apply String.eqb_neq in Hk. apply (f_equal (fun b : bool => if b then _ else _)).
           apply bool_decide_ext. rewrite elem_of_cons. naive_solver.
Qed.

Lemma toJSON_base_ok (keys0 : list (string * Joi.schema)) (this : bag) :
  this !! "constructor" = None -> NoDup (schema_keys keys0) ->
  exists j,
    toJSON_base keys0 this = Ok j /\
    keys j = List.filter (fun k => negb (is_undefined (get this k))) (schema_keys keys0) /\
    (forall k, jget j k = if bool_decide (k ∈ schema_keys keys0) then get this k
                          else VUndefined).
Proof.
  intros Hctor Hnd. unfold toJSON_base, static_schema. rewrite Hctor.
  eexists. split; [reflexivity|].
  destruct (toJSON_base_fold this (schema_keys keys0) [] Hnd) as [Hk Hg].
  { intros k _. apply not_elem_of_nil. }
  split; [exact Hk | exact Hg].
Qed.

Ltac read_fields :=
  repeat first
    [ rewrite get_insert_eq
    | rewrite get_insert_ne by discriminate
    | rewrite lookup_insert_eq
    | rewrite lookup_insert_ne by discriminate ].

Lemma constructor_lookup (env : Env) (data : bag) k :
  BaseModel.constructor env data !! k
  = match data !! k with
    | Some v => Some v
    | None =>
        if String.eqb k "id" then Some (VStr (uuidv4 env))
        else if String.eqb k "createdAt" then Some (VStr (now env))
        else if String.eqb k "updatedAt" then Some (VStr (now env))
        else None
    end.
Proof.
  unfold BaseModel.constructor. rewrite lookup_assign.
  destruct (data !! k) as [v|] eqn:Hk; [done|].
  destruct (String.eqb_spec k "id") as [->|Hid].
  { read_fields. unfold get. rewrite Hk. reflexivity. }
  destruct (String.eqb_spec k "createdAt") as [->|Hc].
  { read_fields. unfold get. rewrite Hk. reflexivity. }
  destruct (String.eqb_spec k "updatedAt") as [->|Hu].
  { read_fields. unfold get. rewrite Hk. reflexivity. }
  rewrite !lookup_insert_ne by done. apply lookup_empty.
Qed.

Lemma Correlation_field env data k d :
  In (k, d) Correlation.defaults ->
  get (Correlation.constructor env data) k = or (get data k) d.
Proof.
  intros Hin. cbn in Hin. unfold Correlation.constructor.
  repeat (destruct Hin as [[= <- <-]|Hin]; [by read_fields|]). done.
Qed.

Lemma Correlation_other env data k :
  ~ In k (keys Correlation.defaults) ->
  Correlation.constructor env data !! k = BaseModel.constructor env data !! k.
Proof.
  intros Hk. cbn in Hk. unfold Correlation.constructor.
  rewrite !lookup_insert_ne; [done|intros <-; tauto..].
Qed.

Lemma Dataset_field env data k d :
  In (k, d) (Dataset.defaults env) ->
  get (Dataset.constructor env data) k = or (get data k) d.
Proof.
  intros Hin. cbn in Hin. unfold Dataset.constructor.
  repeat (destruct Hin as [[= <- <-]|Hin]; [by read_fields|]). done.
Qed.


Lemma or_defined (x d : value) : is_undefined d = false -> is_undefined (or x d) = false.
Proof. intros Hd. unfold or. destruct (truthy x) eqn:Hx; [by destruct x | done]. Qed.

Lemma schema_keys_nodup :
  NoDup (schema_keys Correlation.schema) /\ NoDup (schema_keys Dataset.schema).
Proof. split; apply NoDup_ListNoDup; cbn; repeat constructor; cbn; intuition discriminate. Qed.

(** No schema key of the two models names a method: [toJSON] reads own
    properties only. *)
Lemma schema_keys_name_no_method :
  (forall k, In k (schema_keys Correlation.schema) -> ~ In k Correlation.methods) /\
  (forall k, In k (schema_keys Dataset.schema) -> ~ In k Dataset.methods).
Proof.
  split; intros k Hk; cbn in Hk;
    repeat (destruct Hk as [<-|Hk]; [cbn; intuition discriminate|]); done.
Qed.

Section ToDatabase.
Variable is_iso_date : string -> bool.

Lemma defined_key_in (this : bag) (ks : list string) k :
  In k ks -> is_undefined (get this k) = false ->
  bool_decide (k ∈ List.filter (fun k => negb (is_undefined (get this k))) ks) = true.
Proof.
  intros Hin Hd. apply bool_decide_eq_true, list_elem_of_In, filter_In.
  by rewrite Hd.
Qed.

Lemma undeclared_key_out (this : bag) (ks extra : list string) k :
  ~ In k ks -> ~ In k extra ->
  bool_decide
    (k ∈ (List.filter (fun k => negb (is_undefined (get this k))) ks ++ extra)%list)
  = false.
Proof.
  intros Hk Hx. apply bool_decide_eq_false. rewrite elem_of_app, !list_elem_of_In, filter_In.
  tauto.
Qed.

Lemma undeclared_key_out0 (this : bag) (ks : list string) k :
  ~ In k ks ->
  bool_decide (k ∈ List.filter (fun k => negb (is_undefined (get this k))) ks) = false.
Proof.
  intros Hk. apply bool_decide_eq_false. rewrite list_elem_of_In, filter_In. tauto.
Qed.

(** What [toDatabase()] makes of a constructed correlation. *)
Lemma Correlation_toDatabase env data row :
  let e := Correlation.constructor env data in
  toDatabase (Correlation.model is_iso_date) e = Ok row ->
  e !! "constructor" = None /\
  keys row
  = (List.filter (fun k => negb (is_undefined (get e k))) (schema_keys Correlation.schema)
     ++ ["isValid"; "isSignificant"])%list /\
  (forall k, In k (schema_keys Correlation.schema) ->
             jget row k
             = BaseRepository.bound (coerce_with Correlation.coercions k (get e k))) /\
  jget row "isValid" = Correlation.isValid e /\
  jget row "isSignificant" = Correlation.isSignificant e.
Proof.
  intros e. unfold toDatabase, send. cbn [toJSON Correlation.model].
  destruct (e !! "toJSON"); [done|]. unfold Correlation.toJSON.
  destruct (e !! "constructor") eqn:Hctor.
  { unfold toJSON_base, static_schema. by rewrite Hctor. }
  destruct (toJSON_base_ok Correlation.schema e Hctor (proj1 schema_keys_nodup))
    as (jb & -> & Hkeys & Hget).
  cbn [mbind result_bind]. unfold send.
  destruct (e !! "isValid"); [done|]. destruct (e !! "isSignificant"); [done|].
  cbn [mbind result_bind mret result_ret]. intros [= <-].
  assert (Hdef : forall k d, In (k, d) Correlation.defaults -> is_undefined d = false ->
                             is_undefined (get e k) = false).
  { intros k d Hin Hd. unfold e. rewrite (Correlation_field _ _ _ _ Hin).
    by apply or_defined. }
  split; [done|]. split; [|split; [|split]].
  - rewrite keys_dates, !keys_jset, Hkeys.
    rewrite (defined_key_in e _ "confidence");
      [|cbn; tauto|apply (Hdef _ (num 0)); [cbn; tauto|done]].
    rewrite (defined_key_in e _ "validityScore");
      [|cbn; tauto|apply (Hdef _ (num 0)); [cbn; tauto|done]].
    rewrite (defined_key_in e _ "version");
      [|cbn; tauto|apply (Hdef _ (num 1)); [cbn; tauto|done]].
    rewrite (undeclared_key_out0 e _ "isValid"); [|cbn; intuition discriminate].
    rewrite (undeclared_key_out e _ ["isValid"] "isSignificant");
      [|cbn; intuition discriminate..].
    by rewrite <- app_assoc.
  - intros k Hk. rewrite jget_dates, !jget_jset, !Hget.
    cbn in Hk. cbn [coerce_with Correlation.coercions].
    repeat (destruct Hk as [<-|Hk]; [reflexivity|]). done.
  - rewrite jget_dates, !jget_jset. cbn. by destruct (Correlation.isValid e).
  - rewrite jget_dates, !jget_jset. cbn. by destruct (Correlation.isSignificant e).
Qed.

(** What [toDatabase()] makes of a constructed dataset. *)
Lemma Dataset_toDatabase env data row :
  let e := Dataset.constructor env data in
  toDatabase (Dataset.model is_iso_date) e = Ok row ->
  e !! "constructor" = None /\
  keys row
  = List.filter (fun k => negb (is_undefined (get e k))) (schema_keys Dataset.schema) /\
  (forall k, In k (schema_keys Dataset.schema) ->
             jget row k
             = BaseRepository.bound (coerce_with Dataset.coercions k (get e k))).
Proof.
  intros e. unfold toDatabase, send. cbn [toJSON Dataset.model].
  destruct (e !! "toJSON"); [done|]. unfold Dataset.toJSON.
  destruct (e !! "constructor") eqn:Hctor.
  { unfold toJSON_base, static_schema. by rewrite Hctor. }
  destruct (toJSON_base_ok Dataset.schema e Hctor (proj2 schema_keys_nodup))
    as (jb & -> & Hkeys & Hget).
  cbn [mbind result_bind mret result_ret]. intros [= <-].
  assert (Hdef : forall k d, In (k, d) (Dataset.defaults env) -> is_undefined d = false ->
                             is_undefined (get e k) = false).
  { intros k d Hin Hd. unfold e. rewrite (Dataset_field _ _ _ _ Hin).
    by apply or_defined. }
  split; [done|]. split.
  - rewrite keys_dates, !keys_jset, Hkeys.
    rewrite (defined_key_in e _ "recordCount");
      [|cbn; tauto|apply (Hdef _ (num 0)); [cbn; tauto|done]].
    rewrite (defined_key_in e _ "size");
      [|cbn; tauto|apply (Hdef _ (num 0)); [cbn; tauto|done]].
    reflexivity.
  - intros k Hk. rewrite jget_dates, !jget_jset, !Hget.
    cbn in Hk. cbn [coerce_with Dataset.coercions].
    repeat (destruct Hk as [<-|Hk]; [reflexivity|]). done.
Qed.

End ToDatabase.

(** ** The columns [create] writes (C2) *)

Lemma filter_all {X} (f : X -> bool) (l : list X) :
  (forall x, In x l -> f x = true) -> List.filter f l = l.
Proof.
  induction l as [|x l IH]; intros H; cbn; [done|].
  rewrite (H x) by (by left). f_equal. apply IH. intros y Hy. apply H. by right.
Qed.

Lemma filter_none {X} (f : X -> bool) (l : list X) :
  (forall x, In x l -> f x = false) -> List.filter f l = [].
Proof.
  induction l as [|x l IH]; intros H; cbn; [done|].
  rewrite (H x) by (by left). apply IH. intros y Hy. apply H. by right.
Qed.

Lemma filter_twice {X} (f g : X -> bool) (l : list X) :
  List.filter g (List.filter f l) = List.filter (fun x => g x && f x) l.
Proof.
  induction l as [|x l IH]; cbn; [done|].
  destruct (f x); cbn; destruct (g x); cbn; by rewrite IH.
Qed.

(** The columns of an object whose keys are the defined schema keys
    followed by keys that the schema does not declare. *)
Lemma schema_columns (this : bag) (ks extra : list string) (row : json) :
  keys row = (List.filter (fun k => negb (is_undefined (get this k))) ks ++ extra)%list ->
  (forall k, In k extra -> ~ In k ks) ->
  List.filter (fun k => bool_decide (k ∈ ks)) (BaseRepository.insert_columns row)
  = List.filter (fun k => negb (String.eqb k "id") && negb (is_undefined (get this k))) ks.
Proof.
  intros Hkeys Hextra. unfold BaseRepository.insert_columns.
  rewrite Hkeys, !List.filter_app, !filter_twice.
  rewrite (filter_none _ extra), app_nil_r.
  - apply List.filter_ext_in. intros k Hk.
    rewrite (bool_decide_eq_true_2 (k ∈ ks)) by (by apply list_elem_of_In).
    by rewrite andb_true_l.
  - intros k Hk. rewrite (bool_decide_eq_false_2 (k ∈ ks)); [done|].
    rewrite list_elem_of_In. by apply Hextra.
Qed.

Section CreateIssues.
Import BaseRepository.
Variable W : World.
Variable C : class.

(** Past validation and serialisation, [create] issues one INSERT. *)
Lemma create_issues data s row :
  let instance := new C (reading W (tick s)) data in
  call_validate C instance = Ok tt ->
  call_toDatabase C instance = Ok row ->
  issued (create W C data s).2 = (issued s ++ [create_stmt C instance row])%list /\
  (create W C data s).1
  = match respond W (issued s) (create_stmt C instance row) with
    | Rows [] => Throw "Cannot read properties of undefined (reading 'id')"
    | Rows (first :: _) => Ok (Some (new C (reading W (S (tick s))) first))
    | Failure msg => Throw msg
    end.
Proof.
  intros instance Hvalid Hrow. unfold create.
  erewrite bind_ok by apply construct_run. fold instance.
  erewrite bind_ok by (unfold lift; rewrite Hvalid; reflexivity).
  erewrite bind_ok by (unfold lift; rewrite Hrow; reflexivity).
  pose proof (query_run W (text (create_stmt C instance row))
                (params (create_stmt C instance row)) (advance s 1)) as Hq.
  cbn [issued advance] in Hq.
  replace {| text := text (create_stmt C instance row);
             params := params (create_stmt C instance row) |}
    with (create_stmt C instance row) in Hq by reflexivity.
  destruct (respond W (issued s) (create_stmt C instance row)) as [[|first rows]|msg].
  - erewrite bind_ok by apply Hq. done.
  - erewrite bind_ok by apply Hq. unfold fromDatabase.
    erewrite bind_ok by apply construct_run.
    cbn. by replace (tick s + 1) with (S (tick s)) by lia.
  - erewrite bind_throw by apply Hq. done.
Qed.

End CreateIssues.

(** A schema key can also go missing: the constructor lets the data
    overwrite the default it has just set, so a dataset whose
    [createdAt] is given as undefined passes validation and [create]
    issues an INSERT without the column [createdAt]. *)
Lemma create_leaves_out_undefined_column :
  let data : bag := <["name" := VStr "n"]> (<["createdAt" := VUndefined]> ∅) in
  let columns :=
    ["name"; "description"; "schema"; "type"; "source"; "format"; "size"; "recordCount";
     "metadata"; "status"; "lastAccessed"; "tags"; "visibility"; "ownerId"; "updatedAt"] in
  map text (BaseRepository.issued
              (BaseRepository.create (Sample.world []) (Dataset.model Sample.iso_utc)
                 data Sample.start).2)
  = [BaseRepository.create_text (Dataset.model Sample.iso_utc) columns]
  /\ columns <> List.filter (fun key => negb (String.eqb key "id"))
                            (schema_keys Dataset.schema).
Proof. split; [vm_compute; reflexivity | vm_compute; discriminate]. Qed.

(** C2.  The columns [create] writes for a correlation are not the
    declared schema keys without [id]: [toDatabase()] reaches the
    [toJSON] of [Correlation], so the INSERT for the correlation of the
    scenario names the computed [isValid] and [isSignificant] after the
    schema keys, and binds the methods of those names as their values. *)
Lemma create_writes_computed_columns :
  let M := Correlation.model Sample.iso_utc in
  let st := BaseRepository.issued
              (BaseRepository.create (Sample.world []) M
                 (Sample.payload Sample.id2 Sample.id3) Sample.start).2 in
  map text st
  = [BaseRepository.create_text M
       (List.filter (fun key => negb (String.eqb key "id")) (schema_keys Correlation.schema)
        ++ ["isValid"; "isSignificant"])]
  /\ map (fun s => drop 16 (params s)) st = [[PMethod "isValid"; PMethod "isSignificant"]].
Proof. split; vm_compute; reflexivity. Qed.

(** What the INSERT holds of the schema.  Past validation, [create]
    issues one INSERT; among its columns the declared schema keys are
    exactly those, other than [id], whose value on the instance is
    defined, in schema order.  For [Dataset], whose [toJSON] adds no
    field, these are all its columns. *)
Theorem create_writes_defined_schema_keys (is_iso_date : string -> bool)
        (W : BaseRepository.World) (s : BaseRepository.State) (data : bag) :
  (forall row,
      let M := Correlation.model is_iso_date in
      let instance := new M (BaseRepository.reading W (BaseRepository.tick s)) data in
      call_validate M instance = Ok tt ->
      call_toDatabase M instance = Ok row ->
      BaseRepository.issued (BaseRepository.create W M data s).2
      = (BaseRepository.issued s ++ [BaseRepository.create_stmt M instance row])%list /\
      List.filter (fun k => bool_decide (k ∈ schema_keys (schema M)))
                  (BaseRepository.insert_columns row)
      = List.filter (fun k => negb (String.eqb k "id") && negb (is_undefined (get instance k)))
                    (schema_keys (schema M)))
  /\
  (forall row,
      let M := Dataset.model is_iso_date in
      let instance := new M (BaseRepository.reading W (BaseRepository.tick s)) data in
      call_validate M instance = Ok tt ->
      call_toDatabase M instance = Ok row ->
      BaseRepository.issued (BaseRepository.create W M data s).2
      = (BaseRepository.issued s ++ [BaseRepository.create_stmt M instance row])%list /\
      BaseRepository.insert_columns row
      = List.filter (fun k => negb (String.eqb k "id") && negb (is_undefined (get instance k)))
                    (schema_keys (schema M))).
Proof.
  split; intros row M instance Hvalid Hrow.
  - split; [by apply create_issues|].
    unfold call_toDatabase, send in Hrow. destruct (instance !! "toDatabase"); [done|].
    apply Correlation_toDatabase in Hrow as (_ & Hkeys & _).
    apply (schema_columns instance _ ["isValid"; "isSignificant"] row Hkeys).
    intros k Hk. cbn in Hk. cbn. intuition (subst; discriminate).
  - split; [by apply create_issues|].
    unfold call_toDatabase, send in Hrow. destruct (instance !! "toDatabase"); [done|].
    apply Dataset_toDatabase in Hrow as (_ & Hkeys & _).
    unfold BaseRepository.insert_columns. rewrite Hkeys, filter_twice. reflexivity.
Qed.

(** An instance: a dataset named n and the scenario's correlation. *)
Lemma create_writes_defined_schema_keys_witness :
  (exists row,
      call_toDatabase (Correlation.model Sample.iso_utc)
        (Correlation.constructor Sample.env0 (Sample.payload Sample.id2 Sample.id3)) = Ok row /\
      List.filter (fun k => bool_decide (k ∈ schema_keys Correlation.schema))
                  (BaseRepository.insert_columns row)
      = ["sourceDatasetId"; "targetDatasetId"; "type"; "parameters"; "confidence";
         "validityScore"; "description"; "status"; "parentCorrelationId"; "version";
         "tags"; "metadata"; "discoveryMethod"; "lastValidated"; "createdAt"; "updatedAt"])
  /\
  (exists row,
      call_toDatabase (Dataset.model Sample.iso_utc)
        (Dataset.constructor Sample.env0 (<["name" := VStr "n"]> ∅)) = Ok row /\
      BaseRepository.insert_columns row
      = ["name"; "description"; "schema"; "type"; "source"; "format"; "size"; "recordCount";
         "metadata"; "status"; "lastAccessed"; "tags"; "visibility"; "ownerId";
         "createdAt"; "updatedAt"]).
Proof.
  split.
  - destruct (create_writes_defined_schema_keys Sample.iso_utc (Sample.world [])
                Sample.start (Sample.payload Sample.id2 Sample.id3)) as [Hcorrelation _].
    eexists. split; [vm_compute; reflexivity|].
    etransitivity; [apply Hcorrelation; vm_compute; reflexivity|].
    vm_compute. reflexivity.
  - destruct (create_writes_defined_schema_keys Sample.iso_utc (Sample.world [])
                Sample.start (<["name" := VStr "n"]> ∅)) as [_ Hdataset].
    eexists. split; [vm_compute; reflexivity|].
    etransitivity; [apply Hdataset; vm_compute; reflexivity|].
    vm_compute. reflexivity.
Defined.

(** ** Round trip through [toDatabase] and [fromDatabase] (C8) *)




Lemma Correlation_field_table env data k :
  In k (keys Correlation.defaults) ->
  get (Correlation.constructor env data) k = or (get data k) (jget Correlation.defaults k).
Proof.
  intros Hk. cbn in Hk.
  repeat (destruct Hk as [<-|Hk];
          [apply Correlation_field; cbn; tauto|]). done.
Qed.

Lemma Dataset_field_table env data k :
  In k (keys (Dataset.defaults env)) ->
  get (Dataset.constructor env data) k = or (get data k) (jget (Dataset.defaults env) k).
Proof.
  intros Hk. cbn in Hk.
  repeat (destruct Hk as [<-|Hk];
          [apply Dataset_field; cbn; tauto|]). done.
Qed.


Section RoundTrip.
Variable is_iso_date : string -> bool.
Variables env env' : Env.
Variable data : bag.




End RoundTrip.


(** Where it fails by a slip: [Object.assign] puts an empty [data.id] back
    over the generated id. *)
Lemma constructor_keeps_empty_id :
  get (new (Correlation.model Sample.iso_utc) Sample.env0 (<["id" := VStr ""]> ∅)) "id"
  = VStr "".
Proof. vm_compute. reflexivity. Qed.



(** ** The end-to-end scenario (C5) *)

Section Scenario.
Variable is_iso_date : string -> bool.

Lemma guid_not_empty g : Joi.is_guid g = true -> g <> "".
Proof. by intros H ->. Qed.

Lemma guid_field_ok k g rq :
  Joi.is_guid g = true ->
  Joi.errors is_iso_date (Joi.Schema Joi.TString rq [] false [Joi.Guid] None) k (VStr g) = [].
Proof.
  intros Hg. cbn. destruct g as [|c g]; [done|]. cbn.
  unfold Joi.rule_errors. cbn [List.filter Joi.rule_ok]. by rewrite Hg.
Qed.

Lemma date_field_ok k t rq vs :
  is_iso_date t = true ->
  Joi.errors is_iso_date (Joi.Schema Joi.TDateIso rq vs false [] None) k (VStr t) = [].
Proof.
  intros Ht. cbn. destruct (existsb _ vs); [done|]. by rewrite Ht.
Qed.

Lemma validate_nil keys this :
  (forall k s, In (k, s) keys -> Joi.errors is_iso_date s k (get this k) = []) ->
  Joi.validate is_iso_date keys false this = [].
Proof.
  intros H. unfold Joi.validate.
  induction keys as [|[k s] keys IH]; [done|]. cbn [map concat].
  rewrite IH by (intros; apply H; by right).
  change (default VUndefined (this !! k)) with (get this k).
  rewrite (H k s) by (by left). done.
Qed.

(** An instance with the fields of the scenario is valid. *)
Lemma scenario_valid (this : bag) g a b t t' :
  this !! "constructor" = None ->
  (forall k v, In (k, v) (Sample.scenario g a b t t') -> get this k = v) ->
  Joi.is_guid g = true -> Joi.is_guid a = true -> Joi.is_guid b = true -> a <> b ->
  is_iso_date t = true -> is_iso_date t' = true ->
  Correlation.validate is_iso_date this = Ok tt.
Proof.
  intros Hctor Hfields Hg Ha Hb Hab Ht Ht'.
  unfold Correlation.validate, validate_base, static_schema. rewrite Hctor.
  rewrite validate_nil.
  - cbn [mbind result_bind].
    rewrite (Hfields "sourceDatasetId" (VStr a)), (Hfields "targetDatasetId" (VStr b)),
      (Hfields "confidence" (num 0)), (Hfields "validityScore" (num 0))
      by (cbn; tauto).
    cbn [strict_eq]. apply String.eqb_neq in Hab as ->. reflexivity.
  - intros k s Hin. cbn in Hin.
    repeat (destruct Hin as [[= <- <-]|Hin];
            [ erewrite Hfields by (cbn; eauto 20);
              first [ by apply guid_field_ok
                    | by apply date_field_ok
                    | vm_compute; reflexivity ] |]).
    done.
Qed.

End Scenario.

Section ScenarioCreate.
Import BaseRepository.
Variable is_iso_date : string -> bool.
Variable W : World.
Variable s : State.
Variables a b : string.

#[local] Abbreviation M := (Correlation.model is_iso_date).
#[local] Abbreviation env := (reading W (tick s)).
#[local] Abbreviation instance := (new M env (Sample.payload a b)).

Lemma payload_lookup k :
  Sample.payload a b !! k
  = if String.eqb k "sourceDatasetId" then Some (VStr a)
    else if String.eqb k "targetDatasetId" then Some (VStr b)
    else if String.eqb k "type" then Some (VStr "one_to_one")
    else None.
Proof.
  unfold Sample.payload.
  destruct (String.eqb_spec k "sourceDatasetId") as [->|H1]; [by rewrite lookup_insert_eq|].
  rewrite lookup_insert_ne by done.
  destruct (String.eqb_spec k "targetDatasetId") as [->|H2]; [by rewrite lookup_insert_eq|].
  rewrite lookup_insert_ne by done.
  destruct (String.eqb_spec k "type") as [->|H3]; [by rewrite lookup_insert_eq|].
  rewrite lookup_insert_ne by done. apply lookup_empty.
Qed.

(** The instance [create] builds from the payload has the fields of
    the scenario. *)
Lemma instance_fields k v :
  a <> "" -> b <> "" ->
  In (k, v) (Sample.scenario (uuidv4 env) a b (now env) (now env)) ->
  get instance k = v.
Proof.
  intros Ha Hb Hin. cbn [new Correlation.model].
  apply String.eqb_neq in Ha, Hb.
  cbn in Hin. destruct Hin as [[= <- <-]|Hin].
  { unfold get. rewrite Correlation_other by (cbn; intuition discriminate).
    by rewrite constructor_lookup, payload_lookup. }
  do 14 (destruct Hin as [[= <- <-]|Hin];
         [ rewrite Correlation_field_table by (cbn; tauto);
           unfold get; rewrite payload_lookup; cbn; unfold or; cbn;
           rewrite ?Ha, ?Hb; reflexivity |]).
  destruct Hin as [[= <- <-]|Hin].
  { unfold get. rewrite Correlation_other by (cbn; intuition discriminate).
    by rewrite constructor_lookup, payload_lookup. }
  destruct Hin as [[= <- <-]|[]].
  unfold get. rewrite Correlation_other by (cbn; intuition discriminate).
  by rewrite constructor_lookup, payload_lookup.
Qed.

(** No own property of it hides a method. *)
Lemma instance_plain m :
  In m (methods M) -> instance !! m = None.
Proof.
  intros Hm. cbn [new Correlation.model]. cbn in Hm.
  repeat (destruct Hm as [<-|Hm];
          [ rewrite Correlation_other by (cbn; intuition discriminate);
            by rewrite constructor_lookup, payload_lookup |]).
  done.
Qed.

Lemma instance_valid :
  Joi.is_guid a = true -> Joi.is_guid b = true -> a <> b ->
  Joi.is_guid (uuidv4 env) = true -> is_iso_date (now env) = true ->
  call_validate M instance = Ok tt.
Proof.
  intros Ha Hb Hab Hu Ht. unfold call_validate, send.
  rewrite instance_plain by (cbn; tauto). cbn [validate Correlation.model].
  apply (scenario_valid is_iso_date instance (uuidv4 env) a b (now env) (now env));
    try assumption.
  - apply instance_plain. cbn. tauto.
  - intros k v. apply instance_fields; by apply guid_not_empty.
Qed.

Lemma instance_toDatabase :
  exists row, call_toDatabase M instance = Ok row.
Proof.
  unfold call_toDatabase, toDatabase, send.
  rewrite !instance_plain by (cbn; tauto).
  cbn [toJSON Correlation.model]. unfold Correlation.toJSON, toJSON_base, static_schema, send.
  rewrite !instance_plain by (cbn; tauto).
  cbn [mbind result_bind mret result_ret]. eauto.
Qed.

(** The entity read back from a row that echoes the instance. *)
Lemma entity_fields env' (row : bag) g k v :
  a <> "" -> b <> "" ->
  row !! "id" = Some (VStr g) ->
  (forall k, In k (schema_keys (schema M)) -> k <> "id" -> row !! k = instance !! k) ->
  In (k, v) (Sample.scenario g a b (now env) (now env)) ->
  get (new M env' row) k = v.
Proof.
  intros Ha Hb Hid Hecho Hin. cbn [new Correlation.model].
  assert (Hrow : forall k v, k <> "id" ->
                   In (k, v) (Sample.scenario (uuidv4 env) a b (now env) (now env)) ->
                   get row k = v).
  { intros k0 v0 Hne Hin0. rewrite <- (instance_fields k0 v0 Ha Hb Hin0).
    unfold get. rewrite Hecho; [done| |done].
    cbn in Hin0 |- *. clear -Hin0.
    repeat (destruct Hin0 as [[= <- <-]|Hin0]; [tauto|]). done. }
  cbn in Hin. destruct Hin as [[= <- <-]|Hin].
  { unfold get. rewrite Correlation_other by (cbn; intuition discriminate).
    by rewrite constructor_lookup, Hid. }
  assert (Hsame : In (k, v) (Sample.scenario (uuidv4 env) a b (now env) (now env)))
    by (cbn; tauto).
  assert (Hne : k <> "id").
  { clear -Hin. repeat (destruct Hin as [[= <- <-]|Hin]; [discriminate|]). done. }
  pose proof (Hrow k v Hne Hsame) as Hk.
  destruct (decide (In k (keys Correlation.defaults))) as [Hfield|Hbase].
  - rewrite Correlation_field_table, Hk by done.
    rewrite <- (instance_fields k v Ha Hb Hsame) at 2. cbn [new Correlation.model].
    rewrite Correlation_field_table by done.
    rewrite <- (instance_fields k v Ha Hb Hsame). cbn [new Correlation.model].
    rewrite Correlation_field_table by done. apply or_idem.
  - unfold get. rewrite Correlation_other by done.
    rewrite constructor_lookup.
    unfold get in Hk. destruct (row !! k) as [x|] eqn:Hx; [done|].
    cbn in Hk. subst v. exfalso.
    clear -Hin Hbase. cbn in Hbase.
    repeat (destruct Hin as [Heq|Hin];
            [ apply pair_equal_spec in Heq as [<- Hv];
              first [discriminate Hv | tauto] |]).
    done.
Qed.

(** A row without own properties named as methods gives an entity
    without them. *)
Lemma entity_plain env' (row : bag) m :
  In m (methods M) -> row !! m = None -> new M env' row !! m = None.
Proof.
  intros Hm Hrow. cbn [new Correlation.model]. cbn in Hm.
  rewrite Correlation_other.
  - rewrite constructor_lookup, Hrow.
    repeat (destruct Hm as [<-|Hm]; [reflexivity|]). done.
  - cbn. repeat (destruct Hm as [<-|Hm]; [intuition discriminate|]). done.
Qed.

(** C5, amended: with dataset ids that are two different GUIDs, a
    generated id that is a GUID, a clock that reads an ISO date, and
    storage that answers the INSERT with the row it was given under a
    GUID of its own (a row with no column named [validate] or
    [constructor]), [create] issues that one INSERT and returns an entity
    with [confidence] 0, [status] proposed and [version] 1, on which
    [validate()] succeeds. *)
Theorem create_scenario_with_guids (g : string) (row : bag) (rest : list bag) :
  Joi.is_guid a = true -> Joi.is_guid b = true -> a <> b ->
  Joi.is_guid (uuidv4 env) = true -> is_iso_date (now env) = true ->
  (forall json, call_toDatabase M instance = Ok json ->
                respond W (issued s) (create_stmt M instance json) = Rows (row :: rest)) ->
  row !! "id" = Some (VStr g) -> Joi.is_guid g = true ->
  (forall k, In k (schema_keys (schema M)) -> k <> "id" -> row !! k = instance !! k) ->
  row !! "validate" = None -> row !! "constructor" = None ->
  exists json entity,
    call_toDatabase M instance = Ok json /\
    (create W M (Sample.payload a b) s).1 = Ok (Some entity) /\
    issued (create W M (Sample.payload a b) s).2
    = (issued s ++ [create_stmt M instance json])%list /\
    get entity "confidence" = num 0 /\
    get entity "status" = VStr "proposed" /\
    get entity "version" = num 1 /\
    call_validate M entity = Ok tt.
Proof.
  intros Ha Hb Hab Hu Ht Hresp Hid Hg Hecho Hval Hctor.
  destruct instance_toDatabase as [json Hjson].
  pose proof (instance_valid Ha Hb Hab Hu Ht) as Hvalid.
  destruct (create_issues W M (Sample.payload a b) s json Hvalid Hjson) as [Hiss Hres].
  rewrite (Hresp json Hjson) in Hres.
  pose proof (guid_not_empty a Ha) as Ha0. pose proof (guid_not_empty b Hb) as Hb0.
  pose proof (fun k v => entity_fields (reading W (S (tick s))) row g k v Ha0 Hb0 Hid Hecho)
    as Hfields.
  exists json, (new M (reading W (S (tick s))) row). split_and!.
  - exact Hjson.
  - exact Hres.
  - exact Hiss.
  - apply Hfields. cbn. tauto.
  - apply Hfields. cbn. tauto.
  - apply Hfields. cbn. tauto.
  - unfold call_validate, send.
    rewrite entity_plain by (cbn; tauto). cbn [validate Correlation.model].
    apply (scenario_valid is_iso_date _ g a b (now env) (now env)); try assumption.
    apply entity_plain; [cbn; tauto | done].
Qed.

End ScenarioCreate.

(** Where the claim C5 fails: the ids A and B of the scenario are not
    GUIDs, so [create] throws the validation error and issues no
    statement, whatever storage would answer. *)
Lemma create_rejects_ids_A_B :
  (BaseRepository.create (Sample.world [Sample.stored]) (Correlation.model Sample.iso_utc)
     (Sample.payload "A" "B") Sample.start).1
  = Throw Sample.not_guids /\
  BaseRepository.issued
    (BaseRepository.create (Sample.world [Sample.stored]) (Correlation.model Sample.iso_utc)
       (Sample.payload "A" "B") Sample.start).2
  = [].
Proof. split; vm_compute; reflexivity. Qed.

(** The witness of C5: the scenario with the ids [id2] and [id3]. *)
Lemma create_scenario_with_guids_witness :
  exists json entity,
    call_toDatabase (Correlation.model Sample.iso_utc)
      (new (Correlation.model Sample.iso_utc) Sample.env0
           (Sample.payload Sample.id2 Sample.id3)) = Ok json /\
    (BaseRepository.create (Sample.world [Sample.stored]) (Correlation.model Sample.iso_utc)
       (Sample.payload Sample.id2 Sample.id3) Sample.start).1 = Ok (Some entity) /\
    BaseRepository.issued
      (BaseRepository.create (Sample.world [Sample.stored]) (Correlation.model Sample.iso_utc)
         (Sample.payload Sample.id2 Sample.id3) Sample.start).2
    = ([] ++ [BaseRepository.create_stmt (Correlation.model Sample.iso_utc)
                (new (Correlation.model Sample.iso_utc) Sample.env0
                     (Sample.payload Sample.id2 Sample.id3)) json])%list /\
    get entity "confidence" = num 0 /\
    get entity "status" = VStr "proposed" /\
    get entity "version" = num 1 /\
    call_validate (Correlation.model Sample.iso_utc) entity = Ok tt.
Proof.
  apply (create_scenario_with_guids Sample.iso_utc (Sample.world [Sample.stored])
           Sample.start Sample.id2 Sample.id3 Sample.id4 Sample.stored []).
  - vm_compute. reflexivity.
  - vm_compute. reflexivity.
  - discriminate.
  - vm_compute. reflexivity.
  - vm_compute. reflexivity.
  - intros json _. reflexivity.
  - vm_compute. reflexivity.
  - vm_compute. reflexivity.
  - intros k Hin Hne. cbn in Hin.
    repeat (destruct Hin as [<-|Hin]; [first [by destruct Hne | vm_compute; reflexivity]|]).
    destruct Hin.
  - vm_compute. reflexivity.
  - vm_compute. reflexivity.
Defined.

(** * Further properties of the embedded code *)

(** ** [update]: find, merge, validate, write *)

Section UpdateRuns.
Import BaseRepository.
Variable W : World.
Variable C : class.

(** The SELECT that [update] starts with *)
Lemma findById_run id s :
  findById W C id s
  = (match respond W (issued s) {| text := findById_text C; params := [PValue id] |} with
     | Rows [] => Ok None
     | Rows (row :: _) => Ok (Some (new C (reading W (tick s)) row))
     | Failure msg => Throw msg
     end,
     match respond W (issued s) {| text := findById_text C; params := [PValue id] |} with
     | Rows (_ :: _) =>
         {| issued := issued s ++ [{| text := findById_text C; params := [PValue id] |}];
            tick := S (tick s) |}
     | _ =>
         {| issued := issued s ++ [{| text := findById_text C; params := [PValue id] |}];
            tick := tick s |}
     end).
Proof.
  unfold findById.
  pose proof (query_run W (findById_text C) [PValue id] s) as Hq.
  destruct (respond W (issued s) _) as [[|row rows]|msg].
  - erewrite bind_ok by apply Hq. reflexivity.
  - erewrite bind_ok by apply Hq. unfold fromDatabase.
    erewrite bind_ok by apply construct_run. unfold mret, M_ret, advance. cbn.
    by replace (tick s + 1) with (S (tick s)) by lia.
  - erewrite bind_throw by apply Hq. reflexivity.
Qed.

(** Past the SELECT, [update] goes on with the instance read back. *)
Lemma update_found id data s row rest :
  respond W (issued s) {| text := findById_text C; params := [PValue id] |}
    = Rows (row :: rest) ->
  update W C id data s
  = (existing ← lift (call_update C (reading W (S (tick s)))
                        (new C (reading W (tick s)) row) data);
     _ ← lift (call_validate C existing);
     json ← lift (call_toDatabase C existing);
     rows ← query W (update_text C (insert_columns json))
                    (List.map (read C existing) (insert_columns json) ++ [PValue id])%list;
     fromDatabase W C (head rows))
      {| issued := issued s ++ [{| text := findById_text C; params := [PValue id] |}];
         tick := S (S (tick s)) |}.
Proof.
  intros Hrow. unfold update.
  pose proof (findById_run id s) as Hfind. rewrite Hrow in Hfind.
  erewrite bind_ok by apply Hfind. cbv iota.
  erewrite bind_ok by reflexivity. reflexivity.
Qed.

End UpdateRuns.

(** [update(data)] on an instance with no own property named [update] or
    [constructor] *)
Lemma call_update_plain (C : class) (env : Env) (this data : bag) :
  this !! "update" = None -> this !! "constructor" = None ->
  call_update C env this data
  = Ok (<["updatedAt" := VStr (now env)]>
          (List.fold_left
             (fun t key =>
                if is_undefined (get data key) then t else <[key := get data key]> t)
             (schema_keys (schema C)) this)).
Proof.
  intros Hupdate Hctor. unfold call_update, send, BaseModel.update, static_schema.
  by rewrite Hupdate, Hctor.
Qed.

(** X1.  [update] of an id that storage does not know throws
    "<table> not found" after the one SELECT: nothing is constructed and
    no UPDATE is issued. *)
Theorem update_missing_row_throws (W : BaseRepository.World) (C : class)
        (id : value) (data : bag) (s : BaseRepository.State) :
  let select := {| text := BaseRepository.findById_text C; params := [PValue id] |} in
  BaseRepository.respond W (BaseRepository.issued s) select = Rows [] ->
  BaseRepository.update W C id data s
  = (Throw (tableName C +:+ " not found"),
     {| BaseRepository.issued := BaseRepository.issued s ++ [select];
        BaseRepository.tick := BaseRepository.tick s |}).
Proof.
  intros select Hnone. unfold BaseRepository.update.
  pose proof (findById_run W C id s) as Hfind. fold select in Hfind.
  rewrite Hnone in Hfind.
  erewrite bind_ok by apply Hfind. reflexivity.
Qed.

Lemma update_missing_row_throws_witness :
  BaseRepository.update (Sample.world []) (Correlation.model Sample.iso_utc)
    (VStr Sample.id4) ∅ Sample.start
  = (Throw (tableName (Correlation.model Sample.iso_utc) +:+ " not found"),
     {| BaseRepository.issued :=
          BaseRepository.issued Sample.start ++
          [{| text := BaseRepository.findById_text (Correlation.model Sample.iso_utc);
              params := [PValue (VStr Sample.id4)] |}];
        BaseRepository.tick := BaseRepository.tick Sample.start |}).
Proof.
  apply (update_missing_row_throws (Sample.world []) (Correlation.model Sample.iso_utc)
           (VStr Sample.id4) ∅ Sample.start).
  reflexivity.
Defined.

(** X2.  When the row is found, whatever goes wrong before the write
    (the merge, [validate()] on the merged instance, [toDatabase()]) is
    thrown with only the SELECT issued: an invalid update never reaches
    storage. *)
Theorem update_validates_before_write (W : BaseRepository.World) (C : class)
        (id : value) (data row : bag) (rest : list bag) (s : BaseRepository.State) :
  let select := {| text := BaseRepository.findById_text C; params := [PValue id] |} in
  let found := new C (BaseRepository.reading W (BaseRepository.tick s)) row in
  let env := BaseRepository.reading W (S (BaseRepository.tick s)) in
  let after := {| BaseRepository.issued := BaseRepository.issued s ++ [select];
                  BaseRepository.tick := S (S (BaseRepository.tick s)) |} in
  BaseRepository.respond W (BaseRepository.issued s) select = Rows (row :: rest) ->
  (forall msg, call_update C env found data = Throw msg ->
               BaseRepository.update W C id data s = (Throw msg, after))
  /\
  (forall existing msg,
      call_update C env found data = Ok existing ->
      call_validate C existing = Throw msg ->
      BaseRepository.update W C id data s = (Throw msg, after))
  /\
  (forall existing msg,
      call_update C env found data = Ok existing ->
      call_validate C existing = Ok tt ->
      call_toDatabase C existing = Throw msg ->
      BaseRepository.update W C id data s = (Throw msg, after)).
Proof.
  intros select found env after Hrow.
  rewrite (update_found W C id data s row rest Hrow). fold select found env after.
  split_and!.
  - intros msg Hu.
    erewrite bind_throw; [reflexivity|]. unfold BaseRepository.lift. by rewrite Hu.
  - intros existing msg Hu Hv.
    erewrite bind_ok by (unfold BaseRepository.lift; by rewrite Hu).
    erewrite bind_throw; [reflexivity|]. unfold BaseRepository.lift. by rewrite Hv.
  - intros existing msg Hu Hv Hd.
    erewrite bind_ok by (unfold BaseRepository.lift; by rewrite Hu).
    erewrite bind_ok by (unfold BaseRepository.lift; by rewrite Hv).
    erewrite bind_throw; [reflexivity|]. unfold BaseRepository.lift. by rewrite Hd.
Qed.

(** The witness of X2: a confidence of 2 for the stored correlation. *)
Lemma update_validates_before_write_witness :
  BaseRepository.update (Sample.world [Sample.stored]) (Correlation.model Sample.iso_utc)
    (VStr Sample.id4) (<["confidence" := num 2]> ∅) Sample.start
  = (Throw ("Validation failed: " +:+ Joi.label "confidence" +:+
            " must be less than or equal to 1"),
     {| BaseRepository.issued :=
          BaseRepository.issued Sample.start ++
          [{| text := BaseRepository.findById_text (Correlation.model Sample.iso_utc);
              params := [PValue (VStr Sample.id4)] |}];
        BaseRepository.tick := S (S (BaseRepository.tick Sample.start)) |}).
Proof.
  assert (Hupdate : new (Correlation.model Sample.iso_utc) Sample.env0 Sample.stored
                      !! "update" = None) by (vm_compute; reflexivity).
  assert (Hctor : new (Correlation.model Sample.iso_utc) Sample.env0 Sample.stored
                    !! "constructor" = None) by (vm_compute; reflexivity).
  pose proof (call_update_plain (Correlation.model Sample.iso_utc) Sample.env1 _
                (<["confidence" := num 2]> ∅) Hupdate Hctor) as Hmerged.
  match type of Hmerged with
  | _ = Ok ?existing =>
      assert (Hinvalid :
                call_validate (Correlation.model Sample.iso_utc) existing
                = Throw ("Validation failed: " +:+ Joi.label "confidence" +:+
                         " must be less than or equal to 1"))
        by (vm_compute; reflexivity)
  end.
  destruct (update_validates_before_write (Sample.world [Sample.stored])
              (Correlation.model Sample.iso_utc) (VStr Sample.id4)
              (<["confidence" := num 2]> ∅) Sample.stored [] Sample.start eq_refl)
    as (_ & Hthrows & _).
  exact (Hthrows _ _ Hmerged Hinvalid).
Defined.

(** X3.  Past validation [update] issues one UPDATE after the SELECT: it
    sets the columns of [toDatabase()] other than [id], binds the [id]
    it was called with last, for the WHERE, and carries the time of the
    call as [updatedAt], whatever [data] says.  When the UPDATE returns
    no row, the result is null. *)
Theorem update_statement (W : BaseRepository.World) (C : class)
        (id : value) (data row : bag) (rest : list bag) (s : BaseRepository.State)
        (existing : bag) (json : json) :
  let select := {| text := BaseRepository.findById_text C; params := [PValue id] |} in
  let found := new C (BaseRepository.reading W (BaseRepository.tick s)) row in
  let env := BaseRepository.reading W (S (BaseRepository.tick s)) in
  let columns := BaseRepository.insert_columns json in
  let write := {| text := BaseRepository.update_text C columns;
                  params := (List.map (read C existing) columns ++ [PValue id])%list |} in
  BaseRepository.respond W (BaseRepository.issued s) select = Rows (row :: rest) ->
  call_update C env found data = Ok existing ->
  call_validate C existing = Ok tt ->
  call_toDatabase C existing = Ok json ->
  BaseRepository.issued (BaseRepository.update W C id data s).2
    = (BaseRepository.issued s ++ [select; write])%list /\
  ~ In "id" columns /\
  existing !! "updatedAt" = Some (VStr (now env)) /\
  (BaseRepository.update W C id data s).1
  = match BaseRepository.respond W (BaseRepository.issued s ++ [select])%list write with
    | Rows [] => Ok None
    | Rows (first :: _) =>
        Ok (Some (new C (BaseRepository.reading W (S (S (BaseRepository.tick s)))) first))
    | Failure msg => Throw msg
    end.
Proof.
  intros select found env columns write Hrow Hu Hv Hd.
  rewrite (update_found W C id data s row rest Hrow). fold select found env.
  erewrite bind_ok by (unfold BaseRepository.lift; by rewrite Hu).
  erewrite bind_ok by (unfold BaseRepository.lift; by rewrite Hv).
  erewrite bind_ok by (unfold BaseRepository.lift; by rewrite Hd).
  fold columns.
  match goal with |- context [BaseRepository.query W ?q ?ps] =>
    pose proof (query_run W q ps
                  {| BaseRepository.issued := BaseRepository.issued s ++ [select];
                     BaseRepository.tick := S (S (BaseRepository.tick s)) |}) as Hq
  end.
  cbn [BaseRepository.issued BaseRepository.tick] in Hq. fold write in Hq.
  assert (Hid : ~ In "id" columns).
  { unfold columns, BaseRepository.insert_columns. rewrite filter_In. by intros [_ [=]]. }
  assert (Hupd : existing !! "updatedAt" = Some (VStr (now env))).
  { unfold call_update, send in Hu. destruct (found !! "update"); [done|].
    unfold BaseModel.update, static_schema in Hu.
    destruct (found !! "constructor"); [done|].
    injection Hu as <-. apply lookup_insert_eq. }
  destruct (BaseRepository.respond W (BaseRepository.issued s ++ [select]) write)
    as [[|first rows]|msg].
  - erewrite bind_ok by apply Hq. cbn. rewrite <- app_assoc. done.
  - erewrite bind_ok by apply Hq. cbn [head BaseRepository.fromDatabase].
    erewrite bind_ok by apply construct_run.
    cbn. rewrite <- app_assoc. done.
  - erewrite bind_throw by apply Hq. cbn. rewrite <- app_assoc. done.
Qed.

(** The witness of X3: a new description for the stored correlation. *)
Lemma update_statement_witness :
  exists existing json,
    call_update (Correlation.model Sample.iso_utc) Sample.env1 (new (Correlation.model Sample.iso_utc) Sample.env0 Sample.stored)
      (<["description" := VStr "d"]> ∅) = Ok existing /\
    call_toDatabase (Correlation.model Sample.iso_utc) existing = Ok json /\
    BaseRepository.issued
      (BaseRepository.update (Sample.world [Sample.stored]) (Correlation.model Sample.iso_utc) (VStr Sample.id4)
         (<["description" := VStr "d"]> ∅) Sample.start).2
    = (BaseRepository.issued Sample.start ++
       [{| text := BaseRepository.findById_text (Correlation.model Sample.iso_utc); params := [PValue (VStr Sample.id4)] |};
        {| text := BaseRepository.update_text (Correlation.model Sample.iso_utc) (BaseRepository.insert_columns json);
           params := (List.map (read (Correlation.model Sample.iso_utc) existing) (BaseRepository.insert_columns json)
                      ++ [PValue (VStr Sample.id4)])%list |}])%list /\
    ~ In "id" (BaseRepository.insert_columns json) /\
    existing !! "updatedAt" = Some (VStr (now Sample.env1)).
Proof.
  assert (Hupdate : new (Correlation.model Sample.iso_utc) Sample.env0 Sample.stored !! "update" = None)
    by (vm_compute; reflexivity).
  assert (Hctor : new (Correlation.model Sample.iso_utc) Sample.env0 Sample.stored !! "constructor" = None)
    by (vm_compute; reflexivity).
  pose proof (call_update_plain (Correlation.model Sample.iso_utc) Sample.env1 _ (<["description" := VStr "d"]> ∅)
                Hupdate Hctor) as Hmerged.
  match type of Hmerged with
  | _ = Ok ?merged =>
      assert (Hvalid : call_validate (Correlation.model Sample.iso_utc) merged = Ok tt) by (vm_compute; reflexivity);
      assert (exists json, call_toDatabase (Correlation.model Sample.iso_utc) merged = Ok json) as [json Hjson]
        by (eexists; vm_compute; reflexivity);
      destruct (update_statement (Sample.world [Sample.stored]) (Correlation.model Sample.iso_utc) (VStr Sample.id4)
                  (<["description" := VStr "d"]> ∅) Sample.stored [] Sample.start
                  merged json eq_refl Hmerged Hvalid Hjson)
        as (Hissued & Hid & Hupdated & _);
      exists merged, json
  end.
  split_and!; assumption.
Defined.

(** ** The parameters of a batch *)

Lemma lookup_concat_uniform {A} (ls : list (list A)) (c i j : nat) (l : list A) :
  Forall (fun l => length l = c) ls ->
  ls !! i = Some l -> j < c ->
  concat ls !! (i * c + j) = l !! j.
Proof.
  intros Hlen. revert i. induction Hlen as [|x ls Hx Hls IH]; intros i Hi Hj; [done|].
  destruct i as [|i]; cbn in Hi |- *.
  - injection Hi as ->. rewrite lookup_app_l by lia. reflexivity.
  - rewrite lookup_app_r by lia.
    replace (c + i * c + j - length x) with (i * c + j) by lia. by apply IH.
Qed.

Lemma length_concat_uniform {A} (ls : list (list A)) (c : nat) :
  Forall (fun l => length l = c) ls -> length (concat ls) = length ls * c.
Proof.
  induction 1 as [|x ls Hx Hls IH]; [done|].
  cbn. rewrite length_app, IH, Hx. reflexivity.
Qed.

Lemma validate_all_ok (C : class) (instances : list bag) :
  (forall instance, In instance instances -> call_validate C instance = Ok tt) ->
  BaseRepository.validate_all C instances = Ok tt.
Proof.
  induction instances as [|a l IH]; intros H; [done|].
  cbn [BaseRepository.validate_all]. rewrite (H a) by (by left).
  cbn. apply IH. intros x Hx. apply H. by right.
Qed.

(** X4.  For a batch that passes validation, [createMany] issues one
    INSERT whose parameters are laid out row by row over the columns of
    the first instance: with [c] columns, parameter [i * c + j] (the one
    the placeholder [$(i * c + j + 1)] of row [i] names) is the value the
    [i]-th instance holds for the [j]-th column, and there are [n * c]
    of them. *)
Theorem createMany_binds_row_major (W : BaseRepository.World) (C : class)
        (dataArray : list bag) (s : BaseRepository.State) (first : bag) (json : json) :
  let instances :=
    imap (fun i data =>
            new C (BaseRepository.reading W (BaseRepository.tick s + i)) data) dataArray in
  let columns := BaseRepository.insert_columns json in
  let c := length columns in
  instances !! 0 = Some first ->
  (forall instance, In instance instances -> call_validate C instance = Ok tt) ->
  call_toDatabase C first = Ok json ->
  exists st,
    BaseRepository.issued (BaseRepository.createMany W C dataArray s).2
      = (BaseRepository.issued s ++ [st])%list /\
    text st = BaseRepository.createMany_text C columns (length dataArray) /\
    length (params st) = length dataArray * c /\
    forall i j instance col,
      instances !! i = Some instance -> columns !! j = Some col ->
      params st !! (i * c + j) = Some (read C instance col).
Proof.
  intros instances columns c Hfirst Hvalid Hjson.
  set (ps := concat (List.map (fun instance => List.map (read C instance) columns) instances)).
  exists {| text := BaseRepository.createMany_text C columns (length instances);
            params := ps |}.
  assert (Hn : length instances = length dataArray) by apply length_imap.
  assert (Huni : Forall (fun l : list param => length l = c)
                   (List.map (fun instance => List.map (read C instance) columns) instances)).
  { apply List.Forall_forall. intros l Hl. apply in_map_iff in Hl as (x & <- & _).
    apply length_map. }
  split_and!.
  - unfold BaseRepository.createMany.
    erewrite bind_ok by apply construct_all_run. fold instances.
    erewrite bind_ok
      by (unfold BaseRepository.lift; rewrite validate_all_ok by done; reflexivity).
    destruct instances as [|x rest] eqn:Hinst; [done|].
    injection Hfirst as ->.
    erewrite bind_ok by (unfold BaseRepository.lift; rewrite Hjson; reflexivity).
    fold columns. fold ps.
    pose proof (query_run W (BaseRepository.createMany_text C columns (length (first :: rest)))
                  ps (BaseRepository.advance s (length dataArray))) as Hq.
    destruct (BaseRepository.respond W _ _) as [rows|msg].
    + erewrite bind_ok by apply Hq.
      destruct (fromDatabase_all_run W C rows
                  {| BaseRepository.issued :=
                       BaseRepository.issued (BaseRepository.advance s (length dataArray)) ++
                       [{| text := BaseRepository.createMany_text C columns
                                     (length (first :: rest));
                           params := ps |}];
                     BaseRepository.tick :=
                       BaseRepository.tick (BaseRepository.advance s (length dataArray)) |})
        as [xs Hxs].
      rewrite Hxs. reflexivity.
    + erewrite bind_throw by apply Hq. reflexivity.
  - cbn. by rewrite Hn.
  - cbn. unfold ps. rewrite (length_concat_uniform _ c Huni), length_map. by rewrite Hn.
  - intros i j instance col Hi Hj. cbn [params]. unfold ps.
    rewrite (lookup_concat_uniform _ c i j (List.map (read C instance) columns) Huni).
    + by rewrite list_lookup_fmap, Hj.
    + by rewrite list_lookup_fmap, Hi.
    + apply lookup_lt_Some in Hj. done.
Qed.

(** The witness of X4: a batch of two correlations. *)
Lemma createMany_binds_row_major_witness :
  exists json st,
    call_toDatabase (Correlation.model Sample.iso_utc) (new (Correlation.model Sample.iso_utc) Sample.env0 (Sample.payload Sample.id2 Sample.id3)) = Ok json /\
    BaseRepository.issued
      (BaseRepository.createMany (Sample.world []) (Correlation.model Sample.iso_utc)
         [Sample.payload Sample.id2 Sample.id3; Sample.payload Sample.id3 Sample.id2]
         Sample.start).2
      = (BaseRepository.issued Sample.start ++ [st])%list /\
    length (params st) = 2 * length (BaseRepository.insert_columns json) /\
    forall j col,
      BaseRepository.insert_columns json !! j = Some col ->
      params st !! (1 * length (BaseRepository.insert_columns json) + j)
      = Some (read (Correlation.model Sample.iso_utc) (new (Correlation.model Sample.iso_utc) Sample.env1 (Sample.payload Sample.id3 Sample.id2)) col).
Proof.
  assert (exists json,
             call_toDatabase (Correlation.model Sample.iso_utc) (new (Correlation.model Sample.iso_utc) Sample.env0 (Sample.payload Sample.id2 Sample.id3))
             = Ok json) as [json Hjson]
    by (eexists; vm_compute; reflexivity).
  destruct (createMany_binds_row_major (Sample.world []) (Correlation.model Sample.iso_utc)
              [Sample.payload Sample.id2 Sample.id3; Sample.payload Sample.id3 Sample.id2]
              Sample.start
              (new (Correlation.model Sample.iso_utc) Sample.env0 (Sample.payload Sample.id2 Sample.id3)) json)
    as (st & Hissued & _ & Hlength & Hparams).
  - reflexivity.
  - intros instance [<-|[<-|[]]]; vm_compute; reflexivity.
  - exact Hjson.
  - exists json, st. split; [exact Hjson|]. split; [exact Hissued|].
    split; [exact Hlength|]. intros j col Hcol. by apply (Hparams 1 j).
Defined.

(** ** Rows into entities *)

Section Finders.
Import BaseRepository.
Variable W : World.
Variable C : class.

(** Rows become entities one by one, in order. *)
Lemma fromDatabase_all_entities rows s :
  fromDatabase_all W C rows s
  = (Ok (imap (fun i row => Some (new C (reading W (tick s + i)) row)) rows),
     advance s (length rows)).
Proof.
  revert s. induction rows as [|r rows IH]; intros s.
  - cbn. unfold advance. rewrite Nat.add_0_r. destruct s; reflexivity.
  - cbn [fromDatabase_all fromDatabase].
    erewrite bind_ok; [|erewrite bind_ok by apply construct_run; reflexivity].
    erewrite bind_ok by apply IH.
    unfold mret, M_ret, advance. cbn. rewrite Nat.add_0_r. f_equal.
    + f_equal. f_equal. apply imap_ext. intros i x _. cbn.
      f_equal. f_equal. f_equal. lia.
    + f_equal. lia.
Qed.

(** A statement whose rows are all mapped back *)
Lemma query_then_map st rows s :
  respond W (issued s) st = Rows rows ->
  (rows ← query W (text st) (params st); fromDatabase_all W C rows) s
  = (Ok (imap (fun i row => Some (new C (reading W (tick s + i)) row)) rows),
     {| issued := issued s ++ [st]; tick := tick s + length rows |}).
Proof.
  intros Hrows.
  pose proof (query_run W (text st) (params st) s) as Hq.
  replace {| text := text st; params := params st |} with st in Hq by (by destruct st).
  rewrite Hrows in Hq.
  erewrite bind_ok by apply Hq.
  rewrite fromDatabase_all_entities. reflexivity.
Qed.

End Finders.

(** X5.  [findAll], [findMany] and [search] return one entity per row
    that storage answers, in the order of the rows, each built by the
    constructor of the model from its row; no entry is null, and one
    statement is issued. *)
Theorem finders_return_entity_per_row (W : BaseRepository.World) (C : class)
        (s : BaseRepository.State) (rows : list bag) :
  let entities :=
    imap (fun i row =>
            Some (new C (BaseRepository.reading W (BaseRepository.tick s + i)) row)) rows in
  let after st :=
    {| BaseRepository.issued := BaseRepository.issued s ++ [st];
       BaseRepository.tick := BaseRepository.tick s + length rows |} in
  (forall options,
      BaseRepository.respond W (BaseRepository.issued s) (BaseRepository.findAll_stmt C options)
        = Rows rows ->
      BaseRepository.findAll W C options s
        = (Ok entities, after (BaseRepository.findAll_stmt C options)))
  /\
  (forall ids,
      let st := {| text := BaseRepository.findMany_text C; params := [PValue (VArr ids)] |} in
      BaseRepository.respond W (BaseRepository.issued s) st = Rows rows ->
      BaseRepository.findMany W C ids s = (Ok entities, after st))
  /\
  (forall searchTerm fields limit,
      BaseRepository.respond W (BaseRepository.issued s)
        (BaseRepository.search_stmt C searchTerm fields limit) = Rows rows ->
      BaseRepository.search W C searchTerm fields limit s
        = (Ok entities, after (BaseRepository.search_stmt C searchTerm fields limit))).
Proof.
  intros entities after. split_and!.
  - intros options Hrows. by apply query_then_map.
  - intros ids st Hrows. by apply (query_then_map W C st).
  - intros searchTerm fields limit Hrows. by apply query_then_map.
Qed.

(** The witness of X5: storage that answers the stored correlation. *)
Lemma finders_return_entity_per_row_witness :
  BaseRepository.findAll (Sample.world [Sample.stored]) (Correlation.model Sample.iso_utc)
    (Sample.no_options []) Sample.start
  = (Ok [Some (new (Correlation.model Sample.iso_utc) Sample.env0 Sample.stored)],
     {| BaseRepository.issued :=
          BaseRepository.issued Sample.start ++
          [BaseRepository.findAll_stmt (Correlation.model Sample.iso_utc)
             (Sample.no_options [])];
        BaseRepository.tick := BaseRepository.tick Sample.start + 1 |}).
Proof.
  destruct (finders_return_entity_per_row (Sample.world [Sample.stored])
              (Correlation.model Sample.iso_utc) Sample.start [Sample.stored])
    as (Hall & _ & _).
  apply (Hall (Sample.no_options [])). reflexivity.
Defined.

(** ** [BaseModel.update(data)], key by key *)

Lemma update_fold_lookup (data : bag) (keys : list string) (this : bag) (k : string) :
  List.fold_left
    (fun t key => if is_undefined (get data key) then t else <[key := get data key]> t)
    keys this !! k
  = if bool_decide (k ∈ keys) && negb (is_undefined (get data k))
    then Some (get data k)
    else this !! k.
Proof.
  revert this. induction keys as [|key keys IH]; intros this; [done|].
  cbn [List.fold_left]. rewrite IH.
  destruct (decide (k = key)) as [->|Hne].
  - rewrite (bool_decide_eq_true_2 (key ∈ key :: keys)) by left.
    destruct (is_undefined (get data key)) eqn:Hu.
    + by rewrite andb_false_r.
    + rewrite andb_true_r. rewrite lookup_insert_eq.
      by destruct (bool_decide (key ∈ keys)).
  - assert (Hin : bool_decide (k ∈ key :: keys) = bool_decide (k ∈ keys)).
    { apply bool_decide_ext. rewrite elem_of_cons. intuition congruence. }
    rewrite Hin.
    destruct (bool_decide (k ∈ keys) && negb (is_undefined (get data k))); [done|].
    destruct (is_undefined (get data key)); [done|].
    by rewrite lookup_insert_ne.
Qed.

(** X6.  [update(data)] is a merge over the schema keys: a schema key
    that [data] defines takes the value of [data], every other property
    of the instance stays as it is (a key outside the schema in [data] is
    ignored, an undefined value erases nothing), and [updatedAt] becomes
    the time of the call, also when [data] gives one.  It throws only
    when an own property hides [constructor]. *)
Theorem update_merges_schema_keys (C : class) (env : Env) (this data : bag) :
  this !! "constructor" = None ->
  exists this',
    BaseModel.update C env this data = Ok this' /\
    forall k,
      this' !! k
      = if String.eqb k "updatedAt" then Some (VStr (now env))
        else if bool_decide (k ∈ schema_keys (schema C)) && negb (is_undefined (get data k))
             then Some (get data k)
             else this !! k.
Proof.
  intros Hctor. unfold BaseModel.update, static_schema. rewrite Hctor.
  eexists. split; [reflexivity|]. intros k.
  destruct (String.eqb_spec k "updatedAt") as [->|Hne].
  - apply lookup_insert_eq.
  - rewrite lookup_insert_ne by done. apply update_fold_lookup.
Qed.

(** The witness of X6: a dataset renamed. *)
Lemma update_merges_schema_keys_witness :
  exists this',
    BaseModel.update (Dataset.model Sample.iso_utc) Sample.env1
      (new (Dataset.model Sample.iso_utc) Sample.env0 Sample.dataset)
      (<["name" := VStr "m"]> (<["extra" := num 1]> ∅)) = Ok this' /\
    this' !! "name" = Some (VStr "m") /\
    this' !! "extra" = None /\
    this' !! "updatedAt" = Some (VStr Sample.t1).
Proof.
  destruct (update_merges_schema_keys (Dataset.model Sample.iso_utc) Sample.env1
              (new (Dataset.model Sample.iso_utc) Sample.env0 Sample.dataset)
              (<["name" := VStr "m"]> (<["extra" := num 1]> ∅)))
    as (this' & Hrun & Hkeys).
  - vm_compute. reflexivity.
  - exists this'. split; [exact Hrun|].
    rewrite (Hkeys "name"), (Hkeys "extra"), (Hkeys "updatedAt").
    split_and!; vm_compute; reflexivity.
Defined.

(** ** Tags *)

Lemma strict_eq_string (x : value) (t : string) :
  strict_eq x (VStr t) = true <-> x = VStr t.
Proof.
  destruct x; cbn; try (split; [discriminate|discriminate]).
  rewrite String.eqb_eq. split; [by intros -> | by intros [= ->]].
Qed.

Lemma includes_string (l : list value) (t : string) :
  includes l (VStr t) = true <-> VStr t ∈ l.
Proof.
  unfold includes. rewrite existsb_exists. split.
  - intros (x & Hx & Heq). apply list_elem_of_In.
    apply orb_true_iff in Heq as [Heq|Heq].
    + apply strict_eq_string in Heq as ->. done.
    + by destruct x.
  - intros Hin. exists (VStr t). split; [by apply list_elem_of_In|].
    cbn. by rewrite String.eqb_refl.
Qed.

Lemma filter_other_tags (l : list value) (t : string) :
  ~ VStr t ∈ l ->
  List.filter (fun x => negb (strict_eq x (VStr t))) l = l.
Proof.
  induction l as [|x l IH]; intros Hnot; [done|].
  cbn. destruct (strict_eq x (VStr t)) eqn:Hx.
  - apply strict_eq_string in Hx as ->. exfalso. apply Hnot. left.
  - cbn. rewrite IH; [done|]. intros Hin. apply Hnot. by right.
Qed.

Lemma filter_tag_spec (l : list value) (t : string) (x : value) :
  x ∈ List.filter (fun x => negb (strict_eq x (VStr t))) l <-> x ∈ l /\ x <> VStr t.
Proof.
  rewrite !list_elem_of_In, filter_In, negb_true_iff.
  split; intros [Hin Hx]; (split; [done|]).
  - intros ->. cbn in Hx. by rewrite String.eqb_refl in Hx.
  - destruct (strict_eq x (VStr t)) eqn:Heq; [|done].
    by apply strict_eq_string in Heq.
Qed.

Lemma filter_sublist {A} (f : A -> bool) (l : list A) : sublist (List.filter f l) l.
Proof.
  induction l as [|x l IH]; [done|]. cbn.
  destruct (f x); [by apply sublist_skip | by apply sublist_cons].
Qed.

(** X7.  [addTag] keeps a tag at most once: on tags that hold the
    string already it changes nothing, not even [updatedAt]; otherwise
    it appends the tag and refreshes [updatedAt]; and a second call with
    the same tag leaves the instance as the first call made it. *)
Theorem addTag_never_duplicates (env env' : Env) (t : string) (this : bag)
        (l : list value) :
  get this "tags" = VArr l ->
  (exists this1,
      Dataset.addTag env (VStr t) this = Ok this1 /\
      (VStr t ∈ l -> this1 = this) /\
      (~ VStr t ∈ l ->
       get this1 "tags" = VArr (l ++ [VStr t]) /\ get this1 "updatedAt" = VStr (now env)) /\
      Dataset.addTag env' (VStr t) this1 = Ok this1)
  /\
  (exists this1,
      Correlation.addTag env (VStr t) this = Ok this1 /\
      (VStr t ∈ l -> this1 = this) /\
      (~ VStr t ∈ l ->
       get this1 "tags" = VArr (l ++ [VStr t]) /\ get this1 "updatedAt" = VStr (now env)) /\
      Correlation.addTag env' (VStr t) this1 = Ok this1).
Proof.
  intros Htags. split.
  - unfold Dataset.addTag. rewrite Htags.
    destruct (includes l (VStr t)) eqn:Hinc.
    + exists this. rewrite Htags, Hinc.
      apply includes_string in Hinc. by split_and!.
    + assert (Hnot : ~ VStr t ∈ l).
      { intros Hin. apply includes_string in Hin. congruence. }
      eexists. split; [reflexivity|].
      assert (Hnew : get (<["updatedAt" := VStr (now env)]>
                            (<["tags" := VArr (l ++ [VStr t])]> this)) "tags"
                     = VArr (l ++ [VStr t])).
      { unfold get. rewrite lookup_insert_ne by done. by rewrite lookup_insert_eq. }
      split_and!; [done| |].
      * intros _. split; [exact Hnew|]. unfold get. by rewrite lookup_insert_eq.
      * rewrite Hnew.
        assert (Hnow : includes (l ++ [VStr t]) (VStr t) = true).
        { apply includes_string. apply elem_of_app. right. left. }
        by rewrite Hnow.
  - unfold Correlation.addTag. rewrite Htags.
    destruct (includes l (VStr t)) eqn:Hinc.
    + exists this. rewrite Htags, Hinc.
      apply includes_string in Hinc. by split_and!.
    + assert (Hnot : ~ VStr t ∈ l).
      { intros Hin. apply includes_string in Hin. congruence. }
      eexists. split; [reflexivity|].
      assert (Hnew : get (<["updatedAt" := VStr (now env)]>
                            (<["tags" := VArr (l ++ [VStr t])]> this)) "tags"
                     = VArr (l ++ [VStr t])).
      { unfold get. rewrite lookup_insert_ne by done. by rewrite lookup_insert_eq. }
      split_and!; [done| |].
      * intros _. split; [exact Hnew|]. unfold get. by rewrite lookup_insert_eq.
      * rewrite Hnew.
        assert (Hnow : includes (l ++ [VStr t]) (VStr t) = true).
        { apply includes_string. apply elem_of_app. right. left. }
        by rewrite Hnow.
Qed.


(** The witness of X7: the tag a, twice, on a new dataset. *)
Lemma addTag_never_duplicates_witness :
  exists this1,
    Dataset.addTag Sample.env1 (VStr "a")
      (new (Dataset.model Sample.iso_utc) Sample.env0 Sample.dataset) = Ok this1 /\
    Dataset.addTag Sample.env2 (VStr "a") this1 = Ok this1.
Proof.
  destruct (addTag_never_duplicates Sample.env1 Sample.env2 "a"
              (new (Dataset.model Sample.iso_utc) Sample.env0 Sample.dataset) [])
    as [(this1 & Hfirst & _ & _ & Hsecond) _].
  - vm_compute. reflexivity.
  - exists this1. split; [exact Hfirst | exact Hsecond].
Defined.

Lemma filter_without_tag (l : list value) (t : string) :
  ~ VStr t ∈ List.filter (fun x => negb (strict_eq x (VStr t))) l.
Proof. rewrite filter_tag_spec. tauto. Qed.

(** Whatever part of [l] holds no [t] is a part of [l] without its [t]s. *)
Lemma filter_tag_greatest (l k : list value) (t : string) :
  sublist k l -> ~ VStr t ∈ k ->
  sublist k (List.filter (fun x => negb (strict_eq x (VStr t))) l).
Proof.
  intros Hsub. induction Hsub as [|x k l Hsub IH|x k l Hsub IH]; intros Hnot.
  - constructor.
  - cbn. destruct (strict_eq x (VStr t)) eqn:Hx.
    + apply strict_eq_string in Hx as ->. exfalso. apply Hnot. left.
    + cbn. apply sublist_skip, IH. intros Hin. apply Hnot. by right.
  - cbn. destruct (strict_eq x (VStr t)); cbn; [by apply IH|].
    by apply sublist_cons, IH.
Qed.

(** X8.  [removeTag] removes every occurrence of the string and
    nothing else: the tags left are the tags filtered by [t !== tag],
    that is the greatest part of the tags, in their order, that does
    not hold the string (each other tag stays as often as it was
    there); [updatedAt] is refreshed, also when the tag was not there;
    and after [addTag] of a tag that was not there, it gives the tags
    back as they were. *)
Theorem removeTag_removes_every_occurrence (env env' : Env) (t : string) (this : bag)
        (l : list value) :
  get this "tags" = VArr l ->
  (exists this' l',
      Dataset.removeTag env (VStr t) this = Ok this' /\
      get this' "tags" = VArr l' /\
      get this' "updatedAt" = VStr (now env) /\
      l' = List.filter (fun x => negb (strict_eq x (VStr t))) l /\
      sublist l' l /\
      ~ VStr t ∈ l' /\
      (forall k, sublist k l -> ~ VStr t ∈ k -> sublist k l') /\
      (forall x, x ∈ l' <-> x ∈ l /\ x <> VStr t) /\
      (~ VStr t ∈ l ->
       forall this1, Dataset.addTag env' (VStr t) this = Ok this1 ->
       exists this2, Dataset.removeTag env (VStr t) this1 = Ok this2 /\
                     get this2 "tags" = VArr l))
  /\
  (exists this' l',
      Correlation.removeTag env (VStr t) this = Ok this' /\
      get this' "tags" = VArr l' /\
      get this' "updatedAt" = VStr (now env) /\
      l' = List.filter (fun x => negb (strict_eq x (VStr t))) l /\
      sublist l' l /\
      ~ VStr t ∈ l' /\
      (forall k, sublist k l -> ~ VStr t ∈ k -> sublist k l') /\
      (forall x, x ∈ l' <-> x ∈ l /\ x <> VStr t) /\
      (~ VStr t ∈ l ->
       forall this1, Correlation.addTag env' (VStr t) this = Ok this1 ->
       exists this2, Correlation.removeTag env (VStr t) this1 = Ok this2 /\
                     get this2 "tags" = VArr l)).
Proof.
  intros Htags.
  assert (Hback : ~ VStr t ∈ l ->
            List.filter (fun x => negb (strict_eq x (VStr t))) (l ++ [VStr t]) = l).
  { intros Hnot. rewrite List.filter_app, filter_other_tags by done.
    cbn. rewrite String.eqb_refl. cbn. apply app_nil_r. }
  split.
  - unfold Dataset.removeTag at 1. rewrite Htags. eexists _, _. split; [reflexivity|].
    split_and!.
    + unfold get. rewrite lookup_insert_ne by done. by rewrite lookup_insert_eq.
    + unfold get. by rewrite lookup_insert_eq.
    + reflexivity.
    + apply filter_sublist.
    + apply filter_without_tag.
    + intros k. apply filter_tag_greatest.
    + apply filter_tag_spec.
    + intros Hnot this1. unfold Dataset.addTag. rewrite Htags.
      assert (Hinc : includes l (VStr t) = false).
      { destruct (includes l (VStr t)) eqn:Hinc; [|done].
        by apply includes_string in Hinc. }
      rewrite Hinc. intros [= <-]. unfold Dataset.removeTag.
      assert (Hnew : get (<["updatedAt" := VStr (now env')]>
                            (<["tags" := VArr (l ++ [VStr t])]> this)) "tags"
                     = VArr (l ++ [VStr t])).
      { unfold get. rewrite lookup_insert_ne by done. by rewrite lookup_insert_eq. }
      rewrite Hnew. eexists. split; [reflexivity|].
      unfold get. rewrite lookup_insert_ne by done. rewrite lookup_insert_eq.
      cbn. by rewrite Hback.
  - unfold Correlation.removeTag at 1. rewrite Htags. eexists _, _. split; [reflexivity|].
    split_and!.
    + unfold get. rewrite lookup_insert_ne by done. by rewrite lookup_insert_eq.
    + unfold get. by rewrite lookup_insert_eq.
    + reflexivity.
    + apply filter_sublist.
    + apply filter_without_tag.
    + intros k. apply filter_tag_greatest.
    + apply filter_tag_spec.
    + intros Hnot this1. unfold Correlation.addTag. rewrite Htags.
      assert (Hinc : includes l (VStr t) = false).
      { destruct (includes l (VStr t)) eqn:Hinc; [|done].
        by apply includes_string in Hinc. }
      rewrite Hinc. intros [= <-]. unfold Correlation.removeTag.
      assert (Hnew : get (<["updatedAt" := VStr (now env')]>
                            (<["tags" := VArr (l ++ [VStr t])]> this)) "tags"
                     = VArr (l ++ [VStr t])).
      { unfold get. rewrite lookup_insert_ne by done. by rewrite lookup_insert_eq. }
      rewrite Hnew. eexists. split; [reflexivity|].
      unfold get. rewrite lookup_insert_ne by done. rewrite lookup_insert_eq.
      cbn. by rewrite Hback.
Qed.

(** The witness of X8: the tag b removed from the tags b, a, b, and the
    tag c added to them and removed again. *)
Lemma removeTag_removes_every_occurrence_witness :
  (exists this',
      Dataset.removeTag Sample.env1 (VStr "b") Sample.tagged = Ok this' /\
      get this' "tags" = VArr [VStr "a"] /\
      get this' "updatedAt" = VStr (now Sample.env1))
  /\
  (exists this1 this2,
      Correlation.addTag Sample.env2 (VStr "c") Sample.tagged = Ok this1 /\
      Correlation.removeTag Sample.env1 (VStr "c") this1 = Ok this2 /\
      get this2 "tags" = VArr [VStr "b"; VStr "a"; VStr "b"]).
Proof.
  assert (Htags : get Sample.tagged "tags" = VArr [VStr "b"; VStr "a"; VStr "b"])
    by (vm_compute; reflexivity).
  split.
  - destruct (removeTag_removes_every_occurrence Sample.env1 Sample.env2 "b"
                Sample.tagged _ Htags)
      as [(this' & l' & Hrun & Hleft & Hupdated & Hpin & _) _].
    exists this'. split; [exact Hrun|]. split; [|exact Hupdated].
    rewrite Hleft, Hpin. reflexivity.
  - destruct (removeTag_removes_every_occurrence Sample.env1 Sample.env2 "c"
                Sample.tagged _ Htags)
      as [_ (_ & _ & _ & _ & _ & _ & _ & _ & _ & _ & Hback)].
    assert (Hnot : ~ VStr "c" ∈ [VStr "b"; VStr "a"; VStr "b"]).
    { intros Hin. apply list_elem_of_In in Hin.
      repeat (destruct Hin as [Hin|Hin]; [discriminate Hin|]). exact Hin. }
    assert (Hadd : Correlation.addTag Sample.env2 (VStr "c") Sample.tagged
                   = Ok (<["updatedAt" := VStr (now Sample.env2)]>
                           (<["tags" := VArr ([VStr "b"; VStr "a"; VStr "b"] ++ [VStr "c"])]>
                              Sample.tagged))).
    { unfold Correlation.addTag. rewrite Htags. reflexivity. }
    destruct (Hback Hnot _ Hadd) as (this2 & Hremove & Hleft).
    eexists _, this2. split; [exact Hadd|]. split; [exact Hremove | exact Hleft].
Defined.

(** ** Properties outside the schema *)

Lemma Joi_validate_agree (is_iso_date : string -> bool)
      (keys : list (string * Joi.schema)) (abortEarly : bool) (this this' : bag) :
  (forall k, In k (schema_keys keys) -> this !! k = this' !! k) ->
  Joi.validate is_iso_date keys abortEarly this
  = Joi.validate is_iso_date keys abortEarly this'.
Proof.
  intros Hagree. unfold Joi.validate.
  assert (Heq : List.map (fun '(k, s) => Joi.errors is_iso_date s k (default VUndefined (this !! k)))
                         keys
                = List.map (fun '(k, s) =>
                              Joi.errors is_iso_date s k (default VUndefined (this' !! k))) keys).
  { apply map_ext_in. intros [k s] Hin. rewrite (Hagree k); [done|].
    unfold schema_keys. apply in_map_iff. by exists (k, s). }
  by rewrite Heq.
Qed.

(** X9.  [validate()] reads the schema keys (and [constructor]) only:
    setting a property of any other name to any value never changes its
    outcome ([allowUnknown]). *)
Theorem validate_ignores_unknown_keys (is_iso_date : string -> bool) (this : bag)
        (k : string) (v : value) :
  k <> "constructor" ->
  (~ In k (schema_keys Dataset.schema) ->
   validate (Dataset.model is_iso_date) (<[k := v]> this)
   = validate (Dataset.model is_iso_date) this)
  /\
  (~ In k (schema_keys Correlation.schema) ->
   validate (Correlation.model is_iso_date) (<[k := v]> this)
   = validate (Correlation.model is_iso_date) this).
Proof.
  intros Hctor.
  assert (Hagree : forall keys : list (string * Joi.schema),
             ~ In k (schema_keys keys) ->
             forall k', In k' (schema_keys keys) -> <[k := v]> this !! k' = this !! k').
  { intros keys Hk k' Hk'. apply lookup_insert_ne. by intros ->. }
  split; intros Hk.
  - cbn [validate Dataset.model]. unfold validate_base, static_schema.
    rewrite lookup_insert_ne by done.
    rewrite (Joi_validate_agree _ _ _ _ this (Hagree _ Hk)). reflexivity.
  - cbn [validate Correlation.model].
    unfold Correlation.validate, validate_base, static_schema.
    rewrite lookup_insert_ne by done.
    rewrite (Joi_validate_agree _ _ _ _ this (Hagree _ Hk)).
    unfold get.
    rewrite !(Hagree _ Hk) by (cbn; tauto).
    reflexivity.
Qed.

(** The witness of X9: a property named extra on a new dataset. *)
Lemma validate_ignores_unknown_keys_witness :
  validate (Dataset.model Sample.iso_utc)
    (<["extra" := num 1]> (new (Dataset.model Sample.iso_utc) Sample.env0 Sample.dataset))
  = validate (Dataset.model Sample.iso_utc)
      (new (Dataset.model Sample.iso_utc) Sample.env0 Sample.dataset).
Proof.
  destruct (validate_ignores_unknown_keys Sample.iso_utc
              (new (Dataset.model Sample.iso_utc) Sample.env0 Sample.dataset)
              "extra" (num 1) ltac:(discriminate)) as [Hdataset _].
  apply Hdataset. cbn. intros H.
  repeat (destruct H as [H|H]; [discriminate H|]). exact H.
Defined.

(** ** Counting accesses *)

Lemma qc_succ (n : nat) : (qc (Z.of_nat n) + 1 = qc (Z.of_nat (S n)))%Qc.
Proof.
  apply Qc_is_canon. unfold qc. cbn -[Z.of_nat inject_Z Qred].
  rewrite !Qred_correct. rewrite Nat2Z.inj_succ, <- Z.add_1_r, inject_Z_plus.
  reflexivity.
Qed.

Lemma falsy_number (q : Qc) : truthy (VNum q) = false -> q = qc 0.
Proof.
  cbn. rewrite negb_false_iff. unfold qc_eqb. intros H.
  apply Qeq_bool_eq in H. by apply Qc_is_canon.
Qed.

(** One call on a dataset whose metadata is a plain object *)
Lemma incrementAccessCount_step (env : Env) (this : bag) (m : gmap string value) :
  get this "metadata" = VObj m ->
  exists this' m',
    Dataset.incrementAccessCount env this = Ok this' /\
    get this' "metadata" = VObj m' /\
    (forall q, get m "accessCount" = VNum q -> get m' "accessCount" = VNum (q + 1)%Qc) /\
    (truthy (get m "accessCount") = false -> get m' "accessCount" = VNum (qc 0 + 1)%Qc).
Proof.
  intros Hm. unfold Dataset.incrementAccessCount. rewrite Hm.
  eexists _, _. split; [reflexivity|]. split_and!.
  - unfold get. by rewrite lookup_insert_eq.
  - intros q Hq. unfold get in Hq |- *. rewrite lookup_insert_eq. cbn [default].
    rewrite Hq. destruct (truthy (VNum q)) eqn:Ht.
    + by rewrite Hq.
    + apply falsy_number in Ht as ->. by rewrite lookup_insert_eq.
  - intros Hf. unfold get in Hf |- *. rewrite lookup_insert_eq. cbn [default].
    rewrite Hf. by rewrite lookup_insert_eq.
Qed.

Lemma incrementAccessCount_run (envs : list Env) (this : bag) (m : gmap string value) :
  get this "metadata" = VObj m ->
  exists this' m',
    List.fold_left (fun r env => r ≫= Dataset.incrementAccessCount env) envs (Ok this)
      = Ok this' /\
    get this' "metadata" = VObj m' /\
    forall q, get m "accessCount" = VNum q ->
              get m' "accessCount" = VNum (q + qc (Z.of_nat (length envs)))%Qc.
Proof.
  revert this m. induction envs as [|env envs IH]; intros this m Hm.
  - exists this, m. cbn. split_and!; [done..|]. intros q ->. by rewrite Qcplus_0_r.
  - cbn [List.fold_left mbind result_bind].
    destruct (incrementAccessCount_step env this m Hm) as (this1 & m1 & Hstep & Hm1 & Hnum & _).
    rewrite Hstep.
    destruct (IH this1 m1 Hm1) as (this' & m' & Hrun & Hm' & Hcount).
    exists this', m'. split_and!; [done..|].
    intros q Hq. rewrite (Hcount _ (Hnum q Hq)). f_equal. cbn [length].
    rewrite <- qc_succ. ring.
Qed.

Lemma qc_add (a b : Z) : (qc a + qc b = qc (a + b))%Qc.
Proof.
  apply Qc_is_canon. unfold qc. cbn -[inject_Z Qred].
  rewrite !Qred_correct, inject_Z_plus. reflexivity.
Qed.

(** X10.  On a dataset whose metadata is a plain object, calls of
    [incrementAccessCount] never throw, and within the safe integers
    they count: [n] calls turn an [accessCount] that is the integer [z]
    into [z + n], when [z] and [z + n] are safe integers, and leave [n]
    when there was no [accessCount] (or a falsy one) before. *)
Theorem incrementAccessCount_counts (envs : list Env) (this : bag)
        (m : gmap string value) :
  get this "metadata" = VObj m ->
  exists this' m',
    List.fold_left (fun r env => r ≫= Dataset.incrementAccessCount env) envs (Ok this)
      = Ok this' /\
    get this' "metadata" = VObj m' /\
    (forall z, get m "accessCount" = num z ->
               isSafeInteger z = true ->
               isSafeInteger (z + Z.of_nat (length envs)) = true ->
               get m' "accessCount" = num (z + Z.of_nat (length envs))) /\
    (truthy (get m "accessCount") = false -> envs <> [] ->
     isSafeInteger (Z.of_nat (length envs)) = true ->
     get m' "accessCount" = num (Z.of_nat (length envs))).
Proof.
  intros Hm.
  destruct (incrementAccessCount_run envs this m Hm) as (this' & m' & Hrun & Hm' & Hnum).
  exists this', m'. split_and!; [done..| |].
  - intros z Hz _ _. rewrite (Hnum _ Hz). unfold num. by rewrite qc_add.
  - intros Hfalsy Hne _. destruct envs as [|env envs]; [done|].
    cbn [List.fold_left mbind result_bind] in Hrun.
    destruct (incrementAccessCount_step env this m Hm) as (this1 & m1 & Hstep & Hm1 & _ & Hf).
    rewrite Hstep in Hrun.
    destruct (incrementAccessCount_run envs this1 m1 Hm1) as (this2 & m2 & Hrun2 & Hm2 & Hnum2).
    rewrite Hrun2 in Hrun. injection Hrun as ->.
    rewrite Hm2 in Hm'. injection Hm' as ->.
    rewrite (Hnum2 _ (Hf Hfalsy)). unfold num. f_equal. cbn [length].
    rewrite <- qc_succ. change (qc 0) with 0%Qc. ring.
Qed.

(** The witness of X10: two accesses of a new dataset, and three of one
    that has been counted five times. *)
Lemma incrementAccessCount_counts_witness :
  (exists this' m',
      List.fold_left (fun r env => r ≫= Dataset.incrementAccessCount env)
        [Sample.env1; Sample.env2]
        (Ok (new (Dataset.model Sample.iso_utc) Sample.env0 Sample.dataset)) = Ok this' /\
      get this' "metadata" = VObj m' /\
      get m' "accessCount" = num 2)
  /\
  (exists this' m',
      List.fold_left (fun r env => r ≫= Dataset.incrementAccessCount env)
        [Sample.env0; Sample.env1; Sample.env2] (Ok Sample.accessed) = Ok this' /\
      get this' "metadata" = VObj m' /\
      get m' "accessCount" = num 8).
Proof.
  split.
  - destruct (incrementAccessCount_counts [Sample.env1; Sample.env2]
                (new (Dataset.model Sample.iso_utc) Sample.env0 Sample.dataset) ∅)
      as (this' & m' & Hrun & Hm' & _ & Hcount).
    + vm_compute. reflexivity.
    + exists this', m'. split; [exact Hrun|]. split; [exact Hm'|].
      apply Hcount; [reflexivity | discriminate | reflexivity].
  - destruct (incrementAccessCount_counts [Sample.env0; Sample.env1; Sample.env2]
                Sample.accessed (<["accessCount" := num 5]> ∅))
      as (this' & m' & Hrun & Hm' & Hcount & _).
    + vm_compute. reflexivity.
    + exists this', m'. split; [exact Hrun|]. split; [exact Hm'|].
      apply (Hcount 5%Z); [vm_compute; reflexivity | reflexivity | reflexivity].
Defined.

(** ** The range rules of [Correlation.validate] *)

Lemma validate_nil_inv (is_iso_date : string -> bool) (keys : list (string * Joi.schema))
      (this : bag) (k : string) (s : Joi.schema) :
  Joi.validate is_iso_date keys false this = [] ->
  In (k, s) keys ->
  Joi.errors is_iso_date s k (get this k) = [].
Proof.
  unfold Joi.validate. intros Hnil Hin.
  induction keys as [|[k' s'] keys IH]; [done|].
  cbn [List.map concat] in Hnil. apply app_eq_nil in Hnil as [Hhead Htail].
  destruct Hin as [[= -> ->]|Hin]; [exact Hhead | by apply IH].
Qed.

(** What passes [Joi.number().min(0).max(1)] and is no string lies
    between 0 and 1 for [<] and [>] as well. *)
Lemma unit_interval_field (is_iso_date : string -> bool) (k : string) (v : value) :
  Joi.errors is_iso_date (Joi.number .> Joi.min 0 .> Joi.max 1 .> Joi.default) k v = [] ->
  (forall s, v <> VStr s) ->
  lt_num v (qc 0) = false /\ gt_num v (qc 1) = false.
Proof.
  intros Herr Hstr.
  destruct v as [| |b| |q|s|ms iso|l|m]; try (by cbn in Herr); try done.
  - cbn in Herr.
    destruct (qc_ltb Joi.max_safe q || qc_ltb q (- Joi.max_safe)); [done|].
    unfold Joi.rule_errors in Herr. cbn [List.filter Joi.rule_ok] in Herr.
    unfold lt_num, gt_num, qc_ltb. cbn [to_number].
    unfold qc_leb in Herr.
    destruct (Qle_bool (this (qc 0)) (this q)); [|by cbn in Herr].
    cbn [negb] in Herr.
    destruct (Qle_bool (this q) (this (qc 1))); [done|by cbn in Herr].
  - by destruct (Hstr s).
Qed.

(** X11.  On an instance whose [confidence] and [validityScore] are not
    strings, [validate()] never throws "Confidence must be between 0 and
    1" or "Validity score must be between 0 and 1": what would break
    these two rules has already failed the schema, whose error is the
    one thrown. *)
Theorem range_rules_never_fire (is_iso_date : string -> bool) (this : bag) (msg : string) :
  (forall s, get this "confidence" <> VStr s) ->
  (forall s, get this "validityScore" <> VStr s) ->
  Correlation.validate is_iso_date this = Throw msg ->
  msg <> "Confidence must be between 0 and 1" /\
  msg <> "Validity score must be between 0 and 1".
Proof.
  intros Hc Hv. unfold Correlation.validate, validate_base, static_schema.
  destruct (this !! "constructor"); [by intros [= <-]|].
  destruct (Joi.validate is_iso_date Correlation.schema false this) as [|d ds] eqn:Hjoi.
  - cbn [mbind result_bind].
    destruct (unit_interval_field is_iso_date "confidence" (get this "confidence"))
      as [Hc1 Hc2]; [|done|].
    { apply (validate_nil_inv _ _ _ _ _ Hjoi). cbn. tauto. }
    destruct (unit_interval_field is_iso_date "validityScore" (get this "validityScore"))
      as [Hv1 Hv2]; [|done|].
    { apply (validate_nil_inv _ _ _ _ _ Hjoi). cbn. tauto. }
    rewrite Hc1, Hc2, Hv1, Hv2. cbn [orb].
    destruct (strict_eq _ _); [by intros [= <-] | done].
  - cbn [mbind result_bind]. intros [= <-]. split; intros [=].
Qed.

(** The witness of X11: a correlation of a dataset with itself. *)
Lemma range_rules_never_fire_witness :
  Correlation.validate Sample.iso_utc
    (new (Correlation.model Sample.iso_utc) Sample.env0 (Sample.payload Sample.id2 Sample.id2))
  = Throw "Source and target datasets cannot be the same" /\
  "Source and target datasets cannot be the same" <> "Confidence must be between 0 and 1" /\
  "Source and target datasets cannot be the same" <> "Validity score must be between 0 and 1".
Proof.
  assert (Hthrown :
            Correlation.validate Sample.iso_utc
              (new (Correlation.model Sample.iso_utc) Sample.env0
                   (Sample.payload Sample.id2 Sample.id2))
            = Throw "Source and target datasets cannot be the same")
    by (vm_compute; reflexivity).
  split; [exact Hthrown|].
  apply (range_rules_never_fire Sample.iso_utc
           (new (Correlation.model Sample.iso_utc) Sample.env0
                (Sample.payload Sample.id2 Sample.id2))).
  - intros s. vm_compute. discriminate.
  - intros s. vm_compute. discriminate.
  - exact Hthrown.
Defined.

(** ** Reading a count back *)

Lemma digit_of_pretty_N_char (d : N) :
  (d < 10)%N -> digit_of (pretty_N_char d) = Some (Z.of_N d).
Proof.
  intros Hd.
  assert (d = 0 \/ d = 1 \/ d = 2 \/ d = 3 \/ d = 4 \/ d = 5 \/ d = 6 \/ d = 7 \/ d = 8 \/ d = 9)%N
    as H by lia.
  repeat (destruct H as [->|H]; [reflexivity|]). by subst.
Qed.

(** Reading the digits that [pretty] wrote in front of [s] *)
Lemma take_digits_pretty_N_go (x : N) (s : string) (acc : Z) (n : nat) :
  exists k,
    take_digits digit_of 10 (pretty_N_go x s) acc n
    = take_digits digit_of 10 s (acc * 10 ^ Z.of_nat k + Z.of_N x)%Z (n + k)
    /\ ((0 < x)%N -> 0 < k).
Proof.
  revert s acc n. induction (N.lt_wf_0 x) as [x _ IH]; intros s acc n.
  destruct (decide (x = 0)%N) as [->|Hx].
  - exists 0. rewrite pretty_N_go_0. split; [|lia].
    f_equal; [f_equal; lia | lia].
  - rewrite pretty_N_go_step by lia.
    destruct (IH (x `div` 10)%N (N.div_lt x 10 ltac:(lia) eq_refl)
                 (String (pretty_N_char (x `mod` 10)) s) acc n) as (k & Hk & _).
    exists (S k). split; [|lia]. rewrite Hk. cbn [take_digits].
    rewrite digit_of_pretty_N_char by (apply N.mod_lt; lia).
    replace (S (n + k)) with (n + S k) by lia.
    apply (f_equal (fun v => take_digits digit_of 10 s v (n + S k))).
    rewrite Nat2Z.inj_succ, Z.pow_succ_r by lia.
    rewrite N2Z.inj_div, N2Z.inj_mod.
    change (Z.of_N 10) with 10%Z.
    pose proof (Z.div_mod (Z.of_N x) 10 ltac:(lia)) as Hdm.
    set (a := (Z.of_N x / 10)%Z) in *. set (b := (Z.of_N x mod 10)%Z) in *.
    rewrite Hdm. ring.
Qed.

Lemma digit_not_blank (c : ascii) (d : Z) :
  digit_of c = Some d ->
  is_ws c = false /\ c <> "-"%char /\ c <> "+"%char /\ c <> "x"%char /\ c <> "X"%char.
Proof.
  destruct c as [[] [] [] [] [] [] [] []]; vm_compute; intros H;
    first [discriminate H | by split_and!].
Qed.

Lemma parseInt_digits_core (neg : bool) (c : ascii) (r : string) (v : Z) (k : nat) :
  take_digits digit_of 10 (String c r) 0 0 = (v, k, "") -> 0 < k ->
  (let '(v0, n, _) :=
     match String c r with
     | String "0" (String x r0) =>
         if Ascii.eqb x "x" || Ascii.eqb x "X"
         then take_digits hex_of 16 r0 0%Z 0%nat
         else take_digits digit_of 10 (String c r) 0%Z 0%nat
     | _ => take_digits digit_of 10 (String c r) 0%Z 0%nat
     end in
   if Nat.eqb n 0 then VNaN else num (if neg then - v0 else v0))
  = num (if neg then - v else v).
Proof.
  intros Hp Hk.
  assert (Hdone : (let '(v0, n, _) := take_digits digit_of 10 (String c r) 0 0 in
                   if Nat.eqb n 0 then VNaN else num (if neg then - v0 else v0))
                  = num (if neg then - v else v)).
  { rewrite Hp. destruct k; [lia|]. reflexivity. }
  destruct (Ascii.eqb_spec c "0") as [->|Hne].
  - destruct r as [|x r0]; [exact Hdone|].
    assert (Hx : exists dx, digit_of x = Some dx).
    { cbn [take_digits] in Hp. change (digit_of "0") with (Some 0%Z) in Hp.
      cbv iota in Hp. cbn [take_digits] in Hp.
      destruct (digit_of x); [eauto|]. by injection Hp. }
    destruct Hx as [dx Hx].
    destruct (digit_not_blank x dx Hx) as (_ & _ & _ & Hx1 & Hx2).
    apply Ascii.eqb_neq in Hx1, Hx2. cbv iota. rewrite Hx1, Hx2. exact Hdone.
  - destruct c as [[] [] [] [] [] [] [] []]; first [congruence | exact Hdone].
Qed.

Lemma parseInt_str_digits (p : string) (v : Z) (k : nat) :
  take_digits digit_of 10 p 0 0 = (v, k, "") -> 0 < k ->
  parseInt_str p = num v /\ parseInt_str ("-" +:+ p) = num (- v).
Proof.
  intros Hp Hk.
  destruct p as [|c r]; [cbn in Hp; injection Hp as <- <-; lia|].
  assert (Hc : exists d, digit_of c = Some d).
  { cbn [take_digits] in Hp. destruct (digit_of c); [eauto|]. injection Hp as <- <-. lia. }
  destruct Hc as [d Hc].
  destruct (digit_not_blank c d Hc) as (Hws & Hminus & Hplus & _).
  assert (Hskip : skip_ws (String c r) = String c r) by (cbn; by rewrite Hws).
  assert (Hsign : take_sign (String c r) = (false, String c r)).
  { destruct c as [[] [] [] [] [] [] [] []]; try reflexivity; congruence. }
  split.
  - unfold parseInt_str. rewrite Hskip, Hsign.
    exact (parseInt_digits_core false c r v k Hp Hk).
  - unfold parseInt_str.
    change (skip_ws ("-" +:+ String c r)) with (String "-" (String c r)).
    change (take_sign (String "-" (String c r))) with (true, String c r).
    exact (parseInt_digits_core true c r v k Hp Hk).
Qed.

Lemma parseInt_pretty (z : Z) : parseInt (VStr (pretty z)) = num z.
Proof.
  cbn [parseInt to_string].
  destruct z as [|x|x]; [reflexivity|..].
  - unfold pretty, pretty_Z, pretty, pretty_positive, pretty, pretty_N.
    destruct (decide (N.pos x = 0%N)); [done|].
    destruct (take_digits_pretty_N_go (N.pos x) "" 0 0) as (k & Hk & Hpos).
    cbn [take_digits] in Hk.
    apply (parseInt_str_digits _ _ _ Hk). apply Hpos. lia.
  - unfold pretty, pretty_Z, pretty, pretty_positive, pretty, pretty_N.
    destruct (decide (N.pos x = 0%N)); [done|].
    destruct (take_digits_pretty_N_go (N.pos x) "" 0 0) as (k & Hk & Hpos).
    cbn [take_digits] in Hk.
    apply (parseInt_str_digits _ _ _ Hk). apply Hpos. lia.
Qed.

(** X12.  [count] returns the number [n] when storage answers the
    count as the decimal string of [n], the form in which the driver
    hands a [bigint] over, and [n] is a safe integer; it issues the one
    statement. *)
Theorem count_reads_decimal_string (W : BaseRepository.World) (C : class)
        (entries : list (string * value)) (s : BaseRepository.State)
        (n : Z) (row : bag) (rest : list bag) :
  BaseRepository.respond W (BaseRepository.issued s) (BaseRepository.count_stmt C entries)
    = Rows (row :: rest) ->
  get row "count" = VStr (pretty n) ->
  isSafeInteger n = true ->
  BaseRepository.count W C entries s
  = (Ok (num n),
     {| BaseRepository.issued := BaseRepository.issued s ++ [BaseRepository.count_stmt C entries];
        BaseRepository.tick := BaseRepository.tick s |}).
Proof.
  intros Hrows Hcount _. unfold BaseRepository.count.
  pose proof (query_run W (text (BaseRepository.count_stmt C entries))
                (params (BaseRepository.count_stmt C entries)) s) as Hq.
  replace {| text := text (BaseRepository.count_stmt C entries);
             params := params (BaseRepository.count_stmt C entries) |}
    with (BaseRepository.count_stmt C entries) in Hq
    by (by destruct (BaseRepository.count_stmt C entries)).
  rewrite Hrows in Hq. erewrite bind_ok by apply Hq. cbv beta iota.
  rewrite Hcount, parseInt_pretty. reflexivity.
Qed.

(** The witness of X12: storage that counts 42 rows. *)
Lemma count_reads_decimal_string_witness :
  BaseRepository.count (Sample.world [Sample.counted]) (Correlation.model Sample.iso_utc)
    [] Sample.start
  = (Ok (num 42),
     {| BaseRepository.issued :=
          BaseRepository.issued Sample.start ++
          [BaseRepository.count_stmt (Correlation.model Sample.iso_utc) []];
        BaseRepository.tick := BaseRepository.tick Sample.start |}).
Proof.
  apply (count_reads_decimal_string (Sample.world [Sample.counted])
           (Correlation.model Sample.iso_utc) [] Sample.start 42 Sample.counted []).
  - reflexivity.
  - vm_compute. reflexivity.
  - reflexivity.
Defined.

(** ** The hand-written statements of the repositories *)

Section SingleRow.
Import BaseRepository.
Variable W : World.
Variable C : class.

(** A statement of which the first row, if any, is mapped back *)
Lemma first_row_run (q : string) (ps : list param) (missing : string) s :
  (rows ← query W q ps;
   match rows with
   | [] => throw missing
   | row :: _ => fromDatabase W C (Some row)
   end) s
  = match respond W (issued s) {| text := q; params := ps |} with
    | Rows [] =>
        (Throw missing, {| issued := issued s ++ [{| text := q; params := ps |}];
                           tick := tick s |})
    | Rows (row :: _) =>
        (Ok (Some (new C (reading W (tick s)) row)),
         {| issued := issued s ++ [{| text := q; params := ps |}]; tick := S (tick s) |})
    | Failure msg =>
        (Throw msg, {| issued := issued s ++ [{| text := q; params := ps |}];
                       tick := tick s |})
    end.
Proof.
  pose proof (query_run W q ps s) as Hq.
  destruct (respond W (issued s) _) as [[|row rows]|msg].
  - erewrite bind_ok by apply Hq. reflexivity.
  - erewrite bind_ok by apply Hq. unfold fromDatabase.
    erewrite bind_ok by apply construct_run. unfold mret, M_ret, advance. cbn.
    by replace (tick s + 1) with (S (tick s)) by lia.
  - erewrite bind_throw by apply Hq. reflexivity.
Qed.

End SingleRow.

(** X13.  [CorrelationRepository.updateValidation] with a status binds
    three parameters, score, status and id, and writes [$3] twice: for
    the status to set and for the id to match; [$2], the status, occurs
    nowhere in the text.  Without a status it binds score and id, and
    the text tests the id against [$2] and sets no status. *)
Theorem updateValidation_placeholders (is_iso_date : string -> bool)
        (id validityScore status : value) :
  let st :=
    CorrelationRepository.updateValidation_stmt (Correlation.model is_iso_date)
      id validityScore status in
  (truthy status = true ->
   params st = [PValue validityScore; PValue status; PValue id] /\
   str_includes (text st) ", status = $3" = true /\
   str_includes (text st) "WHERE id = $3" = true /\
   str_includes (text st) "$2" = false)
  /\
  (truthy status = false ->
   params st = [PValue validityScore; PValue id] /\
   str_includes (text st) "status =" = false /\
   str_includes (text st) "WHERE id = $2" = true).
Proof.
  intros st. unfold st, CorrelationRepository.updateValidation_stmt.
  assert (Hdef : truthy (BaseRepository.or_default VNull status) = truthy status)
    by (by destruct status).
  rewrite Hdef.
  assert (Hsame : truthy status = true -> BaseRepository.or_default VNull status = status)
    by (by destruct status).
  split; intros Ht; rewrite Ht.
  - rewrite (Hsame Ht). split; [reflexivity|]. split_and!; vm_compute; reflexivity.
  - split; [reflexivity|]. split_and!; vm_compute; reflexivity.
Qed.


(** The witness of X13: a validation with the status validated. *)
Lemma updateValidation_placeholders_witness :
  let st :=
    CorrelationRepository.updateValidation_stmt (Correlation.model Sample.iso_utc)
      (VStr Sample.id4) (num 1) (VStr "validated") in
  params st = [PValue (num 1); PValue (VStr "validated"); PValue (VStr Sample.id4)] /\
  str_includes (text st) ", status = $3" = true /\
  str_includes (text st) "WHERE id = $3" = true /\
  str_includes (text st) "$2" = false.
Proof.
  intros st.
  destruct (updateValidation_placeholders Sample.iso_utc (VStr Sample.id4) (num 1)
              (VStr "validated")) as [Hstatus _].
  apply Hstatus. reflexivity.
Defined.

(** X14.  [findSimilarCorrelations] looks the reference up first: when
    storage does not know it, "Reference correlation not found" is
    thrown and the search is never issued; when the lookup is rejected,
    so is the call; otherwise the search binds the id, then the type and
    confidence of the reference, the threshold (0.8 when none is given)
    and the two dataset ids of the reference. *)
Theorem findSimilarCorrelations_needs_reference (W : BaseRepository.World) (C : class)
        (s : BaseRepository.State) (correlationId threshold : value) :
  let select := {| text := BaseRepository.findById_text C;
                   params := [PValue correlationId] |} in
  match BaseRepository.respond W (BaseRepository.issued s) select with
  | Rows [] =>
      CorrelationRepository.findSimilarCorrelations W C correlationId threshold s
      = (Throw "Reference correlation not found",
         {| BaseRepository.issued := BaseRepository.issued s ++ [select];
            BaseRepository.tick := BaseRepository.tick s |})
  | Failure msg =>
      CorrelationRepository.findSimilarCorrelations W C correlationId threshold s
      = (Throw msg,
         {| BaseRepository.issued := BaseRepository.issued s ++ [select];
            BaseRepository.tick := BaseRepository.tick s |})
  | Rows (row :: _) =>
      let reference := new C (BaseRepository.reading W (BaseRepository.tick s)) row in
      let similar :=
        {| text := CorrelationRepository.findSimilarCorrelations_text C;
           params := [ PValue correlationId; read C reference "type";
                       read C reference "confidence";
                       PValue (BaseRepository.or_default (VNum (Q2Qc (8 # 10))) threshold);
                       read C reference "sourceDatasetId";
                       read C reference "targetDatasetId" ] |} in
      BaseRepository.issued
        (CorrelationRepository.findSimilarCorrelations W C correlationId threshold s).2
      = (BaseRepository.issued s ++ [select; similar])%list
  end.
Proof.
  intros select. unfold CorrelationRepository.findSimilarCorrelations.
  pose proof (findById_run W C correlationId s) as Hfind. fold select in Hfind.
  destruct (BaseRepository.respond W (BaseRepository.issued s) select) as [[|row rows]|msg].
  - erewrite bind_ok by apply Hfind. reflexivity.
  - erewrite bind_ok by apply Hfind. cbv iota.
    match goal with |- context [BaseRepository.query W ?q ?ps] =>
      pose proof (query_run W q ps
                    {| BaseRepository.issued := BaseRepository.issued s ++ [select];
                       BaseRepository.tick := S (BaseRepository.tick s) |}) as Hq
    end.
    cbn [BaseRepository.issued BaseRepository.tick] in Hq.
    destruct (BaseRepository.respond W (BaseRepository.issued s ++ [select]) _)
      as [found|msg].
    + erewrite bind_ok by apply Hq.
      match goal with |- context [BaseRepository.fromDatabase_all W C found ?s0] =>
        destruct (fromDatabase_all_run W C found s0) as [xs Hxs]; rewrite Hxs
      end.
      cbn. by rewrite <- app_assoc.
    + erewrite bind_throw by apply Hq. cbn. by rewrite <- app_assoc.
  - erewrite bind_throw by apply Hfind. reflexivity.
Qed.

(** X15.  The single-row updaters of the two repositories issue one
    statement bound to the id and throw "Dataset not found" (or
    "Correlation not found") when it returns no row; otherwise they
    return the entity built from the first row, and an error of storage
    is thrown as it is. *)
Theorem updaters_report_missing_row (W : BaseRepository.World) (C : class)
        (s : BaseRepository.State) (id : value) :
  let outcome (missing : string) (st : Stmt) : result (option bag) * BaseRepository.State :=
    match BaseRepository.respond W (BaseRepository.issued s) st with
    | Rows [] =>
        (Throw missing,
         {| BaseRepository.issued := BaseRepository.issued s ++ [st];
            BaseRepository.tick := BaseRepository.tick s |})
    | Rows (row :: _) =>
        (Ok (Some (new C (BaseRepository.reading W (BaseRepository.tick s)) row)),
         {| BaseRepository.issued := BaseRepository.issued s ++ [st];
            BaseRepository.tick := S (BaseRepository.tick s) |})
    | Failure msg =>
        (Throw msg,
         {| BaseRepository.issued := BaseRepository.issued s ++ [st];
            BaseRepository.tick := BaseRepository.tick s |})
    end in
  (forall recordCount size,
      DatasetRepository.updateStats W C id recordCount size s
      = outcome "Dataset not found"
          {| text := DatasetRepository.updateStats_text C;
             params := [PValue recordCount; PValue size; PValue id] |})
  /\ DatasetRepository.incrementAccessCount W C id s
     = outcome "Dataset not found"
         {| text := DatasetRepository.incrementAccessCount_text C; params := [PValue id] |}
  /\ (forall tag,
      DatasetRepository.addTag W C id tag s
      = outcome "Dataset not found"
          {| text := DatasetRepository.addTag_text C; params := [PValue id; PValue tag] |})
  /\ (forall tag,
      DatasetRepository.removeTag W C id tag s
      = outcome "Dataset not found"
          {| text := DatasetRepository.removeTag_text C; params := [PValue id; PValue tag] |})
  /\ DatasetRepository.archive W C id s
     = outcome "Dataset not found"
         {| text := DatasetRepository.archive_text C; params := [PValue id] |}
  /\ DatasetRepository.activate W C id s
     = outcome "Dataset not found"
         {| text := DatasetRepository.activate_text C; params := [PValue id] |}
  /\ (forall validityScore status,
      CorrelationRepository.updateValidation W C id validityScore status s
      = outcome "Correlation not found"
          (CorrelationRepository.updateValidation_stmt C id validityScore status))
  /\ CorrelationRepository.incrementVersion W C id s
     = outcome "Correlation not found"
         {| text := CorrelationRepository.incrementVersion_text C; params := [PValue id] |}
  /\ CorrelationRepository.archive W C id s
     = outcome "Correlation not found"
         {| text := CorrelationRepository.archive_text C; params := [PValue id] |}.
Proof.
  intros outcome. unfold outcome. split_and!; intros; apply first_row_run.
Qed.


(** ** What is written into the text of a statement *)

Lemma string_app_assoc (a b c : string) : (a +:+ b) +:+ c = a +:+ (b +:+ c).
Proof.
  induction a as [|x a IH]; [done|].
  change (String x ((a +:+ b) +:+ c) = String x (a +:+ (b +:+ c))). by rewrite IH.
Qed.

Lemma prefix_app (t r : string) : String.prefix t (t +:+ r) = true.
Proof.
  induction t as [|x t IH]; [by destruct r|].
  simpl. destruct (ascii_dec x x); [exact IH|done].
Qed.

Lemma str_includes_prefix (s t : string) :
  String.prefix t s = true -> str_includes s t = true.
Proof. intros H. destruct s; cbn [str_includes]; by rewrite H. Qed.

Lemma str_includes_app_r (a s t : string) :
  str_includes s t = true -> str_includes (a +:+ s) t = true.
Proof.
  intros H. induction a as [|x a IH]; [done|].
  change (String x a +:+ s) with (String x (a +:+ s)).
  cbn [str_includes]. rewrite IH. apply orb_true_r.
Qed.

(** A text that holds [t] somewhere *)
Lemma str_includes_inside (a t r : string) : str_includes (a +:+ t +:+ r) t = true.
Proof. apply str_includes_app_r, str_includes_prefix, prefix_app. Qed.

(** X16.  [findRecentlyAccessed] and [getCorrelationTimeline] write
    their [days] argument (7 and 30 when undefined) into the text of the
    statement, inside the INTERVAL literal, and bind no parameter for
    it. *)
Theorem days_are_written_into_the_text (W : BaseRepository.World) (C : class)
        (s : BaseRepository.State) (days : value) :
  (let text := DatasetRepository.findRecentlyAccessed_text C days in
   str_includes text
     ("INTERVAL '" +:+ to_string (BaseRepository.or_default (num 7) days) +:+ " days'") = true /\
   BaseRepository.issued (DatasetRepository.findRecentlyAccessed W C days s).2
   = (BaseRepository.issued s ++ [{| text := text; params := [] |}])%list)
  /\
  (forall datasetId,
      let text := CorrelationRepository.getCorrelationTimeline_text C days in
      str_includes text
        ("INTERVAL '" +:+ to_string (BaseRepository.or_default (num 30) days) +:+ " days'")
      = true /\
      BaseRepository.issued (CorrelationRepository.getCorrelationTimeline W C datasetId days s).2
      = (BaseRepository.issued s ++ [{| text := text; params := [PValue datasetId] |}])%list).
Proof.
  split; [|intros datasetId]; intros text; split.
  - unfold text, DatasetRepository.findRecentlyAccessed_text.
    do 4 apply str_includes_app_r.
    change ("        WHERE last_accessed >= NOW() - INTERVAL '" +:+ ?x)
      with ("        WHERE last_accessed >= NOW() - " +:+ ("INTERVAL '" +:+ x)).
    apply str_includes_app_r.
    rewrite <- (string_app_assoc _ " days'"), <- (string_app_assoc "INTERVAL '").
    apply str_includes_prefix, prefix_app.
  - unfold DatasetRepository.findRecentlyAccessed. fold text.
    pose proof (query_run W text [] s) as Hq.
    destruct (BaseRepository.respond W _ _) as [rows|msg].
    + erewrite bind_ok by apply Hq.
      match goal with |- context [BaseRepository.fromDatabase_all W C rows ?s0] =>
        destruct (fromDatabase_all_run W C rows s0) as [xs Hxs]; rewrite Hxs
      end.
      reflexivity.
    + erewrite bind_throw by apply Hq. reflexivity.
  - unfold text, CorrelationRepository.getCorrelationTimeline_text.
    do 18 apply str_includes_app_r.
    change ("          created_at >= NOW() - INTERVAL '" +:+ ?x)
      with ("          created_at >= NOW() - " +:+ ("INTERVAL '" +:+ x)).
    apply str_includes_app_r.
    rewrite <- (string_app_assoc _ " days'"), <- (string_app_assoc "INTERVAL '").
    apply str_includes_prefix, prefix_app.
  - unfold CorrelationRepository.getCorrelationTimeline. fold text.
    rewrite query_run. by destruct (BaseRepository.respond W _ _).
Qed.

(** ** DatasetSignature *)

Lemma DatasetSignature_other env data k :
  ~ In k ["datasetId"; "statistical"; "semantic"; "structural"; "temporal"; "spatial";
          "version"; "computedAt"; "expiresAt"; "metadata"; "computationTime"; "algorithm";
          "compressionRatio"] ->
  DatasetSignature.constructor env data !! k = BaseModel.constructor env data !! k.
Proof.
  intros Hk. cbn in Hk. unfold DatasetSignature.constructor.
  rewrite !lookup_insert_ne; [done|intros <-; tauto..].
Qed.

Lemma DatasetSignature_statistical env data :
  get (DatasetSignature.constructor env data) "statistical"
  = or (get data "statistical") (VObj ∅).
Proof.
  unfold DatasetSignature.constructor, get.
  rewrite !lookup_insert_ne by done. by rewrite lookup_insert_eq.
Qed.

(** X17.  A signature built from data without a [statistical] component
    never validates: the constructor fills in an empty object, which
    lacks the key [distributions] that [validate()] requires.  For plain
    data that passes the schema this is the error thrown. *)
Theorem signature_without_statistics_is_invalid (details : bag -> list string)
        (env : Env) (data : bag) :
  truthy (get data "statistical") = false ->
  let this := DatasetSignature.constructor env data in
  (exists msg, DatasetSignature.validate details this = Throw msg) /\
  (data !! "constructor" = None -> data !! "validateComponent" = None ->
   details this = [] ->
   DatasetSignature.validate details this
   = Throw "statistical signature missing required key: distributions").
Proof.
  intros Hfalsy this.
  assert (Hcomponent :
            DatasetSignature.validateComponent "statistical"
              ["distributions"; "cardinality"; "correlations"] this
            = Throw "statistical signature missing required key: distributions").
  { unfold DatasetSignature.validateComponent, this.
    rewrite DatasetSignature_statistical. unfold or. rewrite Hfalsy. reflexivity. }
  split.
  - unfold DatasetSignature.validate.
    destruct (DatasetSignature.super_validate details this) as [[]|m];
      [|cbn [mbind result_bind]; by eexists].
    cbn [mbind result_bind]. unfold send.
    destruct (this !! "validateComponent"); [cbn [mbind result_bind]; by eexists|].
    rewrite Hcomponent. cbn [mbind result_bind]. by eexists.
  - intros Hctor Hown Hdetails.
    assert (Hc : this !! "constructor" = None).
    { unfold this. rewrite DatasetSignature_other by (cbn; intuition discriminate).
      by rewrite constructor_lookup, Hctor. }
    assert (Hv : this !! "validateComponent" = None).
    { unfold this. rewrite DatasetSignature_other by (cbn; intuition discriminate).
      by rewrite constructor_lookup, Hown. }
    unfold DatasetSignature.validate, DatasetSignature.super_validate, static_schema, send.
    rewrite Hc, Hv, Hdetails. cbn [mbind result_bind]. by rewrite Hcomponent.
Qed.

(** The witness of X17: a signature of the dataset [id2], and a schema
    pass that reports nothing. *)
Lemma signature_without_statistics_is_invalid_witness :
  DatasetSignature.validate (fun _ => [])
    (DatasetSignature.constructor Sample.env0 (<["datasetId" := VStr Sample.id2]> ∅))
  = Throw "statistical signature missing required key: distributions".
Proof.
  assert (Hnone : truthy (get (<["datasetId" := VStr Sample.id2]> ∅ : bag) "statistical")
                  = false) by (vm_compute; reflexivity).
  destruct (signature_without_statistics_is_invalid (fun _ => []) Sample.env0
              (<["datasetId" := VStr Sample.id2]> ∅) Hnone) as [_ Hmessage].
  apply Hmessage; vm_compute; reflexivity.
Defined.

(** X18.  [toJSON()] of a signature never returns: it asks
    [getCompressionInfo()], which asks [getSize()], which asks
    [toJSON()] again, so whatever room the call stack has, the call
    throws; on an instance with no own property named as a method the
    error is the overflow of the stack. *)
Theorem signature_toJSON_never_returns (stringify_length : json -> value)
        (in_the_past : value -> bool) (depth : nat) (this : bag) :
  (exists msg, DatasetSignature.toJSON stringify_length in_the_past depth this = Throw msg) /\
  (this !! "constructor" = None ->
   (forall m, In m DatasetSignature.methods -> this !! m = None) ->
   DatasetSignature.toJSON stringify_length in_the_past depth this
   = Throw "Maximum call stack size exceeded").
Proof.
  split.
  - induction depth as [|depth [msg IH]]; [cbn [mbind result_bind]; by eexists|].
    cbn [DatasetSignature.toJSON].
    destruct (DatasetSignature.super_toJSON this) as [json|m]; [|cbn [mbind result_bind]; by eexists].
    cbn [mbind result_bind].
    unfold DatasetSignature.getCompressionInfo, DatasetSignature.getSize, send.
    destruct (this !! "isExpired"); [cbn [mbind result_bind]; by eexists|].
    cbn [mbind result_bind].
    destruct (this !! "getCompressionInfo"); [cbn [mbind result_bind]; by eexists|].
    destruct (this !! "getSize"); [cbn [mbind result_bind]; by eexists|].
    destruct (this !! "toJSON"); [cbn [mbind result_bind]; by eexists|].
    rewrite IH. cbn [mbind result_bind]. by eexists.
  - intros Hctor Hplain. induction depth as [|depth IH]; [done|].
    cbn [DatasetSignature.toJSON].
    unfold DatasetSignature.super_toJSON, toJSON_base, static_schema. rewrite Hctor.
    cbn [mbind result_bind]. unfold DatasetSignature.getCompressionInfo,
      DatasetSignature.getSize, send.
    rewrite !Hplain by (cbn; tauto). by rewrite IH.
Qed.

(** ** The connection settings *)

Lemma or_truthy_r (a b : value) : truthy b = true -> truthy (or a b) = true.
Proof. intros Hb. unfold or. by destruct (truthy a) eqn:Ha. Qed.

Lemma digit_of_range (c : ascii) (d : Z) : digit_of c = Some d -> (0 <= d < 10)%Z.
Proof.
  unfold digit_of. set (n := Z.of_nat (nat_of_ascii c)).
  destruct (48 <=? n)%Z eqn:H1, (n <=? 57)%Z eqn:H2; cbn; try discriminate.
  intros [= <-]. apply Z.leb_le in H1, H2. lia.
Qed.

Lemma hex_of_range (c : ascii) (d : Z) : hex_of c = Some d -> (0 <= d < 16)%Z.
Proof.
  unfold hex_of. set (n := Z.of_nat (nat_of_ascii c)).
  destruct (48 <=? n)%Z eqn:H1, (n <=? 57)%Z eqn:H2,
           (65 <=? n)%Z eqn:H3, (n <=? 70)%Z eqn:H4,
           (97 <=? n)%Z eqn:H5, (n <=? 102)%Z eqn:H6; cbn; try discriminate;
    intros [= <-];
    repeat match goal with
           | H : (_ <=? _)%Z = true |- _ => apply Z.leb_le in H
           | H : (_ <=? _)%Z = false |- _ => apply Z.leb_gt in H
           end; lia.
Qed.

(** A run of digits is below the power of the base its length allows. *)
Lemma take_digits_bound (dig : ascii -> option Z) (b : Z) (s : string) :
  (0 < b)%Z ->
  (forall c d, dig c = Some d -> (0 <= d < b)%Z) ->
  forall acc n, (0 <= acc)%Z ->
    (0 <= (take_digits dig b s acc n).1.1 < (acc + 1) * b ^ Z.of_nat (String.length s))%Z.
Proof.
  intros Hb Hdig. induction s as [|c r IH]; intros acc n Hacc.
  - cbn. lia.
  - cbn [take_digits String.length]. rewrite Nat2Z.inj_succ, Z.pow_succ_r by lia.
    assert (Hpow : (0 < b ^ Z.of_nat (String.length r))%Z) by (apply Z.pow_pos_nonneg; lia).
    destruct (dig c) as [d|] eqn:Hc.
    + destruct (Hdig c d Hc) as [Hd0 Hd1].
      destruct (IH (b * acc + d)%Z (S n)) as [Hlo Hhi]; [nia|].
      split; [exact Hlo|]. nia.
    + cbn. nia.
Qed.

Lemma skip_ws_length (s : string) : String.length (skip_ws s) <= String.length s.
Proof.
  induction s as [|c r IH]; [done|]. cbn [skip_ws]. destruct (is_ws c); cbn; lia.
Qed.

Lemma take_sign_length (s : string) : String.length (take_sign s).2 <= String.length s.
Proof.
  destruct s as [|c r]; [done|].
  destruct c as [[] [] [] [] [] [] [] []]; cbn; lia.
Qed.

(** What [parseInt] reads from at most 15 characters is a safe integer. *)
Lemma parseInt_str_safe (s : string) :
  String.length s <= 15 ->
  parseInt_str s = VNaN \/ exists z, parseInt_str s = num z /\ isSafeInteger z = true.
Proof.
  intros Hlen. unfold parseInt_str.
  pose proof (skip_ws_length s) as Hskip.
  pose proof (take_sign_length (skip_ws s)) as Hsign.
  destruct (take_sign (skip_ws s)) as [neg s1]. cbn [snd] in Hsign.
  assert (Hs1 : String.length s1 <= 15) by lia. clear Hlen Hskip Hsign.
  assert (Hdec : forall t, String.length t <= 15 ->
                   (0 <= (take_digits digit_of 10 t 0%Z 0%nat).1.1 <= 2 ^ 53 - 1)%Z).
  { intros t Ht.
    destruct (take_digits_bound digit_of 10 t ltac:(lia) digit_of_range 0%Z 0%nat ltac:(lia))
      as [Hlo Hhi].
    split; [exact Hlo|].
    assert (10 ^ Z.of_nat (String.length t) <= 10 ^ 15)%Z by (apply Z.pow_le_mono_r; lia).
    lia. }
  assert (Hhex : forall t, String.length t <= 13 ->
                   (0 <= (take_digits hex_of 16 t 0%Z 0%nat).1.1 <= 2 ^ 53 - 1)%Z).
  { intros t Ht.
    destruct (take_digits_bound hex_of 16 t ltac:(lia) hex_of_range 0%Z 0%nat ltac:(lia))
      as [Hlo Hhi].
    split; [exact Hlo|].
    assert (16 ^ Z.of_nat (String.length t) <= 16 ^ 13)%Z by (apply Z.pow_le_mono_r; lia).
    lia. }
  set (e := match s1 with
            | String "0" (String x r) =>
                if Ascii.eqb x "x" || Ascii.eqb x "X"
                then take_digits hex_of 16 r 0%Z 0%nat
                else take_digits digit_of 10 s1 0%Z 0%nat
            | _ => take_digits digit_of 10 s1 0%Z 0%nat
            end).
  assert (He : (0 <= e.1.1 <= 2 ^ 53 - 1)%Z).
  { subst e. destruct s1 as [|c [|x r]]; [by apply Hdec| |].
    - destruct c as [[] [] [] [] [] [] [] []]; lazy beta iota; by apply Hdec.
    - destruct c as [[] [] [] [] [] [] [] []]; lazy beta iota;
        first [ by apply Hdec
              | destruct (Ascii.eqb x "x" || Ascii.eqb x "X");
                [apply Hhex; cbn in Hs1; lia | by apply Hdec] ]. }
  destruct e as [[v n] r]. cbn [fst] in He.
  destruct (Nat.eqb n 0); [by left|]. right. eexists. split; [reflexivity|].
  unfold isSafeInteger. apply Z.leb_le. destruct neg; lia.
Qed.

Lemma qc_this (z : Z) : this (qc z) = inject_Z z.
Proof.
  unfold qc. cbn [this Q2Qc]. apply Qred_identity. cbn. apply Z.gcd_1_r.
Qed.

Lemma qc_of_int (q : Qc) : qc_is_int q = true -> q = qc (Qnum (this q)).
Proof.
  unfold qc_is_int. intros Hden. apply Pos.eqb_eq in Hden.
  apply Qc_is_canon. rewrite qc_this. destruct q as [[n d] Hq]. cbn in *. subst d.
  reflexivity.
Qed.

(** A safe integer is written by its digits. *)
Lemma number_to_string_safe (z : Z) :
  isSafeInteger z = true -> number_to_string (qc z) = pretty z.
Proof.
  unfold isSafeInteger. intros Hsafe. apply Z.leb_le in Hsafe.
  unfold number_to_string, qc_is_int. rewrite qc_this.
  destruct (Qeq_bool (inject_Z z) 0) eqn:Hzero.
  - apply Qeq_bool_eq in Hzero. unfold Qeq in Hzero. cbn in Hzero.
    replace z with 0%Z by lia. reflexivity.
  - cbn [Qden inject_Z Qnum]. cbn [Pos.eqb andb].
    assert (Hlt : Qle_bool (inject_Z (10 ^ 21)) (Qabs (inject_Z z)) = false).
    { apply not_true_is_false. intros Hle. apply Qle_bool_iff in Hle.
      unfold Qle in Hle. cbn in Hle. lia. }
    rewrite Hlt. reflexivity.
Qed.

Lemma parseInt_exact (v : value) :
  DatabaseManager.exact_setting v = true ->
  parseInt v = VNaN \/ exists z, parseInt v = num z /\ isSafeInteger z = true.
Proof.
  destruct v; cbn [DatabaseManager.exact_setting]; intros Hv;
    try discriminate; try (left; reflexivity).
  - destruct b; left; reflexivity.
  - apply andb_true_iff in Hv as [Hint Hsafe].
    right. exists (Qnum (this q)). split; [|exact Hsafe].
    rewrite (qc_of_int q Hint) at 1.
    cbn [parseInt to_string]. rewrite number_to_string_safe by exact Hsafe.
    apply (parseInt_pretty (Qnum (this q))).
  - apply parseInt_str_safe. by apply Nat.leb_le.
Qed.

Lemma or_safe_number (v : value) (d : Z) :
  d <> 0%Z -> isSafeInteger d = true ->
  (v = VNaN \/ exists z, v = num z /\ isSafeInteger z = true) ->
  exists z, or v (num d) = num z /\ z <> 0%Z /\ isSafeInteger z = true.
Proof.
  intros Hd Hsafe [->|(z & -> & Hz)]; [by exists d|].
  unfold or. destruct (truthy (num z)) eqn:Ht; [|by exists d].
  exists z. split; [done|]. split; [|done]. intros ->. by vm_compute in Ht.
Qed.

Lemma exact_setting_or (a b : value) :
  DatabaseManager.exact_setting a = true -> DatabaseManager.exact_setting b = true ->
  DatabaseManager.exact_setting (or a b) = true.
Proof. intros Ha Hb. unfold or. by destruct (truthy a). Qed.

(** X19.  For settings that [parseInt] reads within the safe integers
    (strings of at most 15 characters and safe integers, in [config] and
    in the environment), the settings [connectPostgres] hands to the
    pool are filled: host, database, user and password are truthy; port,
    pool size and the two timeouts are safe integers other than 0 (a
    missing, unreadable or zero setting gives 5432, 20, 30000, 2000);
    [ssl] is truthy or [false]. *)
Theorem pgConfig_is_always_filled (config : bag) (env : gmap string string) :
  forallb (fun k => DatabaseManager.exact_setting (get config k))
          ["port"; "maxConnections"; "idleTimeout"; "connectionTimeout"] = true ->
  forallb (fun k => DatabaseManager.exact_setting (Runtime.env_var env k))
          ["DB_PORT"; "DB_MAX_CONNECTIONS"; "DB_IDLE_TIMEOUT"; "DB_CONNECTION_TIMEOUT"]
    = true ->
  let cfg := DatabaseManager.pgConfig config env in
  keys cfg = ["host"; "port"; "database"; "user"; "password"; "max";
              "idleTimeoutMillis"; "connectionTimeoutMillis"; "ssl"] /\
  (forall k, In k ["host"; "database"; "user"; "password"] -> truthy (jget cfg k) = true) /\
  (forall k, In k ["port"; "max"; "idleTimeoutMillis"; "connectionTimeoutMillis"] ->
             exists z, jget cfg k = num z /\ z <> 0%Z /\ isSafeInteger z = true) /\
  (truthy (jget cfg "ssl") = true \/ jget cfg "ssl" = VBool false).
Proof.
  intros Hconfig Henv cfg.
  cbn [forallb] in Hconfig, Henv.
  rewrite !andb_true_iff in Hconfig, Henv.
  destruct Hconfig as (Hc1 & Hc2 & Hc3 & Hc4 & _), Henv as (He1 & He2 & He3 & He4 & _).
  split_and!.
  - reflexivity.
  - intros k Hk. cbn in Hk.
    repeat (destruct Hk as [<-|Hk]; [by apply or_truthy_r|]). done.
  - intros k Hk. cbn in Hk.
    repeat (destruct Hk as [<-|Hk];
            [apply or_safe_number; [done | reflexivity |];
             apply parseInt_exact, exact_setting_or; assumption|]).
    done.
  - cbn. unfold or. destruct (truthy (Obj.get config "ssl")) eqn:Hs; [by left|].
    destruct (strict_eq _ _); [by left | by right].
Qed.

(** The witness of X19: the port given as a number, the pool size by
    the environment, the rest by default. *)
Lemma pgConfig_is_always_filled_witness :
  keys (DatabaseManager.pgConfig Sample.config Sample.environment)
  = ["host"; "port"; "database"; "user"; "password"; "max";
     "idleTimeoutMillis"; "connectionTimeoutMillis"; "ssl"] /\
  (forall k, In k ["host"; "database"; "user"; "password"] ->
             truthy (jget (DatabaseManager.pgConfig Sample.config Sample.environment) k)
             = true) /\
  (forall k, In k ["port"; "max"; "idleTimeoutMillis"; "connectionTimeoutMillis"] ->
             exists z,
               jget (DatabaseManager.pgConfig Sample.config Sample.environment) k = num z /\
               z <> 0%Z /\ isSafeInteger z = true) /\
  (truthy (jget (DatabaseManager.pgConfig Sample.config Sample.environment) "ssl") = true \/
   jget (DatabaseManager.pgConfig Sample.config Sample.environment) "ssl" = VBool false).
Proof.
  apply (pgConfig_is_always_filled Sample.config Sample.environment);
    vm_compute; reflexivity.
Defined.

(** ** The schema a dataset describes *)

Lemma validateSchema_fields_ok (l : list value) :
  Dataset.validateSchema_fields l = Ok tt <->
  Forall (fun field => truthy (Runtime.property field "name") = true /\
                       truthy (Runtime.property field "type") = true) l.
Proof.
  induction l as [|field l IH].
  - split; [intros _; constructor | done].
  - cbn [Dataset.validateSchema_fields]. rewrite Forall_cons, <- IH.
    destruct field; cbn [Runtime.property truthy negb orb];
      try (split; [discriminate | intros [[[=] _] _]]);
      try tauto.
    destruct (truthy (get m "name")), (truthy (get m "type")); cbn [negb orb];
      split; try discriminate; try tauto; intros [[? ?] ?]; discriminate.
Qed.

(** X20.  [validateSchema()] succeeds exactly when [schema] is an
    object and its [fields], when truthy, are an array of which
    every element has a truthy [name] and a truthy [type]; in
    particular it accepts the empty schema the constructor fills in. *)
Theorem validateSchema_accepts (this : bag) :
  let schema := get this "schema" in
  let fields := Runtime.property schema "fields" in
  (Dataset.validateSchema this = Ok tt <->
   truthy schema = true /\ Runtime.typeof_object schema = true /\
   (truthy fields = false \/
    exists l, fields = VArr l /\
              Forall (fun field => truthy (Runtime.property field "name") = true /\
                                   truthy (Runtime.property field "type") = true) l))
  /\
  (forall env data,
      truthy (get data "schema") = false ->
      Dataset.validateSchema (Dataset.constructor env data) = Ok tt).
Proof.
  intros schema fields. split.
  - unfold Dataset.validateSchema. fold schema. fold fields.
    destruct (truthy schema) eqn:Hs; cbn [negb orb]; [|by intuition discriminate].
    destruct (Runtime.typeof_object schema) eqn:Ho; cbn [negb orb];
      [|by intuition discriminate].
    destruct fields as [| | | | | | |l|] eqn:Hf; cbn [truthy Runtime.isArray negb andb].
    all: try (split; [intros _; split_and!; [done..| by left] | done]).
    all: try (split; [discriminate | intros (_ & _ & [[=]|(l & [=] & _)])]).
    + destruct b; cbn [negb andb].
      * split; [discriminate | intros (_ & _ & [[=]|(l & [=] & _)])].
      * split; [intros _; split_and!; [done..| by left] | done].
    + destruct (negb (qc_eqb q (qc 0))) eqn:Hq; cbn [negb andb].
      * split; [discriminate | intros (_ & _ & [[=]|(l & [=] & _)])].
      * split; [intros _; split_and!; [done..| by left] | done].
    + destruct (negb (String.eqb s "")) eqn:Hq; cbn [negb andb].
      * split; [discriminate | intros (_ & _ & [[=]|(l & [=] & _)])].
      * split; [intros _; split_and!; [done..| by left] | done].
    + rewrite validateSchema_fields_ok. split.
      * intros H. split_and!; [done..|]. right. by exists l.
      * intros (_ & _ & [[=]|(l' & [= <-] & H)]). done.
  - intros env data Hfalsy.
    unfold Dataset.validateSchema.
    rewrite Dataset_field_table by (cbn; tauto). unfold or. rewrite Hfalsy. reflexivity.
Qed.

(** ** The same filter, counted and listed *)

Section Filters.
Import BaseRepository.

Lemma where_conditions_agree entries : forall conds p1 p2 n,
  (fold_left findAll_condition entries (conds, p1, n)).1.1
    = (fold_left count_condition entries (conds, p2, n)).1.1 /\
  (fold_left findAll_condition entries (conds, p1, n)).2 = n + length entries.
Proof.
  induction entries as [|[k v] entries IH]; intros conds p1 p2 n; cbn [fold_left length].
  - cbn. split; [reflexivity|lia].
  - destruct v; cbn [findAll_condition count_condition];
      match goal with
      | |- (fold_left _ _ (?c, ?q1, _)).1.1 = (fold_left _ _ (_, ?q2, _)).1.1 /\ _ =>
          destruct (IH c q1 q2 (S n)) as [-> ->]; split; [reflexivity|lia]
      end.
Qed.

Lemma findAll_binds entries : forall conds ps n,
  (fold_left findAll_condition entries (conds, ps, n)).1.2
  = (ps ++ spread bound entries)%list.
Proof.
  induction entries as [|[k v] entries IH]; intros conds ps n; cbn [fold_left].
  - unfold spread. cbn. by rewrite app_nil_r.
  - unfold spread in *. cbn [List.map concat snd].
    destruct v; cbn [findAll_condition bound]; rewrite IH, <- app_assoc; reflexivity.
Qed.

Lemma count_binds entries : forall conds ps n,
  (fold_left count_condition entries (conds, ps, n)).1.2
  = (ps ++ spread (fun v => v) entries)%list.
Proof.
  induction entries as [|[k v] entries IH]; intros conds ps n; cbn [fold_left].
  - unfold spread. cbn. by rewrite app_nil_r.
  - unfold spread in *. cbn [List.map concat snd].
    destruct v; cbn [count_condition]; rewrite IH, <- app_assoc; reflexivity.
Qed.

End Filters.

Lemma string_app_nil_r (a : string) : a +:+ "" = a.
Proof.
  induction a as [|x a IH]; [done|].
  change (String x (a +:+ "") = String x a). by rewrite IH.
Qed.

(** X21.  [count(where)] and [findAll({where, ...})] filter alike: the
    text after the table name is the same WHERE clause in both, which
    [findAll] follows with ORDER BY and with LIMIT and OFFSET numbered
    after the entries of [where]; both bind the same values for the
    entries, except that [findAll] hands a Date over as its ISO string
    and [count] as it is, and [findAll] binds limit and offset last. *)
Theorem count_filters_like_findAll (C : class) (options : BaseRepository.Options) :
  let entries := default [] (BaseRepository.where_ options) in
  let n := length entries in
  exists clause,
    text (BaseRepository.count_stmt C entries)
    = "SELECT COUNT(*) as count FROM " +:+ tableName C +:+ clause /\
    text (BaseRepository.findAll_stmt C options)
    = "SELECT * FROM " +:+ tableName C +:+ clause +:+
      " ORDER BY " +:+
      to_string (BaseRepository.or_default (VStr "createdAt") (BaseRepository.orderBy options))
      +:+ " " +:+
      to_string (BaseRepository.or_default (VStr "DESC") (BaseRepository.order options)) +:+
      " LIMIT " +:+ BaseRepository.placeholder (n + 1) +:+ " OFFSET " +:+ BaseRepository.placeholder (n + 2) /\
    params (BaseRepository.count_stmt C entries)
    = List.map PValue (BaseRepository.spread (fun v => v) entries) /\
    params (BaseRepository.findAll_stmt C options)
    = List.map PValue
        (BaseRepository.spread BaseRepository.bound entries ++
         [BaseRepository.or_default (num 50) (BaseRepository.limit options);
          BaseRepository.or_default (num 0) (BaseRepository.offset options)]).
Proof.
  intros entries n. unfold BaseRepository.count_stmt, BaseRepository.findAll_stmt.
  fold entries.
  destruct (where_conditions_agree entries [] [] [] 1) as [Hconds Hindex].
  pose proof (findAll_binds entries [] [] 1) as Hfind.
  pose proof (count_binds entries [] [] 1) as Hcount.
  destruct (fold_left BaseRepository.findAll_condition entries ([], [], 1))
    as [[conds ps] index].
  destruct (fold_left BaseRepository.count_condition entries ([], [], 1))
    as [[conds' ps'] index'].
  cbn in Hconds, Hindex, Hfind, Hcount. subst conds' index ps ps'.
  replace (n + 1) with (S (length entries)) by (unfold n; lia).
  replace (n + 2) with (S (S (length entries))) by (unfold n; lia).
  exists (match conds with
          | [] => ""
          | _ => " WHERE " +:+ String.concat " AND " conds
          end).
  cbn [text params].
  destruct conds as [|cond conds]; split_and!; try reflexivity;
    rewrite ?string_app_nil_r, ?string_app_assoc; reflexivity.
Qed.

(** ** The columns a correlation is inserted with *)

(** X22.  A correlation built from data that names no [isValid] and no
    [isSignificant] is inserted with these two columns after the
    declared ones: [toJSON()] adds them, [toDatabase()] keeps them, and
    [create] reads both from the instance, where they are the methods
    of the class, so the two last parameters of the INSERT are functions,
    not values. *)
Theorem create_binds_methods_of_correlation (is_iso_date : string -> bool)
        (W : BaseRepository.World) (s : BaseRepository.State) (data : bag) (row : json) :
  let M := Correlation.model is_iso_date in
  let instance := new M (BaseRepository.reading W (BaseRepository.tick s)) data in
  data !! "isValid" = None ->
  data !! "isSignificant" = None ->
  call_validate M instance = Ok tt ->
  call_toDatabase M instance = Ok row ->
  exists declared st,
    BaseRepository.issued (BaseRepository.create W M data s).2
      = (BaseRepository.issued s ++ [st])%list /\
    Forall (fun k => In k (schema_keys Correlation.schema)) declared /\
    text st = BaseRepository.create_text M (declared ++ ["isValid"; "isSignificant"]) /\
    params st
    = (List.map (read M instance) declared
       ++ [PMethod "isValid"; PMethod "isSignificant"])%list.
Proof.
  intros M instance HisValid HisSignificant Hvalid Hrow.
  destruct (create_issues W M data s row Hvalid Hrow) as [Hissued _].
  unfold call_toDatabase, send in Hrow. destruct (instance !! "toDatabase"); [done|].
  apply Correlation_toDatabase in Hrow as (_ & Hkeys & _).
  set (declared :=
         List.filter (fun key => negb (String.eqb key "id"))
           (List.filter (fun k => negb (is_undefined (get instance k)))
              (schema_keys Correlation.schema))).
  assert (Hcolumns : BaseRepository.insert_columns row
                     = (declared ++ ["isValid"; "isSignificant"])%list).
  { unfold BaseRepository.insert_columns. rewrite Hkeys. fold instance.
    rewrite List.filter_app. reflexivity. }
  exists declared, (BaseRepository.create_stmt M instance row).
  split; [exact Hissued|]. split.
  { apply List.Forall_forall. intros k Hk. unfold declared in Hk.
    rewrite !filter_In in Hk. tauto. }
  unfold BaseRepository.create_stmt. cbn [text params]. rewrite Hcolumns.
  split; [reflexivity|]. rewrite List.map_app. f_equal.
  assert (Hmethod : forall m, In m ["isValid"; "isSignificant"] -> data !! m = None ->
                              read M instance m = PMethod m).
  { intros m Hm Hdata. unfold read, instance. cbn [new M Correlation.model].
    rewrite Correlation_other, constructor_lookup, Hdata
      by (cbn in Hm |- *; intuition (subst; discriminate)).
    destruct Hm as [<-|[<-|[]]]; reflexivity. }
  cbn [List.map]. rewrite !Hmethod by (done || cbn; tauto). reflexivity.
Qed.

(** The witness of X22: the correlation of the scenario. *)
Lemma create_binds_methods_of_correlation_witness :
  exists declared st,
    BaseRepository.issued
      (BaseRepository.create (Sample.world []) (Correlation.model Sample.iso_utc)
         (Sample.payload Sample.id2 Sample.id3) Sample.start).2
      = (BaseRepository.issued Sample.start ++ [st])%list /\
    Forall (fun k => In k (schema_keys Correlation.schema)) declared /\
    text st = BaseRepository.create_text (Correlation.model Sample.iso_utc)
                (declared ++ ["isValid"; "isSignificant"]) /\
    params st
    = (List.map (read (Correlation.model Sample.iso_utc)
                   (new (Correlation.model Sample.iso_utc) Sample.env0
                      (Sample.payload Sample.id2 Sample.id3))) declared
       ++ [PMethod "isValid"; PMethod "isSignificant"])%list.
Proof.
  assert (exists row,
             call_toDatabase (Correlation.model Sample.iso_utc)
               (new (Correlation.model Sample.iso_utc) Sample.env0
                  (Sample.payload Sample.id2 Sample.id3)) = Ok row) as [row Hrow]
    by (eexists; vm_compute; reflexivity).
  assert (HisValid : Sample.payload Sample.id2 Sample.id3 !! "isValid" = None)
    by (vm_compute; reflexivity).
  assert (HisSignificant : Sample.payload Sample.id2 Sample.id3 !! "isSignificant" = None)
    by (vm_compute; reflexivity).
  assert (Hvalid : call_validate (Correlation.model Sample.iso_utc)
                     (new (Correlation.model Sample.iso_utc) Sample.env0
                        (Sample.payload Sample.id2 Sample.id3)) = Ok tt)
    by (vm_compute; reflexivity).
  exact (create_binds_methods_of_correlation Sample.iso_utc (Sample.world []) Sample.start
           (Sample.payload Sample.id2 Sample.id3) row HisValid HisSignificant Hvalid Hrow).
Defined.
